(** * das: network builders (models.py) and the training driver (train.py)

    A shallow embedding of the two source files.  Python values that travel
    through dictionaries are [pyval]s, Python ints are [Z], Python floats that
    the code only stores, compares or divides are rationals ([Q]), exceptions
    are an [outcome].  Code that the two files call but do not contain (the
    vendored TCN and Spectrogram layers, das.io, das.data, das.utils,
    das.evaluate, das.predict, das.neptune, the optimiser behind [fit]) is
    collected in records of functions over which every definition is
    parametrised.  The import-time code of train.py (the two try blocks that
    configure tensorflow) is not part of a call of [train] and is left
    out. *)

From Stdlib Require Import ZArith QArith Qround String List Bool Lia.
From stdpp Require Import base option list gmap strings.
Import ListNotations.

Local Open Scope string_scope.
Local Open Scope Z_scope.

(** ** Python values and exceptions *)

#[local] Set Warnings "-register-all".

Inductive pyval : Type :=
| VNone
| VBool (b : bool)
| VInt (z : Z)
| VFloat (q : Q)
| VStr (s : string)
| VList (l : list pyval).

Inductive exn : Type :=
| ValueError (msg : string)
| KeyError (key : string)
| TypeError (msg : string)
| IndexError (msg : string)
| UnboundLocalError (name : string)
| ZeroDivisionError
| LibraryError (origin : string).

Inductive outcome (A : Type) : Type :=
| Ok (a : A)
| Raise (e : exn).
Arguments Ok {A} a.
Arguments Raise {A} e.

Definition obind {A B} (o : outcome A) (f : A -> outcome B) : outcome B :=
  match o with
  | Ok a => f a
  | Raise e => Raise e
  end.

#[global] Instance outcome_ret : MRet outcome := @Ok.
#[global] Instance outcome_bind : MBind outcome := fun A B f o => obind o f.

(** Python truthiness of the values used as conditions. *)
Definition truthy (v : pyval) : bool :=
  match v with
  | VNone => false
  | VBool b => b
  | VInt z => negb (z =? 0)
  | VFloat q => negb (Qeq_bool q 0)
  | VStr s => negb (String.eqb s "")
  | VList l => match l with [] => false | _ => true end
  end.

(** [k in m] *)
Definition has_key (m : gmap string pyval) (k : string) : bool :=
  match m !! k with Some _ => true | None => false end.

(** ** Tensor shapes and layers (tensorflow.keras.layers) *)

Definition dim := option Z.
Definition shape := list dim.

Record tcn_config : Type := {
  tc_nb_filters : Z;
  tc_kernel_size : Z;
  tc_nb_stacks : Z;
  tc_dilations : list Z;
  tc_activation : string;
  tc_use_skip_connections : bool;
  tc_padding : string;
  tc_dropout_rate : Q;
  tc_return_sequences : bool;
  tc_use_separable : pyval;
  tc_name : option string
}.

(** The layers the builders use, with the arguments that vary; the constant
    keyword arguments of the spectrogram (decibel output, trainable kernel,
    its name, channels last) are not recorded. *)
Inductive layer : Type :=
| InputLayer (shp : list Z)
| Spectrogram (n_dft n_hop : Z)
| Reshape (target : list dim)
| TCN (cfg : tcn_config)
| Bidirectional_LSTM (units : Z)
| Dense (units : Z)
| Activation (fn : string)
| MaxPooling1D (pool_size strides : Z)
| UpSampling1D (size : Z).

(** The two layers that live in the repository but outside the two source
    files: only their effect on the shape of a tensor is needed, and it is
    left open. *)
Record Layers : Type := {
  TCN_shape : tcn_config -> shape -> outcome shape;
  Spectrogram_shape : Z -> Z -> shape -> outcome shape
}.

Fixpoint known_dims (s : shape) : option (list Z) :=
  match s with
  | [] => Some []
  | Some d :: s' => option_map (cons d) (known_dims s')
  | None :: _ => None
  end.

Definition prodZ (l : list Z) : Z := fold_right Z.mul 1 l.

Fixpoint replace_last (s : shape) (d : dim) : shape :=
  match s with
  | [] => []
  | [_] => [d]
  | x :: s' => x :: replace_last s' d
  end.

(** Shape inference of the framework layers.  [MaxPooling1D] uses Keras'
    [conv_output_length] for 'valid' padding, [(L - pool + stride) // stride]. *)
Definition layer_shape (lib : Layers) (l : layer) (s : shape) : outcome shape :=
  match l with
  | InputLayer shp => Ok (None :: map Some shp)
  | Spectrogram n_dft n_hop => Spectrogram_shape lib n_dft n_hop s
  | Reshape target =>
      match s with
      | _ :: rest =>
          match known_dims rest, known_dims target with
          | Some ds, Some ts =>
              if prodZ ds =? prodZ ts then Ok (None :: target)
              else Raise (ValueError "total size of new array must be unchanged")
          | _, _ => Raise (ValueError "total size of new array must be unchanged")
          end
      | [] => Raise (ValueError "total size of new array must be unchanged")
      end
  | TCN cfg => TCN_shape lib cfg s
  | Bidirectional_LSTM units =>
      match s with
      | [b; t; _] => Ok [b; t; Some (2 * units)]
      | _ => Raise (ValueError "Input 0 of layer lstm is incompatible with the layer")
      end
  | Dense units =>
      match s with
      | _ :: _ :: _ =>
          match List.last s None with
          | Some _ => Ok (replace_last s (Some units))
          | None => Raise (ValueError "The last dimension of the inputs to Dense should be defined")
          end
      | _ => Raise (ValueError "Input 0 of layer dense is incompatible with the layer")
      end
  | Activation _ => Ok s
  | MaxPooling1D pool strides =>
      match s with
      | [b; Some t; f] =>
          if (t <? pool) || (strides <=? 0)
          then Raise (ValueError "Negative dimension size")
          else Ok [b; Some ((t - pool + strides) / strides); f]
      | _ => Raise (ValueError "Input 0 of layer max_pooling1d is incompatible with the layer")
      end
  | UpSampling1D size =>
      match s with
      | [b; Some t; f] => Ok [b; Some (size * t); f]
      | _ => Raise (ValueError "Input 0 of layer up_sampling1d is incompatible with the layer")
      end
  end.

(** A symbolic tensor knows its shape and the chain of layers that produced
    it, each with the shape it returned. *)
Record tensor : Type := {
  t_shape : shape;
  t_history : list (layer * shape)
}.

Definition Input (shp : list Z) : tensor :=
  let s := None :: map Some shp in
  {| t_shape := s; t_history := [(InputLayer shp, s)] |}.

Definition call_layer (lib : Layers) (l : layer) (t : tensor) : outcome tensor :=
  s ← layer_shape lib l (t_shape t);
  Ok {| t_shape := s; t_history := t_history t ++ [(l, s)] |}.

(** [out.shape[i]], and the product of two such entries. *)
Definition shape_at (t : tensor) (i : nat) : outcome dim :=
  match nth_error (t_shape t) i with
  | Some d => Ok d
  | None => Raise (IndexError "list index out of range")
  end.

Definition dim_mul (a b : dim) : outcome dim :=
  match a, b with
  | Some x, Some y => Ok (Some (x * y))
  | _, _ => Raise (TypeError "unsupported operand type(s) for *: 'NoneType' and 'int'")
  end.

Record optimizer : Type := {
  opt_name : string;
  opt_lr : Q;
  opt_amsgrad : bool;
  opt_clipnorm : Q
}.

Definition Adam (lr : Q) (amsgrad : bool) (clipnorm : Q) : optimizer :=
  {| opt_name := "Adam"; opt_lr := lr; opt_amsgrad := amsgrad; opt_clipnorm := clipnorm |}.

(** A compiled [keras.models.Model]; [m_weights] identifies the current
    values of its trainable parameters. *)
Record Model : Type := {
  m_name : string;
  m_inputs : tensor;
  m_outputs : tensor;
  m_optimizer : optimizer;
  m_loss : string;
  m_sample_weight_mode : option string;
  m_weights : Z
}.

Definition keras_Model (inputs outputs : tensor) (name : string)
    (opt : optimizer) (loss : string) (swm : option string) : Model :=
  {| m_name := name; m_inputs := inputs; m_outputs := outputs;
     m_optimizer := opt; m_loss := loss; m_sample_weight_mode := swm;
     m_weights := 0 |}.

Definition output_shape (m : Model) : shape := t_shape (m_outputs m).
Definition model_layers (m : Model) : list (layer * shape) := t_history (m_outputs m).

(** ** models.py *)

Module models.

(** The parameters of the builders, bound and typed. *)
Record builder_args : Type := {
  nb_freq : Z;
  nb_classes : Z;
  nb_hist : Z;
  nb_filters : Z;
  kernel_size : Z;
  nb_conv : Z;
  loss : string;
  dilations : option (list Z);
  activation : string;
  use_skip_connections : bool;
  return_sequences : bool;
  dropout_rate : Q;
  padding : string;
  sample_weight_mode : option string;
  nb_pre_conv : Z;
  pre_nb_dft : Z;
  nb_lstm_units : Z;
  learning_rate : Q;
  upsample : bool;
  use_separable : pyval
}.

(** *** Calling a [def f(p1, ..., pn=default, **kwignored)]

    Positional arguments fill the parameters in order, keyword arguments
    fill them by name, and the keywords that name no parameter end up in
    [kwignored]. *)
Definition bind_signature (names : list string) (args : list pyval)
    (kwargs : gmap string pyval) : outcome (gmap string pyval) :=
  if (length names <? length args)%nat
  then Raise (TypeError "too many positional arguments")
  else
    let positional := zip names args in
    if existsb (has_key kwargs) (map fst positional)
    then Raise (TypeError "got multiple values for argument")
    else Ok (list_to_map positional ∪ kwargs).

Definition arg_required (b : gmap string pyval) (k : string) : outcome pyval :=
  match b !! k with
  | Some v => Ok v
  | None => Raise (TypeError ("missing required positional argument: " +:+ k))
  end.

Definition as_int (k : string) (v : pyval) : outcome Z :=
  match v with
  | VInt z => Ok z
  | _ => Raise (TypeError (k +:+ " is not an int"))
  end.

Definition as_float (k : string) (v : pyval) : outcome Q :=
  match v with
  | VFloat q => Ok q
  | VInt z => Ok (inject_Z z)
  | _ => Raise (TypeError (k +:+ " is not a float"))
  end.

Definition as_str (k : string) (v : pyval) : outcome string :=
  match v with
  | VStr s => Ok s
  | _ => Raise (TypeError (k +:+ " is not a str"))
  end.

Definition as_opt_str (k : string) (v : pyval) : outcome (option string) :=
  match v with
  | VNone => Ok None
  | VStr s => Ok (Some s)
  | _ => Raise (TypeError (k +:+ " is not a str"))
  end.

Fixpoint as_int_list (k : string) (l : list pyval) : outcome (list Z) :=
  match l with
  | [] => Ok []
  | v :: l' => z ← as_int k v; zs ← as_int_list k l'; Ok (z :: zs)
  end.

Definition as_opt_int_list (k : string) (v : pyval) : outcome (option (list Z)) :=
  match v with
  | VNone => Ok None
  | VList l => zs ← as_int_list k l; Ok (Some zs)
  | _ => Raise (TypeError (k +:+ " is not a list"))
  end.

Definition arg {A} (b : gmap string pyval) (k : string)
    (conv : string -> pyval -> outcome A) (default : A) : outcome A :=
  match b !! k with
  | Some v => conv k v
  | None => Ok default
  end.

Definition as_bool (k : string) (v : pyval) : outcome bool := Ok (truthy v).
Definition as_any (k : string) (v : pyval) : outcome pyval := Ok v.

(** The defaults of the two signatures (they agree on every parameter they
    share). *)
Definition typed_args (b : gmap string pyval) : outcome builder_args :=
  v_nb_freq ← arg_required b "nb_freq" ≫= as_int "nb_freq";
  v_nb_classes ← arg_required b "nb_classes" ≫= as_int "nb_classes";
  v_nb_hist ← arg b "nb_hist" as_int 1;
  v_nb_filters ← arg b "nb_filters" as_int 16;
  v_kernel_size ← arg b "kernel_size" as_int 3;
  v_nb_conv ← arg b "nb_conv" as_int 1;
  v_loss ← arg b "loss" as_str "categorical_crossentropy";
  v_dilations ← arg b "dilations" as_opt_int_list None;
  v_activation ← arg b "activation" as_str "norm_relu";
  v_use_skip_connections ← arg b "use_skip_connections" as_bool true;
  v_return_sequences ← arg b "return_sequences" as_bool true;
  v_dropout_rate ← arg b "dropout_rate" as_float 0%Q;
  v_padding ← arg b "padding" as_str "same";
  v_sample_weight_mode ← arg b "sample_weight_mode" as_opt_str None;
  v_nb_pre_conv ← arg b "nb_pre_conv" as_int 0;
  v_pre_nb_dft ← arg b "pre_nb_dft" as_int 64;
  v_nb_lstm_units ← arg b "nb_lstm_units" as_int 0;
  v_learning_rate ← arg b "learning_rate" as_float (5 # 10000)%Q;
  v_upsample ← arg b "upsample" as_bool true;
  v_use_separable ← arg b "use_separable" as_any (VBool false);
  Ok {| nb_freq := v_nb_freq; nb_classes := v_nb_classes; nb_hist := v_nb_hist;
        nb_filters := v_nb_filters; kernel_size := v_kernel_size; nb_conv := v_nb_conv;
        loss := v_loss; dilations := v_dilations; activation := v_activation;
        use_skip_connections := v_use_skip_connections;
        return_sequences := v_return_sequences; dropout_rate := v_dropout_rate;
        padding := v_padding; sample_weight_mode := v_sample_weight_mode;
        nb_pre_conv := v_nb_pre_conv; pre_nb_dft := v_pre_nb_dft;
        nb_lstm_units := v_nb_lstm_units; learning_rate := v_learning_rate;
        upsample := v_upsample; use_separable := v_use_separable |}.

Definition tcn_stft_params : list string :=
  ["nb_freq"; "nb_classes"; "nb_hist"; "nb_filters"; "kernel_size"; "nb_conv"; "loss";
   "dilations"; "activation"; "use_skip_connections"; "return_sequences"; "dropout_rate";
   "padding"; "sample_weight_mode"; "nb_pre_conv"; "pre_nb_dft"; "nb_lstm_units";
   "learning_rate"; "upsample"; "use_separable"].

Definition tcn_tcn_params : list string :=
  ["nb_freq"; "nb_classes"; "nb_hist"; "nb_filters"; "kernel_size"; "nb_conv"; "loss";
   "dilations"; "activation"; "use_skip_connections"; "return_sequences"; "dropout_rate";
   "padding"; "sample_weight_mode"; "nb_pre_conv"; "learning_rate"; "upsample";
   "use_separable"].

(** [tcn_tcn] has no [pre_nb_dft] and no [nb_lstm_units]: given by keyword
    they are part of [kwignored]. *)
Definition drop_ignored (names : list string) (b : gmap string pyval) : gmap string pyval :=
  filter (fun kv => bool_decide (kv.1 ∈ names)) b.

Section Builders.
Context (lib : Layers).

Definition main_tcn (a : builder_args) (dil : list Z) (stacks : Z) (name : option string)
    : tcn_config :=
  {| tc_nb_filters := nb_filters a; tc_kernel_size := kernel_size a;
     tc_nb_stacks := stacks; tc_dilations := dil; tc_activation := activation a;
     tc_use_skip_connections := use_skip_connections a; tc_padding := padding a;
     tc_dropout_rate := dropout_rate a; tc_return_sequences := return_sequences a;
     tc_use_separable := use_separable a; tc_name := name |}.

Definition compile (input_layer output_layer : tensor) (a : builder_args) : Model :=
  keras_Model input_layer output_layer "TCN"
    (Adam (learning_rate a) true 1%Q) (loss a) (sample_weight_mode a).

Definition tcn_stft_body (a : builder_args) : outcome Model :=
  let dilations := match dilations a with None => [1; 2; 4; 8; 16] | Some d => d end in
  let input_layer := Input [nb_hist a; nb_freq a] in
  let out := input_layer in
  out ← (if 0 <? nb_pre_conv a then
           out ← call_layer lib (Spectrogram (pre_nb_dft a) (2 ^ nb_pre_conv a)) out;
           d1 ← shape_at out 1;
           d2 ← shape_at out 2;
           d3 ← shape_at out 3;
           d23 ← dim_mul d2 d3;
           call_layer lib (Reshape [d1; d23]) out
         else Ok out);
  x ← call_layer lib (TCN (main_tcn a dilations (nb_conv a) None)) out;
  x ← (if 0 <? nb_lstm_units a
       then call_layer lib (Bidirectional_LSTM (nb_lstm_units a)) x
       else Ok x);
  x ← call_layer lib (Dense (nb_classes a)) x;
  x ← call_layer lib (Activation "softmax") x;
  x ← (if (0 <? nb_pre_conv a) && upsample a
       then call_layer lib (UpSampling1D (2 ^ nb_pre_conv a)) x
       else Ok x);
  let output_layer := x in
  Ok (compile input_layer output_layer a).

Definition tcn_tcn_body (a : builder_args) : outcome Model :=
  let dilations := match dilations a with None => [1; 2; 4; 8; 16] | Some d => d end in
  let input_layer := Input [nb_hist a; nb_freq a] in
  let out := input_layer in
  out ← (if 0 <? nb_pre_conv a then
           out ← call_layer lib
                   (TCN (main_tcn a dilations (nb_pre_conv a) (Some "frontend"))) out;
           call_layer lib (MaxPooling1D (2 ^ nb_pre_conv a) (2 ^ nb_pre_conv a)) out
         else Ok out);
  x ← call_layer lib (TCN (main_tcn a dilations (nb_conv a) None)) out;
  x ← call_layer lib (Dense (nb_classes a)) x;
  x ← call_layer lib (Activation "softmax") x;
  x ← (if (0 <? nb_pre_conv a) && upsample a
       then call_layer lib (UpSampling1D (2 ^ nb_pre_conv a)) x
       else Ok x);
  let output_layer := x in
  Ok (compile input_layer output_layer a).

Definition tcn_stft (args : list pyval) (kwargs : gmap string pyval) : outcome Model :=
  b ← bind_signature tcn_stft_params args kwargs;
  a ← typed_args b;
  tcn_stft_body a.

Definition tcn_tcn (args : list pyval) (kwargs : gmap string pyval) : outcome Model :=
  b ← bind_signature tcn_tcn_params args kwargs;
  a ← typed_args (drop_ignored tcn_tcn_params b);
  tcn_tcn_body a.

(** Synonym for tcn_stft. *)
Definition tcn (args : list pyval) (kwargs : gmap string pyval) : outcome Model :=
  tcn_stft args kwargs.

(** *** The registry *)

Record model_func : Type := {
  __name__ : string;
  __call__ : list pyval -> gmap string pyval -> outcome Model
}.

(** Adds func to model_dict; the decorator returns the function and the
    dictionary it updated. *)
Definition _register_as_model (func : model_func) (model_dict : gmap string model_func)
    : model_func * gmap string model_func :=
  (func, <[__name__ func := func]> model_dict).

(** The module body: an empty dictionary, then the three decorated
    definitions in source order. *)
Definition model_dict : gmap string model_func :=
  let d := ∅ in
  let '(_, d) := _register_as_model {| __name__ := "tcn"; __call__ := tcn |} d in
  let '(_, d) := _register_as_model {| __name__ := "tcn_stft"; __call__ := tcn_stft |} d in
  let '(_, d) := _register_as_model {| __name__ := "tcn_tcn"; __call__ := tcn_tcn |} d in
  d.

End Builders.

End models.

(** ** The world the training script runs in *)

(** Arrays are opaque but for their shape. *)
Record ndarray : Type := {
  arr_shape : list Z;
  arr_id : Z
}.

Record split : Type := {
  sx : ndarray;
  sy : ndarray
}.

(** What [io.load] returns: [d['train']], [d['val']], [d['test']] and
    [d.attrs]. *)
Record Dataset : Type := {
  d_train : split;
  d_val : split;
  d_test : split;
  d_attrs : gmap string pyval
}.

Record generator : Type := {
  gen_len : Z;
  gen_id : Z
}.

Record poseidon_handle : Type := {
  poseidon_id : Z
}.

(** A metric is a floating point number: a finite value, an infinity or
    not-a-number (a diverged loss). *)
Inductive metric : Type :=
| MNum (q : Q)
| MInf
| MNegInf
| MNaN.

(** The logs of one epoch: the weights it ends with, and the metrics.  The
    validation loss is missing when the epoch ran no validation step. *)
Record epoch_logs : Type := {
  new_weights : Z;
  e_loss : metric;
  e_val_loss : option metric
}.

Inductive callback : Type :=
| ModelCheckpoint (filepath : string) (save_best_only save_weights_only : bool)
    (monitor : string) (verbose : Z)
| EarlyStopping (monitor : string) (patience : Z)
| ReduceLROnPlateau (patience : Z) (verbose : Z)
| QtProgressCallback (nb_epoch : Z) (comms : bool)
| TensorBoard (log_dir : string)
| NeptuneCallback (p : poseidon_handle).

Record fit_request : Type := {
  fr_data : generator;
  fr_epochs : Z;
  fr_steps_per_epoch : Z;
  fr_verbose : Z;
  fr_validation_data : generator;
  fr_callbacks : list callback;
  fr_class_weight : pyval
}.

(** The dictionary [fl.save] writes at the end of [train]. *)
Record results : Type := {
  r_fit_hist : list epoch_logs;
  r_confusion_matrix : ndarray;
  r_classification_report : pyval;
  r_x_test : ndarray;
  r_y_test : ndarray;
  r_y_pred : ndarray;
  r_labels_test : ndarray;
  r_labels_pred : ndarray;
  r_params : gmap string pyval
}.

Inductive file : Type :=
| ParamsFile (params : gmap string pyval)
| ModelFile (m : Model)
| WeightsFile (w : Z)
| ResultsFile (r : results)
| LogFile (content : Z).

Inductive logmsg : Type :=
| LFmt (template : string) (values : list pyval)
| LParams (p : gmap string pyval)
| LObj (what : string).

Inductive event : Type :=
| EvLogConfig (level : string)
| EvLog (level : string) (msg : logmsg)
| EvLoad (data_dir x_suffix y_suffix : string)
| EvSeed (seed : option Z)
| EvBuild (name : string) (kwargs : gmap string pyval)
| EvMakedirs (path : string)
| EvWrite (path : string)
| EvEpoch (epoch : nat) (weights : Z) (val_loss : option metric)
| EvCheckpoint (path : string) (epoch : nat) (weights : Z) (val_loss : option metric)
| EvLoadWeights (path : string)
| EvEvaluate (weights : Z).

(** What a library callback does when the training loop calls one of its
    hooks: the files it writes (TensorBoard writes its logs below
    [log_dir]), in order, and whether it raises; at the end of an epoch also
    whether it asks the loop to stop.  The hooks are those at the begin of
    training, at the begin of an epoch (with those around its batches), at
    the end of an epoch and at the end of training. *)
Definition hook (A : Type) : Type := list (string * file) * outcome A.

(** Everything [train] calls that is neither in train.py nor in models.py.
    A call may raise; what it returns is left open.  What [sub_range] and
    the batch generators do with the seed they are handed is theirs: only
    the calls of train.py itself leave events. *)
Record Env : Type := {
  layers : Layers;
  io_load : string -> string -> string -> outcome Dataset;
  hash_data : string -> outcome string;
  sub_range : Z -> Q -> Z -> option Z -> outcome (Z * Z);
  AudioSequence : ndarray -> ndarray -> gmap string pyval -> outcome generator;
  compute_class_weight : ndarray -> outcome pyval;
  strftime : string;
  makedirs : string -> outcome unit;
  params_suffix : string;
  run_epoch : fit_request -> list epoch_logs -> Model -> outcome epoch_logs;
  callback_train_begin : callback -> hook unit;
  callback_epoch_begin : callback -> nat -> hook unit;
  callback_epoch_end : callback -> nat -> epoch_logs -> hook bool;
  callback_train_end : callback -> hook unit;
  HAS_NEPTUNE : bool;
  Poseidon : string -> string -> gmap string pyval -> outcome poseidon_handle;
  poseidon_callback : poseidon_handle -> outcome unit;
  log_test_results : poseidon_handle -> pyval -> outcome unit;
  evaluate_probabilities :
    ndarray -> ndarray -> Model -> gmap string pyval -> outcome (ndarray * ndarray * ndarray);
  labels_from_probabilities : ndarray -> outcome ndarray;
  evaluate_segments : ndarray -> ndarray -> pyval -> outcome (ndarray * pyval)
}.

(** A computation reads and writes files, leaves a chronological list of
    events, and returns or raises.  Files and events survive a raise. *)
Definition M (A : Type) : Type :=
  gmap string file -> outcome A * gmap string file * list event.

#[global] Instance M_ret : MRet M := fun A a fs => (Ok a, fs, []).
#[global] Instance M_bind : MBind M := fun A B f m fs =>
  match m fs with
  | (Ok a, fs1, ev1) =>
      match f a fs1 with
      | (r, fs2, ev2) => (r, fs2, (ev1 ++ ev2)%list)
      end
  | (Raise e, fs1, ev1) => (Raise e, fs1, ev1)
  end.

Definition raise {A} (e : exn) : M A := fun fs => (Raise e, fs, []).
Definition emit (ev : event) : M unit := fun fs => (Ok tt, fs, [ev]).
Definition lib_call {A} (o : outcome A) : M A := fun fs => (o, fs, []).
Definition write_file (path : string) (f : file) : M unit :=
  fun fs => (Ok tt, <[path := f]> fs, [EvWrite path]).
Definition read_file (path : string) : M (option file) :=
  fun fs => (Ok (fs !! path), fs, []).


(** A hook of a library callback: its writes happen, then it returns or
    raises. *)
Fixpoint write_files (ws : list (string * file)) : M unit :=
  match ws with
  | [] => mret tt
  | (path, f) :: ws' => _ ← write_file path f; write_files ws'
  end.

Definition run_hook {A} (h : hook A) : M A :=
  _ ← write_files (fst h); lib_call (snd h).

Definition logging_info (msg : logmsg) : M unit := emit (EvLog "INFO" msg).
Definition logging_error (msg : logmsg) : M unit := emit (EvLog "ERROR" msg).
Definition logging_exception (msg : logmsg) : M unit := emit (EvLog "ERROR" msg).
Definition info (s : string) : M unit := logging_info (LFmt s []).

(** *** numpy and builtins *)

Definition np_ceil (q : Q) : Z := Qceiling q.

(** [round(q)]: to the nearest integer, ties to the even one. *)
Definition py_round (q : Q) : Z :=
  let f := Qfloor q in
  match Qcompare (q - inject_Z f) (1 # 2) with
  | Lt => f
  | Gt => f + 1
  | Eq => if Z.even f then f else f + 1
  end.

Fixpoint is_substring (needle hay : string) : bool :=
  String.prefix needle hay ||
  match hay with
  | EmptyString => false
  | String _ hay' => is_substring needle hay'
  end.

Definition of_opt {A} (inj : A -> pyval) (o : option A) : pyval :=
  match o with
  | Some a => inj a
  | None => VNone
  end.

Definition py_len (what : string) (v : pyval) : outcome Z :=
  match v with
  | VList l => Ok (Z.of_nat (length l))
  | VStr s => Ok (Z.of_nat (String.length s))
  | _ => Raise (TypeError ("object has no len(): " +:+ what))
  end.

(** [a.shape[i]] and [a.shape[-1]]. *)
Definition shape_idx (a : ndarray) (i : nat) : outcome Z :=
  match nth_error (arr_shape a) i with
  | Some n => Ok n
  | None => Raise (IndexError "tuple index out of range")
  end.

Definition shape_last (a : ndarray) : outcome Z :=
  match arr_shape a with
  | [] => Raise (IndexError "tuple index out of range")
  | n :: s => Ok (List.last s n)
  end.

Definition array_len (a : ndarray) : outcome Z :=
  match arr_shape a with
  | [] => Raise (TypeError "len() of unsized object")
  | n :: _ => Ok n
  end.

Definition py_div (a b : Q) : outcome Q :=
  if Qeq_bool b 0 then Raise ZeroDivisionError else Ok (a / b)%Q.

Definition Qltb (a b : Q) : bool := negb (Qle_bool b a).

(** ** The training loop of the framework (tensorflow.keras)

    [Model.fit] runs the epochs in order; after each one every callback sees
    the logs of the epoch.  What an epoch does to the weights and which
    losses it reports is the optimiser's business ([run_epoch]).  The two
    callbacks whose behaviour the driver relies on are spelled out: a
    [ModelCheckpoint] with [save_best_only] writes the model when the
    monitored value beats the best one seen so far, [EarlyStopping] counts
    the epochs without such an improvement.  A missing value is skipped,
    and a value that is not a number beats nothing.  The other callbacks
    are the library's: each has a hook when training begins, one when an
    epoch begins (it stands for the hooks around the batches as well), one
    at the end of every epoch and one when training ends, and a hook may
    write files. *)

(** [np.less] on floating point numbers: false as soon as one side is
    not-a-number, and no infinity is below itself. *)
Definition np_less (a b : metric) : bool :=
  match a, b with
  | MNaN, _ | _, MNaN => false
  | _, MNegInf => false
  | MInf, _ => false
  | MNegInf, _ => true
  | MNum _, MInf => true
  | MNum x, MNum y => Qltb x y
  end.

Definition np_greater (a b : metric) : bool := np_less b a.

(** [mode='auto']: a monitored accuracy should grow, anything else (a
    loss) should shrink. *)
Definition checkpoint_grows (monitor : string) : bool :=
  is_substring "acc" monitor || String.prefix "fmeasure" monitor.

Definition stopping_grows (monitor : string) : bool :=
  is_substring "acc" monitor.

Definition monitor_op (grows : bool) (current best : metric) : bool :=
  if grows then np_greater current best else np_less current best.

(** The best value starts at the infinity every number beats. *)
Definition worst (grows : bool) : metric := if grows then MNegInf else MInf.

Record live_callback : Type := {
  cb : callback;
  cb_best : metric;
  cb_wait : Z
}.

Definition start_callback (c : callback) : live_callback :=
  {| cb := c;
     cb_best :=
       match c with
       | ModelCheckpoint _ _ _ monitor _ => worst (checkpoint_grows monitor)
       | EarlyStopping monitor _ => worst (stopping_grows monitor)
       | _ => MInf
       end;
     cb_wait := 0 |}.

(** [logs.get(monitor)] *)
Definition get_monitor (monitor : string) (logs : epoch_logs) : option metric :=
  if String.eqb monitor "loss" then Some (e_loss logs)
  else if String.eqb monitor "val_loss" then e_val_loss logs
  else None.

Definition set_weights (m : Model) (w : Z) : Model :=
  {| m_name := m_name m; m_inputs := m_inputs m; m_outputs := m_outputs m;
     m_optimizer := m_optimizer m; m_loss := m_loss m;
     m_sample_weight_mode := m_sample_weight_mode m; m_weights := w |}.

Section Fit.
Context (env : Env).

Definition save_checkpoint (model : Model) (epoch : nat) (logs : epoch_logs)
    (filepath : string) (save_weights_only : bool) : M unit :=
  _ ← write_file filepath
        (if save_weights_only then WeightsFile (m_weights model) else ModelFile model);
  emit (EvCheckpoint filepath epoch (m_weights model) (e_val_loss logs)).

(** One callback at the end of one epoch: its new state, and whether it
    asks the loop to stop. *)
Definition on_epoch_end (model : Model) (epoch : nat) (logs : epoch_logs)
    (c : live_callback) : M (live_callback * bool) :=
  match cb c with
  | ModelCheckpoint filepath save_best_only save_weights_only monitor _ =>
      if save_best_only then
        match get_monitor monitor logs with
        | None => mret (c, false)
        | Some current =>
            if monitor_op (checkpoint_grows monitor) current (cb_best c) then
              _ ← save_checkpoint model epoch logs filepath save_weights_only;
              mret ({| cb := cb c; cb_best := current; cb_wait := cb_wait c |}, false)
            else mret (c, false)
        end
      else
        _ ← save_checkpoint model epoch logs filepath save_weights_only;
        mret (c, false)
  | EarlyStopping monitor patience =>
      match get_monitor monitor logs with
      | None => mret (c, false)
      | Some current =>
          if monitor_op (stopping_grows monitor) current (cb_best c)
          then mret ({| cb := cb c; cb_best := current; cb_wait := 0 |}, false)
          else
            let wait := cb_wait c + 1 in
            mret ({| cb := cb c; cb_best := cb_best c; cb_wait := wait |},
                  patience <=? wait)
      end
  | other =>
      stop ← run_hook (callback_epoch_end env other epoch logs);
      mret (c, stop)
  end.

Fixpoint callbacks_epoch_end (model : Model) (epoch : nat) (logs : epoch_logs)
    (cbs : list live_callback) : M (list live_callback * bool) :=
  match cbs with
  | [] => mret ([], false)
  | c :: rest =>
      '(c', stop) ← on_epoch_end model epoch logs c;
      '(rest', stop') ← callbacks_epoch_end model epoch logs rest;
      mret (c' :: rest', stop || stop')
  end.

(** [set_model] and [on_train_begin] of one callback; the two spelled
    out above only reset their state, which [start_callback] does. *)
Definition on_train_begin (c : callback) : M unit :=
  match c with
  | ModelCheckpoint _ _ _ _ _ | EarlyStopping _ _ => mret tt
  | other => run_hook (callback_train_begin env other)
  end.

(** [on_epoch_begin] and the hooks around the batches of the epoch; a
    checkpoint that saves once per epoch and early stopping have
    nothing to do there. *)
Definition on_epoch_begin (epoch : nat) (c : callback) : M unit :=
  match c with
  | ModelCheckpoint _ _ _ _ _ | EarlyStopping _ _ => mret tt
  | other => run_hook (callback_epoch_begin env other epoch)
  end.

Definition on_train_end (c : callback) : M unit :=
  match c with
  | ModelCheckpoint _ _ _ _ _ | EarlyStopping _ _ => mret tt
  | other => run_hook (callback_train_end env other)
  end.

Fixpoint for_each (f : callback -> M unit) (cbs : list callback) : M unit :=
  match cbs with
  | [] => mret tt
  | c :: rest => _ ← f c; for_each f rest
  end.

Fixpoint fit_loop (req : fit_request) (remaining : nat) (epoch : nat) (model : Model)
    (cbs : list live_callback) (hist : list epoch_logs)
    : M (list epoch_logs * Model) :=
  match remaining with
  | O => mret (hist, model)
  | S remaining' =>
      _ ← for_each (on_epoch_begin epoch) (map cb cbs);
      logs ← lib_call (run_epoch env req hist model);
      let model := set_weights model (new_weights logs) in
      _ ← emit (EvEpoch epoch (m_weights model) (e_val_loss logs));
      '(cbs, stop_training) ← callbacks_epoch_end model epoch logs cbs;
      let hist := (hist ++ [logs])%list in
      if (stop_training : bool) then mret (hist, model)
      else fit_loop req remaining' (S epoch) model cbs hist
  end.

(** [model.fit(...)]: the history, and the model with the weights of the
    last epoch run.  The callbacks are told when training begins and
    ends, also when no epoch runs. *)
Definition fit (model : Model) (req : fit_request) : M (list epoch_logs * Model) :=
  _ ← for_each on_train_begin (fr_callbacks req);
  r ← fit_loop req (Z.to_nat (fr_epochs req)) 0 model
        (map start_callback (fr_callbacks req)) [];
  _ ← for_each on_train_end (fr_callbacks req);
  mret r.

(** [model.load_weights(path)] *)
Definition load_weights (model : Model) (path : string) : M Model :=
  _ ← emit (EvLoadWeights path);
  f ← read_file path;
  match f with
  | Some (ModelFile saved) => mret (set_weights model (m_weights saved))
  | Some (WeightsFile w) => mret (set_weights model w)
  | _ => raise (LibraryError "load_weights")
  end.

End Fit.

(** ** train.py *)

Module train_py.

(** The keyword-only parameters of [train]. *)
Record train_args : Type := {
  data_dir : string;
  y_suffix : string;
  save_dir : string;
  save_prefix : option string;
  model_name : string;
  nb_filters : Z;
  kernel_size : Z;
  nb_conv : Z;
  use_separable : pyval;
  nb_hist : Z;
  ignore_boundaries : bool;
  batch_norm : bool;
  nb_pre_conv : Z;
  pre_nb_dft : Z;
  pre_kernel_size : Z;
  pre_nb_filters : Z;
  pre_nb_conv : Z;
  nb_lstm_units : Z;
  verbose : Z;
  batch_size : Z;
  nb_epoch : Z;
  learning_rate : option Q;
  reduce_lr : bool;
  reduce_lr_patience : Z;
  fraction_data : option Q;
  seed : option Z;
  batch_level_subsampling : bool;
  tensorboard : bool;
  neptune_api_token : option string;
  neptune_project : option string;
  log_messages : bool;
  nb_stacks : Z;
  with_y_hist : bool;
  x_suffix : string;
  balance : bool;
  version_data : bool;
  _qt_progress : bool
}.

(** The defaults of the signature; [data_dir] has none. *)
Definition default_args (dir : string) : train_args :=
  {| data_dir := dir; y_suffix := ""; save_dir := "./"; save_prefix := None;
     model_name := "tcn"; nb_filters := 16; kernel_size := 16; nb_conv := 3;
     use_separable := VBool false; nb_hist := 1024; ignore_boundaries := true;
     batch_norm := true; nb_pre_conv := 0; pre_nb_dft := 64; pre_kernel_size := 3;
     pre_nb_filters := 16; pre_nb_conv := 2; nb_lstm_units := 0; verbose := 2;
     batch_size := 32; nb_epoch := 400; learning_rate := None; reduce_lr := false;
     reduce_lr_patience := 5; fraction_data := None; seed := None;
     batch_level_subsampling := false; tensorboard := false;
     neptune_api_token := None; neptune_project := None; log_messages := false;
     nb_stacks := 2; with_y_hist := true; x_suffix := ""; balance := false;
     version_data := true; _qt_progress := false |}.

(** The locals set by lines 140-153. *)
Record window : Type := {
  sample_weight_mode : option string;
  data_padding : Z;
  return_sequences : bool;
  stride : Z;
  y_offset : Z
}.

Definition windowing (a : train_args) : window :=
  let sample_weight_mode := None in
  let data_padding := 0 in
  if with_y_hist a then
    let return_sequences := true in
    let stride := nb_hist a in
    let y_offset := 0 in
    let sample_weight_mode := Some "temporal" in
    if ignore_boundaries a then
      let data_padding := np_ceil (inject_Z (kernel_size a * nb_conv a)) in
      let stride := stride - 2 * data_padding in
      {| sample_weight_mode := sample_weight_mode; data_padding := data_padding;
         return_sequences := return_sequences; stride := stride; y_offset := y_offset |}
    else
      {| sample_weight_mode := sample_weight_mode; data_padding := data_padding;
         return_sequences := return_sequences; stride := stride; y_offset := y_offset |}
  else
    let return_sequences := false in
    let stride := 1 in
    let y_offset := py_round (inject_Z (nb_hist a) / 2) in
    {| sample_weight_mode := sample_weight_mode; data_padding := data_padding;
       return_sequences := return_sequences; stride := stride; y_offset := y_offset |}.

(** [locals()] at line 162. *)
Definition locals (a : train_args) (w : window) (output_stride : Z) (prefix : string)
    : gmap string pyval :=
  list_to_map
    [("data_dir", VStr (data_dir a)); ("y_suffix", VStr (y_suffix a));
     ("save_dir", VStr (save_dir a)); ("save_prefix", VStr prefix);
     ("model_name", VStr (model_name a)); ("nb_filters", VInt (nb_filters a));
     ("kernel_size", VInt (kernel_size a)); ("nb_conv", VInt (nb_conv a));
     ("use_separable", use_separable a); ("nb_hist", VInt (nb_hist a));
     ("ignore_boundaries", VBool (ignore_boundaries a));
     ("batch_norm", VBool (batch_norm a)); ("nb_pre_conv", VInt (nb_pre_conv a));
     ("pre_nb_dft", VInt (pre_nb_dft a)); ("pre_kernel_size", VInt (pre_kernel_size a));
     ("pre_nb_filters", VInt (pre_nb_filters a)); ("pre_nb_conv", VInt (pre_nb_conv a));
     ("nb_lstm_units", VInt (nb_lstm_units a)); ("verbose", VInt (verbose a));
     ("batch_size", VInt (batch_size a)); ("nb_epoch", VInt (nb_epoch a));
     ("learning_rate", of_opt VFloat (learning_rate a));
     ("reduce_lr", VBool (reduce_lr a));
     ("reduce_lr_patience", VInt (reduce_lr_patience a));
     ("fraction_data", of_opt VFloat (fraction_data a)); ("seed", of_opt VInt (seed a));
     ("batch_level_subsampling", VBool (batch_level_subsampling a));
     ("tensorboard", VBool (tensorboard a));
     ("neptune_api_token", of_opt VStr (neptune_api_token a));
     ("neptune_project", of_opt VStr (neptune_project a));
     ("log_messages", VBool (log_messages a)); ("nb_stacks", VInt (nb_stacks a));
     ("with_y_hist", VBool (with_y_hist a)); ("x_suffix", VStr (x_suffix a));
     ("balance", VBool (balance a)); ("version_data", VBool (version_data a));
     ("_qt_progress", VBool (_qt_progress a));
     ("sample_weight_mode", of_opt VStr (sample_weight_mode w));
     ("data_padding", VInt (data_padding w));
     ("return_sequences", VBool (return_sequences w)); ("stride", VInt (stride w));
     ("y_offset", VInt (y_offset w)); ("output_stride", VInt output_stride)].

Definition stride_error : exn :=
  ValueError "Stride <=0 - needs to be >0. Possible solutions: reduce kernel_size, increase nb_hist parameters, uncheck ignore_boundaries".

(** [f(k1=v1, ..., **params)]: a key of [params] that repeats an explicit
    keyword is a TypeError. *)
Definition with_kwargs (explicit : list (string * pyval)) (params : gmap string pyval)
    : outcome (gmap string pyval) :=
  if existsb (has_key params) (map fst explicit)
  then Raise (TypeError "got multiple values for keyword argument")
  else Ok (list_to_map explicit ∪ params).

Definition getitem (what : string) (m : gmap string pyval) (k : string) : outcome pyval :=
  match m !! k with
  | Some v => Ok v
  | None => Raise (KeyError k)
  end.

Definition opt_truthy (o : option string) : bool := truthy (of_opt VStr o).

Record prepared : Type := {
  p_d : Dataset;
  p_params : gmap string pyval;
  p_data_gen : generator;
  p_val_gen : generator
}.

Record built : Type := {
  b_model : Model;
  b_params : gmap string pyval;
  b_save_name : string;
  b_checkpoint_save_name : string;
  b_callbacks : list callback;
  b_poseidon : option poseidon_handle
}.

Section Train.
Context (env : Env).

(** Lines 136-173: the locals, the parameter dictionary, the stride
    check. *)
Definition configure (a : train_args) : M (gmap string pyval * string) :=
  _ ← (if log_messages a then emit (EvLogConfig "INFO") else mret tt);
  let w := windowing a in
  let output_stride := 1 in
  let save_prefix := match save_prefix a with None => "" | Some s => s end in
  let save_prefix :=
    if (0 <? String.length save_prefix)%nat then save_prefix +:+ "_" else save_prefix in
  let params := locals a w output_stride save_prefix in
  let params := delete "_qt_progress" params in
  if stride w <=? 0 then raise stride_error
  else
    let params :=
      match params !! "learning_rate" with
      | Some VNone => delete "learning_rate" params
      | _ => params
      end in
    let params :=
      if is_substring "_multi" (model_name a)
      then <["unpack_channels" := VBool true]> params
      else params in
    mret (params, save_prefix).

(** Lines 186-191. *)
Definition resolve_fraction (a : train_args) (d : Dataset) : M (option Q) :=
  match fraction_data a with
  | None => mret None
  | Some f =>
      if Qltb 1 f then
        n ← lib_call (shape_idx (sx (d_train d)) 0);
        sr ← lib_call (getitem "attrs" (d_attrs d) "samplerate_x_Hz"
                       ≫= models.as_float "samplerate_x_Hz");
        duration ← lib_call (py_div (inject_Z n) sr);
        ratio ← lib_call (py_div f duration);
        _ ← logging_info
              (LFmt "{} seconds corresponds to {:1.4f} of the training data."
                    [VFloat f; VFloat ratio]);
        mret (Some (if Qle_bool ratio 1 then ratio else 1%Q))
      else if Qltb f 1 then
        _ ← logging_info
              (LFmt "Using {:1.4f} of the training and validation data." [VFloat f]);
        mret (Some f)
      else mret (Some f)
  end.

(** Lines 175-245: the data, its windows, the generators. *)
Definition prepare (a : train_args) (params : gmap string pyval) : M prepared :=
  _ ← logging_info (LFmt "Loading data from {}." [VStr (data_dir a)]);
  _ ← emit (EvLoad (data_dir a) (x_suffix a) (y_suffix a));
  d ← lib_call (io_load env (data_dir a) (x_suffix a) (y_suffix a));
  let params := d_attrs d ∪ params in
  params ← (if version_data a then
              h ← lib_call (hash_data env (data_dir a));
              let params := <["data_hash" := VStr h]> params in
              _ ← info "Version of the data:";
              _ ← logging_info (LFmt "   MD5 hash of {} is" [VStr (data_dir a)]);
              _ ← logging_info (LFmt "   {}" [VStr h]);
              mret params
            else mret params);
  fraction_data ← resolve_fraction a d;
  '(first_sample_train, last_sample_train, first_sample_val, last_sample_val) ←
    match fraction_data, batch_level_subsampling a with
    | Some f, false =>
        let min_nb_samples := nb_hist a * (batch_size a + 2) in
        n_train ← lib_call (shape_idx (sx (d_train d)) 0);
        '(ft, lt) ← lib_call (sub_range env n_train f min_nb_samples (seed a));
        n_val ← lib_call (shape_idx (sx (d_val d)) 0);
        '(fv, lv) ← lib_call (sub_range env n_val f min_nb_samples (seed a));
        mret (ft, VInt lt, fv, VInt lv)
    | _, _ => mret (0, VNone, 0, VNone)
    end;
  nb_freq ← lib_call (shape_idx (sx (d_train d)) 1);
  nb_channels ← lib_call (shape_last (sx (d_train d)));
  nb_classes ← lib_call (getitem "params" params "class_names" ≫= py_len "class_names");
  let params :=
    list_to_map
      [("nb_freq", VInt nb_freq); ("nb_channels", VInt nb_channels);
       ("nb_classes", VInt nb_classes);
       ("first_sample_train", VInt first_sample_train);
       ("last_sample_train", last_sample_train);
       ("first_sample_val", VInt first_sample_val);
       ("last_sample_val", last_sample_val)] ∪ params in
  _ ← info "Parameters:";
  _ ← logging_info (LParams params);
  _ ← info "Preparing data";
  shuffle_subset ←
    match fraction_data, batch_level_subsampling a with
    | Some f, true => _ ← emit (EvSeed (seed a)); mret (VFloat f)
    | _, _ => mret VNone
    end;
  data_gen ← lib_call
    (kw ← with_kwargs [("shuffle", VBool true); ("shuffle_subset", shuffle_subset);
                       ("first_sample", VInt first_sample_train);
                       ("last_sample", last_sample_train); ("nb_repeats", VInt 1)] params;
     AudioSequence env (sx (d_train d)) (sy (d_train d)) kw);
  val_gen ← lib_call
    (kw ← with_kwargs [("shuffle", VBool false); ("shuffle_subset", shuffle_subset);
                       ("first_sample", VInt first_sample_val);
                       ("last_sample", last_sample_val)] params;
     AudioSequence env (sx (d_val d)) (sy (d_val d)) kw);
  _ ← info "Training data:";
  _ ← logging_info (LObj "data_gen");
  _ ← info "Validation data:";
  _ ← logging_info (LObj "val_gen");
  let params := <["class_weights" := VNone]> params in
  params ← (if balance a then
              cw ← lib_call (compute_class_weight env (sy (d_train d)));
              let params := <["class_weights" := cw]> params in
              _ ← logging_info (LFmt "Balancing classes: {}" [cw]);
              mret params
            else mret params);
  mret {| p_d := d; p_params := params; p_data_gen := data_gen; p_val_gen := val_gen |}.

(** Modelled from the spec: [utils.save_params] (das/utils.py) is not
    part of the two source files.  The spec (External interfaces) has the
    run write "a timestamped set of output files: a parameters file, ...";
    the file is named after [save_name], with a suffix left open. *)
Definition save_params (params : gmap string pyval) (save_name : string) : M unit :=
  write_file (save_name +:+ params_suffix env) (ParamsFile params).

(** Lines 247-279: the network, the parameters file, the callbacks. *)
Definition build (a : train_args) (save_prefix : string) (p : prepared) : M built :=
  let params := p_params p in
  _ ← info "building network";
  f ← match models.model_dict (layers env) !! model_name a with
      | Some f => mret f
      | None => raise (KeyError (model_name a))
      end;
  _ ← emit (EvBuild (models.__name__ f) params);
  model ← lib_call (models.__call__ f [] params);
  _ ← logging_info (LFmt "{}" [VNone]);
  _ ← emit (EvMakedirs (save_dir a));
  _ ← lib_call (makedirs env (save_dir a));
  let save_name := save_dir a +:+ "/" +:+ save_prefix +:+ strftime env in
  _ ← logging_info (LFmt "Will save to {}." [VStr save_name]);
  _ ← save_params params save_name;
  let checkpoint_save_name := save_name +:+ "_model.h5" in
  let callbacks :=
    [ModelCheckpoint checkpoint_save_name true false "val_loss" 1;
     EarlyStopping "val_loss" 20] in
  let callbacks :=
    if reduce_lr a
    then (callbacks ++ [ReduceLROnPlateau (reduce_lr_patience a) 1])%list
    else callbacks in
  let callbacks :=
    if _qt_progress a
    then (callbacks ++ [QtProgressCallback (nb_epoch a) (_qt_progress a)])%list
    else callbacks in
  let callbacks :=
    if tensorboard a then (callbacks ++ [TensorBoard (save_dir a)])%list else callbacks in
  let params := delete "neptune_api_token" params in
  '(poseidon, callbacks) ←
    (if opt_truthy (neptune_api_token a) && opt_truthy (neptune_project a) then
       if negb (HAS_NEPTUNE env) then
         _ ← logging_error (LFmt "Could not import neptune in das.neptune." []);
         mret (None, callbacks)
       else
         (* try: ... except Exception: logging.exception(...) *)
         match Poseidon env (default "" (neptune_project a))
                 (default "" (neptune_api_token a)) params with
         | Raise _ =>
             _ ← logging_exception (LFmt "Neptune stuff failed." []);
             mret (None, callbacks)
         | Ok poseidon =>
             match poseidon_callback env poseidon with
             | Raise _ =>
                 _ ← logging_exception (LFmt "Neptune stuff failed." []);
                 mret (Some poseidon, callbacks)
             | Ok _ => mret (Some poseidon, (callbacks ++ [NeptuneCallback poseidon])%list)
             end
         end
     else mret (None, callbacks));
  mret {| b_model := model; b_params := params; b_save_name := save_name;
          b_checkpoint_save_name := checkpoint_save_name; b_callbacks := callbacks;
          b_poseidon := poseidon |}.

(** Lines 281-291. *)
Definition train_network (a : train_args) (p : prepared) (b : built)
    : M (list epoch_logs * Model) :=
  _ ← info "start training";
  class_weight ← lib_call (getitem "params" (b_params b) "class_weights");
  fit env (b_model b)
    {| fr_data := p_data_gen p; fr_epochs := nb_epoch a;
       fr_steps_per_epoch := Z.min (gen_len (p_data_gen p)) 1000;
       fr_verbose := verbose a; fr_validation_data := p_val_gen p;
       fr_callbacks := b_callbacks b; fr_class_weight := class_weight |}.

(** Lines 293-331.  The [poseidon] local is [None] while nothing was
    assigned to it. *)
Definition test (a : train_args) (p : prepared) (b : built)
    (fit_hist : list epoch_logs) (model : Model)
    : M (option (Model * gmap string pyval)) :=
  let d := p_d p in
  let params := b_params b in
  n_test ← lib_call (array_len (sx (d_test d)));
  if n_test <? nb_hist a then
    _ ← info "No test data - skipping final evaluation step.";
    mret None
  else
    _ ← info "re-loading last best model";
    model ← load_weights model (b_checkpoint_save_name b);
    _ ← info "predicting";
    _ ← emit (EvEvaluate (m_weights model));
    '(x_test, y_test, y_pred) ←
      lib_call (evaluate_probabilities env (sx (d_test d)) (sy (d_test d)) model params);
    labels_test ← lib_call (labels_from_probabilities env y_test);
    labels_pred ← lib_call (labels_from_probabilities env y_pred);
    _ ← info "evaluating";
    class_names ← lib_call (getitem "params" params "class_names");
    '(conf_mat, report) ← lib_call (evaluate_segments env labels_test labels_pred class_names);
    _ ← logging_info (LObj "conf_mat");
    _ ← logging_info (LObj "report");
    _ ← (if opt_truthy (neptune_api_token a) && opt_truthy (neptune_project a) then
           match b_poseidon b with
           | Some poseidon => lib_call (log_test_results env poseidon report)
           | None => raise (UnboundLocalError "poseidon")
           end
         else mret tt);
    let save_filename := b_save_name b +:+ "_results.h5" in
    _ ← logging_info (LFmt "saving to {}." [VStr save_filename]);
    _ ← write_file save_filename
          (ResultsFile
             {| r_fit_hist := fit_hist; r_confusion_matrix := conf_mat;
                r_classification_report := report; r_x_test := x_test;
                r_y_test := y_test; r_y_pred := y_pred; r_labels_test := labels_test;
                r_labels_pred := labels_pred; r_params := params |});
    _ ← info "DONE.";
    mret (Some (model, params)).

(** Train a DeepSS network. *)
Definition train (a : train_args) : M (option (Model * gmap string pyval)) :=
  '(params, save_prefix) ← configure a;
  p ← prepare a params;
  b ← build a save_prefix p;
  '(fit_hist, model) ← train_network a p b;
  test a p b fit_hist model.

End Train.

End train_py.

(** ** The vendored layers, as far as the spec describes them *)

(** What the theorems on sequence lengths assume of the TCN layer: with
    [return_sequences] it maps a [(batch, time, channels)] tensor to one with
    the same time axis and [nb_filters] channels. *)
Definition TCN_keeps_length (lib : Layers) : Prop :=
  forall cfg b t f s',
    tc_return_sequences cfg = true ->
    TCN_shape lib cfg [b; t; f] = Ok s' ->
    s' = [b; t; Some (tc_nb_filters cfg)].

(** What they assume of the spectrogram frontend: frames are [n_hop] samples
    apart, so a length that is a multiple of the hop is divided by it, and
    the result has the axes (batch, time, frequency, channel). *)
Definition Spectrogram_hops (lib : Layers) : Prop :=
  forall n_dft n_hop b t c s',
    Spectrogram_shape lib n_dft n_hop [b; Some t; c] = Ok s' ->
    (n_hop | t) ->
    exists f c', s' = [b; Some (t / n_hop); Some f; Some c'].

(** Modelled from the spec: the TCN layer (das/tcn) is not part of the two
    source files.  The spec has it as "a causal/dilated convolutional
    architecture for sequence modeling" whose stacks leave the sequence
    length to the frontend stages; without [return_sequences] only the last
    step is returned. *)
Definition spec_TCN_shape (cfg : tcn_config) (s : shape) : outcome shape :=
  match s with
  | [b; t; _] =>
      if tc_return_sequences cfg then Ok [b; t; Some (tc_nb_filters cfg)]
      else Ok [b; Some (tc_nb_filters cfg)]
  | _ => Raise (ValueError "Input 0 of layer tcn is incompatible with the layer")
  end.

(** Modelled from the spec: the Spectrogram layer (das/kapre) is not part of
    the two source files.  The spec has the frontend "decrease sequence
    length by the declared downsampling factor"; the docstring of [tcn_stft]
    gives the hop [2**nb_pre_conv] and [pre_nb_dft // 2 + 1] filters.  For a
    length that is no multiple of the hop the last, partial frame is counted
    here; no theorem depends on that choice. *)
Definition spec_Spectrogram_shape (n_dft n_hop : Z) (s : shape) : outcome shape :=
  match s with
  | [b; Some t; Some c] =>
      if n_hop <=? 0 then Raise (ValueError "n_hop must be positive")
      else Ok [b; Some ((t + n_hop - 1) / n_hop); Some (n_dft / 2 + 1); Some c]
  | _ => Raise (ValueError "Input 0 of layer trainable_stft is incompatible with the layer")
  end.

Definition spec_layers : Layers :=
  {| TCN_shape := spec_TCN_shape; Spectrogram_shape := spec_Spectrogram_shape |}.

(** ** Reading a built model *)

(** The time axis of a [(batch, time, channels)] shape. *)
Definition seq_len (s : shape) : option Z :=
  match s with
  | [_; Some t; _] => Some t
  | _ => None
  end.

Definition is_frontend (l : layer) : bool :=
  match l with
  | Spectrogram _ _ | Reshape _ | MaxPooling1D _ _ => true
  | TCN cfg => match tc_name cfg with Some _ => true | None => false end
  | _ => false
  end.

Definition closes_frontend (l : layer) : bool :=
  match l with
  | Reshape _ | MaxPooling1D _ _ => true
  | _ => false
  end.

Definition is_upsampling (l : layer) : bool :=
  match l with
  | UpSampling1D _ => true
  | _ => false
  end.

(** The sequence length that leaves the frontend stage: the output of its
    last layer (the pooling of [tcn_tcn], the reshape of [tcn_stft]). *)
Definition frontend_length (m : Model) : option Z :=
  match List.find (fun ls => closes_frontend (fst ls)) (model_layers m) with
  | Some (_, s) => seq_len s
  | None => None
  end.

Definition output_length (m : Model) : option Z := seq_len (output_shape m).

Definition has_layer (p : layer -> bool) (m : Model) : bool :=
  existsb (fun ls => p (fst ls)) (model_layers m).

(** ** A concrete world

    A small dataset, an optimiser whose validation loss goes 0.5, 0.3, 0.4
    over the first three epochs (and stays at 1 afterwards), library calls
    that all succeed, and a TensorBoard callback that rewrites one log file
    below its directory when training begins and after every epoch.
    [has_neptune] says whether das.neptune could
    import its dependency, [test_len] is the length of the test split and
    [extra_attrs] is merged into the attributes of the dataset. *)

Definition demo_dataset (test_len : Z) (extra_attrs : gmap string pyval) : Dataset :=
  {| d_train := {| sx := {| arr_shape := [5000; 1]; arr_id := 1 |};
                   sy := {| arr_shape := [5000; 2]; arr_id := 2 |} |};
     d_val := {| sx := {| arr_shape := [2000; 1]; arr_id := 3 |};
                 sy := {| arr_shape := [2000; 2]; arr_id := 4 |} |};
     d_test := {| sx := {| arr_shape := [test_len; 1]; arr_id := 5 |};
                  sy := {| arr_shape := [test_len; 2]; arr_id := 6 |} |};
     d_attrs := extra_attrs ∪
                list_to_map [("class_names", VList [VStr "noise"; VStr "pulse"]);
                             ("samplerate_x_Hz", VInt 10000)] |}.

Definition demo_losses (epoch : nat) : Q :=
  match epoch with
  | 0%nat => 5 # 10
  | 1%nat => 3 # 10
  | 2%nat => 4 # 10
  | _ => 1
  end.

Definition demo_board (c : callback) (content : Z) : list (string * file) :=
  match c with
  | TensorBoard log_dir => [(log_dir +:+ "/train/events.out.tfevents", LogFile content)]
  | _ => []
  end.

Definition demo_env (has_neptune : bool) (test_len : Z) (extra_attrs : gmap string pyval)
    : Env :=
  {| layers := spec_layers;
     io_load := fun _ _ _ => Ok (demo_dataset test_len extra_attrs);
     hash_data := fun _ => Ok "9e107d9d372bb6826bd81d3542a419d6";
     sub_range := fun n _ _ _ => Ok (0, n);
     AudioSequence := fun x _ _ => Ok {| gen_len := 5; gen_id := arr_id x |};
     compute_class_weight := fun _ => Ok (VList [VFloat 1; VFloat 1]);
     strftime := "20200101_120000";
     makedirs := fun _ => Ok tt;
     params_suffix := "_params.yaml";
     run_epoch := fun _ hist model =>
       Ok {| new_weights := m_weights model + 1;
             e_loss := MNum (demo_losses (length hist));
             e_val_loss := Some (MNum (demo_losses (length hist))) |};
     callback_train_begin := fun c => (demo_board c 0, Ok tt);
     callback_epoch_begin := fun _ _ => ([], Ok tt);
     callback_epoch_end := fun c epoch _ => (demo_board c (Z.of_nat epoch + 1), Ok false);
     callback_train_end := fun _ => ([], Ok tt);
     HAS_NEPTUNE := has_neptune;
     Poseidon := fun _ _ _ => Ok {| poseidon_id := 1 |};
     poseidon_callback := fun _ => Ok tt;
     log_test_results := fun _ _ => Ok tt;
     evaluate_probabilities := fun x y _ _ =>
       Ok (x, y, {| arr_shape := arr_shape y; arr_id := 7 |});
     labels_from_probabilities := fun p =>
       Ok {| arr_shape := firstn 1 (arr_shape p); arr_id := arr_id p + 10 |};
     evaluate_segments := fun _ _ _ =>
       Ok ({| arr_shape := [2; 2]; arr_id := 20 |}, VStr "report") |}.

(** [train(data_dir='dat', save_dir='res', nb_epoch=3, ...)], the other
    parameters at their defaults. *)
Definition custom_args (name : string) (chunk : Z) (y_hist : bool)
    (token project : option string) (lr : option Q) : train_py.train_args :=
  let a := train_py.default_args "dat" in
  {| train_py.data_dir := train_py.data_dir a; train_py.y_suffix := train_py.y_suffix a;
     train_py.save_dir := "res"; train_py.save_prefix := train_py.save_prefix a;
     train_py.model_name := name;
     train_py.nb_filters := train_py.nb_filters a;
     train_py.kernel_size := train_py.kernel_size a; train_py.nb_conv := train_py.nb_conv a;
     train_py.use_separable := train_py.use_separable a;
     train_py.nb_hist := chunk;
     train_py.ignore_boundaries := train_py.ignore_boundaries a;
     train_py.batch_norm := train_py.batch_norm a;
     train_py.nb_pre_conv := train_py.nb_pre_conv a;
     train_py.pre_nb_dft := train_py.pre_nb_dft a;
     train_py.pre_kernel_size := train_py.pre_kernel_size a;
     train_py.pre_nb_filters := train_py.pre_nb_filters a;
     train_py.pre_nb_conv := train_py.pre_nb_conv a;
     train_py.nb_lstm_units := train_py.nb_lstm_units a;
     train_py.verbose := train_py.verbose a; train_py.batch_size := train_py.batch_size a;
     train_py.nb_epoch := 3; train_py.learning_rate := lr;
     train_py.reduce_lr := train_py.reduce_lr a;
     train_py.reduce_lr_patience := train_py.reduce_lr_patience a;
     train_py.fraction_data := train_py.fraction_data a; train_py.seed := train_py.seed a;
     train_py.batch_level_subsampling := train_py.batch_level_subsampling a;
     train_py.tensorboard := train_py.tensorboard a;
     train_py.neptune_api_token := token; train_py.neptune_project := project;
     train_py.log_messages := train_py.log_messages a;
     train_py.nb_stacks := train_py.nb_stacks a;
     train_py.with_y_hist := y_hist;
     train_py.x_suffix := train_py.x_suffix a; train_py.balance := train_py.balance a;
     train_py.version_data := train_py.version_data a;
     train_py._qt_progress := train_py._qt_progress a |}.

Definition demo_args (token project : option string) (lr : option Q) : train_py.train_args :=
  custom_args "tcn" 1024 true token project lr.

(** The same call with [tensorboard=True]. *)
Definition with_tensorboard (a : train_py.train_args) : train_py.train_args :=
  {| train_py.data_dir := train_py.data_dir a; train_py.y_suffix := train_py.y_suffix a;
     train_py.save_dir := train_py.save_dir a; train_py.save_prefix := train_py.save_prefix a;
     train_py.model_name := train_py.model_name a;
     train_py.nb_filters := train_py.nb_filters a;
     train_py.kernel_size := train_py.kernel_size a; train_py.nb_conv := train_py.nb_conv a;
     train_py.use_separable := train_py.use_separable a;
     train_py.nb_hist := train_py.nb_hist a;
     train_py.ignore_boundaries := train_py.ignore_boundaries a;
     train_py.batch_norm := train_py.batch_norm a;
     train_py.nb_pre_conv := train_py.nb_pre_conv a;
     train_py.pre_nb_dft := train_py.pre_nb_dft a;
     train_py.pre_kernel_size := train_py.pre_kernel_size a;
     train_py.pre_nb_filters := train_py.pre_nb_filters a;
     train_py.pre_nb_conv := train_py.pre_nb_conv a;
     train_py.nb_lstm_units := train_py.nb_lstm_units a;
     train_py.verbose := train_py.verbose a; train_py.batch_size := train_py.batch_size a;
     train_py.nb_epoch := train_py.nb_epoch a;
     train_py.learning_rate := train_py.learning_rate a;
     train_py.reduce_lr := train_py.reduce_lr a;
     train_py.reduce_lr_patience := train_py.reduce_lr_patience a;
     train_py.fraction_data := train_py.fraction_data a; train_py.seed := train_py.seed a;
     train_py.batch_level_subsampling := train_py.batch_level_subsampling a;
     train_py.tensorboard := true;
     train_py.neptune_api_token := train_py.neptune_api_token a;
     train_py.neptune_project := train_py.neptune_project a;
     train_py.log_messages := train_py.log_messages a;
     train_py.nb_stacks := train_py.nb_stacks a;
     train_py.with_y_hist := train_py.with_y_hist a;
     train_py.x_suffix := train_py.x_suffix a; train_py.balance := train_py.balance a;
     train_py.version_data := train_py.version_data a;
     train_py._qt_progress := train_py._qt_progress a |}.

(** The world of [e] with an optimiser whose validation loss is [loss] in
    every epoch. *)
Definition with_val_loss (loss : option metric) (e : Env) : Env :=
  {| layers := layers e;
     io_load := io_load e;
     hash_data := hash_data e;
     sub_range := sub_range e;
     AudioSequence := AudioSequence e;
     compute_class_weight := compute_class_weight e;
     strftime := strftime e;
     makedirs := makedirs e;
     params_suffix := params_suffix e;
     run_epoch := fun req hist model =>
       match run_epoch e req hist model with
       | Ok logs => Ok {| new_weights := new_weights logs; e_loss := e_loss logs;
                          e_val_loss := loss |}
       | Raise x => Raise x
       end;
     callback_train_begin := callback_train_begin e;
     callback_epoch_begin := callback_epoch_begin e;
     callback_epoch_end := callback_epoch_end e;
     callback_train_end := callback_train_end e;
     HAS_NEPTUNE := HAS_NEPTUNE e;
     Poseidon := Poseidon e;
     poseidon_callback := poseidon_callback e;
     log_test_results := log_test_results e;
     evaluate_probabilities := evaluate_probabilities e;
     labels_from_probabilities := labels_from_probabilities e;
     evaluate_segments := evaluate_segments e |}.

(** * Properties of the builders *)

Lemma obind_ok {A B} (o : outcome A) (f : A -> outcome B) (b : B) :
  o ≫= f = Ok b -> exists a, o = Ok a /\ f a = Ok b.
Proof.
  destruct o as [a|e]; cbn; intros H; [eauto | discriminate].
Qed.

Lemma call_layer_ok lib l t t' :
  call_layer lib l t = Ok t' ->
  exists s, layer_shape lib l (t_shape t) = Ok s /\
            t' = {| t_shape := s; t_history := (t_history t ++ [(l, s)])%list |}.
Proof.
  unfold call_layer. intros H. apply obind_ok in H as (s & Hs & H).
  exists s. split; [done | congruence].
Qed.

Ltac inv_ok H :=
  let a := fresh "v" in
  let Ha := fresh "Hv" in
  apply obind_ok in H as (a & Ha & H).

Lemma last_replace_last (s : shape) (d x : dim) :
  s <> [] -> List.last (replace_last s d) x = d.
Proof.
  induction s as [|y [|z s'] IH]; intros Hne; [done | done |].
  change (replace_last (y :: z :: s') d) with (y :: replace_last (z :: s') d).
  assert (replace_last (z :: s') d <> []) as Hr by (destruct s'; done).
  destruct (replace_last (z :: s') d) as [|r rs] eqn:E; [done |].
  change (List.last (y :: r :: rs) x) with (List.last (r :: rs) x).
  apply IH. done.
Qed.

Lemma Dense_last lib units s s' :
  layer_shape lib (Dense units) s = Ok s' -> List.last s' None = Some units.
Proof.
  unfold layer_shape. destruct s as [|a [|b s0]]; try discriminate.
  destruct (List.last (a :: b :: s0) None); [|discriminate].
  intros H.
  assert (s' = replace_last (a :: b :: s0) (Some units)) as ->
    by (injection H as H; exact (eq_sym H)).
  by apply last_replace_last.
Qed.

Lemma UpSampling1D_last lib size s s' :
  layer_shape lib (UpSampling1D size) s = Ok s' -> List.last s' None = List.last s None.
Proof.
  cbn. destruct s as [|b [|[t|] [|f [|]]]]; try discriminate. by intros [= <-].
Qed.

(** The tail common to both builders: dense head, softmax, optional
    upsampling. *)
Lemma head_last lib (up : bool) size n (x x1 x2 x3 : tensor) :
  call_layer lib (Dense n) x = Ok x1 ->
  call_layer lib (Activation "softmax") x1 = Ok x2 ->
  (if up then call_layer lib (UpSampling1D size) x2 else Ok x2) = Ok x3 ->
  List.last (t_shape x3) None = Some n.
Proof.
  intros H1 H2 H3.
  apply call_layer_ok in H1 as (s1 & Hs1 & ->).
  apply call_layer_ok in H2 as (s2 & Hs2 & ->).
  cbn in Hs2. injection Hs2 as <-.
  apply Dense_last in Hs1.
  destruct up.
  - apply call_layer_ok in H3 as (s3 & Hs3 & ->). cbn [t_shape] in *.
    apply UpSampling1D_last in Hs3. congruence.
  - injection H3 as <-. done.
Qed.

Lemma tcn_stft_body_last lib a m :
  models.tcn_stft_body lib a = Ok m ->
  List.last (output_shape m) None = Some (models.nb_classes a).
Proof.
  unfold models.tcn_stft_body. intros H.
  inv_ok H. inv_ok H. inv_ok H. inv_ok H. inv_ok H. inv_ok H.
  injection H as <-. unfold output_shape, models.compile, keras_Model; cbn [m_outputs].
  eapply head_last; eauto.
Qed.

Lemma tcn_tcn_body_last lib a m :
  models.tcn_tcn_body lib a = Ok m ->
  List.last (output_shape m) None = Some (models.nb_classes a).
Proof.
  unfold models.tcn_tcn_body. intros H.
  inv_ok H. inv_ok H. inv_ok H. inv_ok H. inv_ok H.
  injection H as <-. unfold output_shape, models.compile, keras_Model; cbn [m_outputs].
  eapply head_last; eauto.
Qed.

(** The value a call binds to a parameter: the positional argument at its
    place in the signature if there is one, the keyword argument
    otherwise. *)
Definition passed (name : string) (pos : nat) (args : list pyval)
    (kwargs : gmap string pyval) : option pyval :=
  match nth_error args pos with
  | Some v => Some v
  | None => kwargs !! name
  end.

Lemma typed_args_nb_classes b a :
  models.typed_args b = Ok a -> b !! "nb_classes" = Some (VInt (models.nb_classes a)).
Proof.
  unfold models.typed_args. intros H.
  inv_ok H. inv_ok H.
  do 18 inv_ok H. injection H as <-. cbn [models.nb_classes].
  apply obind_ok in Hv0 as (x & Hx & Hv0).
  unfold models.arg_required in Hx.
  destruct (b !! "nb_classes") as [y|]; [|discriminate].
  injection Hx as ->. destruct x; try discriminate. by injection Hv0 as ->.
Qed.

Lemma bind_signature_second n0 n1 names args kwargs b :
  n0 <> n1 ->
  models.bind_signature (n0 :: n1 :: names) args kwargs = Ok b ->
  b !! n1 = passed n1 1 args kwargs.
Proof.
  intros Hne. unfold models.bind_signature, passed.
  destruct (_ <? _)%nat; [discriminate |].
  destruct (existsb _ _); [discriminate |].
  intros [= <-].
  destruct args as [|a0 [|a1 rest]]; cbn [zip_with nth_error];
    rewrite ?list_to_map_cons, ?list_to_map_nil.
  - by rewrite (left_id_L ∅ (∪)).
  - rewrite lookup_union, lookup_insert_ne, lookup_empty by done.
    by destruct (kwargs !! n1).
  - rewrite lookup_union, lookup_insert_ne, lookup_insert_eq by done.
    by destruct (kwargs !! n1).
Qed.

Lemma drop_ignored_lookup names b k v :
  models.drop_ignored names b !! k = Some v -> b !! k = Some v.
Proof.
  unfold models.drop_ignored. intros H.
  by apply map_lookup_filter_Some in H as [H _].
Qed.

Lemma tcn_stft_last lib args kwargs m :
  models.tcn_stft lib args kwargs = Ok m ->
  exists n, passed "nb_classes" 1 args kwargs = Some (VInt n) /\
            List.last (output_shape m) None = Some n.
Proof.
  unfold models.tcn_stft. intros H. inv_ok H. inv_ok H.
  exists (models.nb_classes v0). split.
  - rewrite <- (bind_signature_second "nb_freq" "nb_classes" _ args kwargs v
                  ltac:(done) Hv).
    by apply typed_args_nb_classes.
  - by apply tcn_stft_body_last in H.
Qed.

Lemma tcn_tcn_last lib args kwargs m :
  models.tcn_tcn lib args kwargs = Ok m ->
  exists n, passed "nb_classes" 1 args kwargs = Some (VInt n) /\
            List.last (output_shape m) None = Some n.
Proof.
  unfold models.tcn_tcn. intros H. inv_ok H. inv_ok H.
  exists (models.nb_classes v0). split.
  - rewrite <- (bind_signature_second "nb_freq" "nb_classes" _ args kwargs v
                  ltac:(done) Hv).
    eapply drop_ignored_lookup. by apply typed_args_nb_classes.
  - by apply tcn_tcn_body_last in H.
Qed.

(** C4.  Whatever the vendored layers do to a shape, a model that
    [tcn_stft] or [tcn_tcn] (or the synonym [tcn]) manages to build has an
    output whose last dimension is the [nb_classes] of the call: for the
    bodies on their typed arguments, and for the registered functions on any
    positional and keyword arguments.  No condition is put on [nb_pre_conv],
    [nb_lstm_units] or [upsample]. *)
Theorem output_last_dim_is_nb_classes (lib : Layers) :
  (forall a m,
      models.tcn_stft_body lib a = Ok m \/ models.tcn_tcn_body lib a = Ok m ->
      List.last (output_shape m) None = Some (models.nb_classes a)) /\
  (forall args kwargs m,
      models.tcn_stft lib args kwargs = Ok m \/
      models.tcn_tcn lib args kwargs = Ok m \/
      models.tcn lib args kwargs = Ok m ->
      exists n, passed "nb_classes" 1 args kwargs = Some (VInt n) /\
                List.last (output_shape m) None = Some n).
Proof.
  split.
  - intros a m [H|H];
      [by apply (tcn_stft_body_last lib) | by apply (tcn_tcn_body_last lib)].
  - intros args kwargs m [H|[H|H]].
    + by apply tcn_stft_last in H.
    + by apply tcn_tcn_last in H.
    + unfold models.tcn in H. by apply tcn_stft_last in H.
Qed.

(** A call with a downsampling frontend, a recurrent layer and upsampling. *)
Definition demo_kwargs : gmap string pyval :=
  list_to_map [("nb_freq", VInt 1); ("nb_classes", VInt 3); ("nb_hist", VInt 64);
               ("nb_pre_conv", VInt 2); ("nb_lstm_units", VInt 8);
               ("upsample", VBool true)].

Lemma output_last_dim_is_nb_classes_witness :
  exists m, models.tcn_stft spec_layers [] demo_kwargs = Ok m /\
            List.last (output_shape m) None = Some 3.
Proof.
  destruct (models.tcn_stft spec_layers [] demo_kwargs) as [m|e] eqn:E;
    [|vm_compute in E; discriminate].
  exists m. split; [done |].
  destruct (proj2 (output_last_dim_is_nb_classes spec_layers) [] demo_kwargs m
              (or_introl E)) as (n & Hn & Hlast).
  vm_compute in Hn. injection Hn as <-. exact Hlast.
Defined.

(** ** Sequence lengths through the frontend and the upsampling *)

Lemma find_app_found {A} (p : A -> bool) (l l' : list A) (x : A) :
  List.find p l = Some x -> List.find p (l ++ l') = Some x.
Proof.
  induction l as [|y l IH]; cbn; [done |].
  destruct (p y); [done | exact IH].
Qed.

Lemma find_app_none {A} (p : A -> bool) (l l' : list A) :
  List.find p l = None -> List.find p (l ++ l') = List.find p l'.
Proof.
  induction l as [|y l IH]; cbn; [done |].
  destruct (p y); [done | exact IH].
Qed.

Lemma find_all_false {A} (p : A -> bool) (l : list A) :
  Forall (fun x => p x = false) l -> List.find p l = None.
Proof.
  induction 1 as [|y l Hy _ IH]; cbn; [done |]. by rewrite Hy.
Qed.

Section Lengths.
Context (lib : Layers).
Hypothesis HTCN : TCN_keeps_length lib.
Hypothesis HSTFT : Spectrogram_hops lib.

Lemma TCN_call cfg b t f hist x :
  tc_return_sequences cfg = true ->
  call_layer lib (TCN cfg) {| t_shape := [b; t; f]; t_history := hist |} = Ok x ->
  x = {| t_shape := [b; t; Some (tc_nb_filters cfg)];
         t_history := (hist ++ [(TCN cfg, [b; t; Some (tc_nb_filters cfg)])])%list |}.
Proof using HTCN.
  intros Hrs H. apply call_layer_ok in H as (s & Hs & ->).
  cbn in Hs. apply HTCN in Hs as ->; done.
Qed.

Lemma MaxPooling1D_call p b t f hist x :
  0 < p ->
  call_layer lib (MaxPooling1D p p) {| t_shape := [b; Some t; f]; t_history := hist |}
    = Ok x ->
  x = {| t_shape := [b; Some (t / p); f];
         t_history := (hist ++ [(MaxPooling1D p p, [b; Some (t / p); f])])%list |}.
Proof.
  intros Hp H. apply call_layer_ok in H as (s & Hs & ->).
  cbn in Hs. destruct (_ || _); [discriminate |]. injection Hs as <-.
  by replace (t - p + p) with t by lia.
Qed.

Lemma Dense_call n b t f hist x :
  call_layer lib (Dense n) {| t_shape := [b; t; Some f]; t_history := hist |} = Ok x ->
  x = {| t_shape := [b; t; Some n];
         t_history := (hist ++ [(Dense n, [b; t; Some n])])%list |}.
Proof.
  intros H. apply call_layer_ok in H as (s & Hs & ->).
  cbn in Hs. by injection Hs as <-.
Qed.

Lemma Activation_call fn s hist x :
  call_layer lib (Activation fn) {| t_shape := s; t_history := hist |} = Ok x ->
  x = {| t_shape := s; t_history := (hist ++ [(Activation fn, s)])%list |}.
Proof.
  intros H. apply call_layer_ok in H as (s' & Hs & ->).
  cbn in Hs. by injection Hs as <-.
Qed.

Lemma UpSampling1D_call size b t f hist x :
  call_layer lib (UpSampling1D size) {| t_shape := [b; Some t; f]; t_history := hist |}
    = Ok x ->
  x = {| t_shape := [b; Some (size * t); f];
         t_history := (hist ++ [(UpSampling1D size, [b; Some (size * t); f])])%list |}.
Proof.
  intros H. apply call_layer_ok in H as (s' & Hs & ->).
  cbn in Hs. by injection Hs as <-.
Qed.

Lemma LSTM_call u b t f hist x :
  call_layer lib (Bidirectional_LSTM u) {| t_shape := [b; t; f]; t_history := hist |}
    = Ok x ->
  x = {| t_shape := [b; t; Some (2 * u)];
         t_history := (hist ++ [(Bidirectional_LSTM u, [b; t; Some (2 * u)])])%list |}.
Proof.
  intros H. apply call_layer_ok in H as (s' & Hs & ->).
  cbn in Hs. by injection Hs as <-.
Qed.

(** The spectrogram followed by the reshape: a three-axis tensor again,
    whatever the frontend returned, with the divided length when the hop
    divides the input length. *)
Lemma stft_frontend_call n_dft hop t c hist x0 x d1 d2 d3 d23 :
  call_layer lib (Spectrogram n_dft hop)
    {| t_shape := [None; Some t; Some c]; t_history := hist |} = Ok x0 ->
  shape_at x0 1 = Ok d1 -> shape_at x0 2 = Ok d2 -> shape_at x0 3 = Ok d3 ->
  dim_mul d2 d3 = Ok d23 ->
  call_layer lib (Reshape [d1; d23]) x0 = Ok x ->
  exists t' f s0,
    x = {| t_shape := [None; Some t'; Some f];
           t_history := (hist ++ [(Spectrogram n_dft hop, s0);
                                  (Reshape [Some t'; Some f], [None; Some t'; Some f])])%list |}
    /\ ((hop | t) -> t' = t / hop).
Proof using HSTFT.
  intros H0 H1 H2 H3 H23 H.
  apply call_layer_ok in H0 as (s0 & Hs0 & ->).
  apply call_layer_ok in H as (s & Hs & ->).
  cbn [t_shape t_history] in *.
  unfold shape_at in H1, H2, H3. cbn [t_shape] in H1, H2, H3.
  destruct s0 as [|b0 [|e1 [|e2 [|e3 rest]]]]; try discriminate.
  cbn in H1, H2, H3. injection H1 as <-. injection H2 as <-. injection H3 as <-.
  destruct e2 as [z2|], e3 as [z3|]; try discriminate. cbn in H23. injection H23 as <-.
  unfold layer_shape in Hs. cbn [known_dims] in Hs.
  destruct e1 as [z1|]; [|discriminate].
  cbn in Hs. destruct (known_dims rest); cbn in Hs; [|discriminate].
  destruct (_ =? _); [|discriminate]. injection Hs as <-.
  exists z1, (z2 * z3), (b0 :: Some z1 :: Some z2 :: Some z3 :: rest).
  split.
  - by rewrite <- app_assoc.
  - intros Hdiv. cbn in Hs0.
    destruct (HSTFT _ _ _ _ _ _ Hs0 Hdiv) as (f & c' & Hshape).
    by injection Hshape as _ -> _ _.
Qed.

Lemma pow2_pos n : 0 < n -> 0 < 2 ^ n.
Proof. intros. apply Z.pow_pos_nonneg; lia. Qed.

Lemma divide_mul_div f t : 0 < f -> (f | t) -> f * (t / f) = t.
Proof.
  intros Hf [k ->]. rewrite Z.div_mul by lia. lia.
Qed.

Lemma tcn_tcn_lengths a m :
  models.return_sequences a = true ->
  models.tcn_tcn_body lib a = Ok m ->
  let f := 2 ^ models.nb_pre_conv a in
  (0 < models.nb_pre_conv a ->
     frontend_length m = Some (models.nb_hist a / f) /\
     output_length m =
       Some (if models.upsample a then f * (models.nb_hist a / f)
             else models.nb_hist a / f) /\
     has_layer is_upsampling m = models.upsample a) /\
  (models.nb_pre_conv a <= 0 ->
     has_layer is_frontend m = false /\ has_layer is_upsampling m = false /\
     output_length m = Some (models.nb_hist a)).
Proof using HTCN.
  intros Hrs H f. unfold models.tcn_tcn_body in H.
  inv_ok H. inv_ok H. inv_ok H. inv_ok H. inv_ok H. injection H as <-.
  unfold frontend_length, output_length, has_layer, model_layers, output_shape,
    models.compile, keras_Model. cbn [m_outputs].
  destruct (0 <? models.nb_pre_conv a) eqn:Hn.
  - apply Z.ltb_lt in Hn. split; [intros _ | lia].
    inv_ok Hv. apply TCN_call in Hv4 as ->; [|done].
    apply MaxPooling1D_call in Hv as ->; [|by apply pow2_pos].
    apply TCN_call in Hv0 as ->; [|done].
    apply Dense_call in Hv1 as ->. apply Activation_call in Hv2 as ->.
    destruct (models.upsample a); cbn [andb] in Hv3.
    + apply UpSampling1D_call in Hv3 as ->. by cbn.
    + injection Hv3 as <-. by cbn.
  - apply Z.ltb_ge in Hn. split; [lia | intros _].
    injection Hv as <-. apply TCN_call in Hv0 as ->; [|done].
    apply Dense_call in Hv1 as ->. apply Activation_call in Hv2 as ->.
    cbn [andb] in Hv3. injection Hv3 as <-. by cbn.
Qed.

Lemma tcn_stft_lengths a m :
  models.return_sequences a = true ->
  models.tcn_stft_body lib a = Ok m ->
  let f := 2 ^ models.nb_pre_conv a in
  (0 < models.nb_pre_conv a ->
     exists L, frontend_length m = Some L /\
       output_length m = Some (if models.upsample a then f * L else L) /\
       has_layer is_upsampling m = models.upsample a /\
       ((f | models.nb_hist a) -> L = models.nb_hist a / f)) /\
  (models.nb_pre_conv a <= 0 ->
     has_layer is_frontend m = false /\ has_layer is_upsampling m = false /\
     output_length m = Some (models.nb_hist a)).
Proof using HTCN HSTFT.
  intros Hrs H f. unfold models.tcn_stft_body in H.
  inv_ok H. inv_ok H. inv_ok H. inv_ok H. inv_ok H. inv_ok H. injection H as <-.
  unfold frontend_length, output_length, has_layer, model_layers, output_shape,
    models.compile, keras_Model. cbn [m_outputs].
  destruct (0 <? models.nb_pre_conv a) eqn:Hn.
  - apply Z.ltb_lt in Hn. split; [intros _ | lia].
    do 5 inv_ok Hv.
    destruct (stft_frontend_call _ _ _ _ _ _ _ _ _ _ _ Hv5 Hv6 Hv7 Hv8 Hv9 Hv)
      as (t' & f' & s0 & -> & Hdiv).
    exists t'.
    apply TCN_call in Hv0 as ->; [|done].
    assert (exists g, v1 = {| t_shape := [None; Some t'; Some g];
                              t_history := t_history v1 |} /\
                      existsb (fun ls => is_upsampling ls.1) (t_history v1) = false /\
                      List.find (fun ls => closes_frontend ls.1) (t_history v1)
                      = Some (Reshape [Some t'; Some f'], [None; Some t'; Some f']))
      as (g & Hv1' & Hup & Hfind).
    { destruct (0 <? models.nb_lstm_units a).
      - apply LSTM_call in Hv1 as ->. by eexists.
      - injection Hv1 as <-. by eexists. }
    rewrite Hv1' in Hv2. apply Dense_call in Hv2 as ->.
    apply Activation_call in Hv3 as ->.
    destruct (models.upsample a); cbn [andb] in Hv4.
    + apply UpSampling1D_call in Hv4 as ->. cbn [t_shape t_history seq_len].
      rewrite <- !app_assoc, (find_app_found _ _ _ _ Hfind), !existsb_app, Hup. by cbn.
    + injection Hv4 as <-. cbn [t_shape t_history seq_len].
      rewrite <- !app_assoc, (find_app_found _ _ _ _ Hfind), !existsb_app, Hup. by cbn.
  - apply Z.ltb_ge in Hn. split; [lia | intros _].
    injection Hv as <-. apply TCN_call in Hv0 as ->; [|done].
    assert (exists g, v1 = {| t_shape := [None; Some (models.nb_hist a); Some g];
                              t_history := t_history v1 |} /\
                      existsb (fun ls => is_upsampling ls.1) (t_history v1) = false /\
                      existsb (fun ls => is_frontend ls.1) (t_history v1) = false)
      as (g & Hv1' & Hup & Hfr).
    { destruct (0 <? models.nb_lstm_units a).
      - apply LSTM_call in Hv1 as ->. by eexists.
      - injection Hv1 as <-. by eexists. }
    rewrite Hv1' in Hv2. apply Dense_call in Hv2 as ->.
    apply Activation_call in Hv3 as ->.
    cbn [andb] in Hv4. injection Hv4 as <-. cbn [t_shape t_history seq_len].
    rewrite !existsb_app, Hup, Hfr. by cbn.
Qed.

End Lengths.

Lemma spec_layers_keep_length : TCN_keeps_length spec_layers.
Proof.
  intros cfg b t f s' Hrs. cbn. rewrite Hrs. by intros [= <-].
Qed.

Lemma spec_layers_hop : Spectrogram_hops spec_layers.
Proof.
  intros n_dft n_hop b t c s'. cbn. destruct c as [c|]; [|discriminate].
  destruct (n_hop <=? 0) eqn:Hhop; [discriminate |].
  apply Z.leb_gt in Hhop. intros [= <-] [k ->].
  exists (n_dft / 2 + 1), c. do 3 f_equal.
  rewrite Z.div_mul by lia.
  replace (k * n_hop + n_hop - 1) with ((n_hop - 1) + k * n_hop) by lia.
  rewrite Z.div_add by lia. rewrite Z.div_small by lia. lia.
Qed.

(** [tcn_tcn(nb_freq=1, nb_classes=2, nb_hist=10, nb_pre_conv=2)] *)
Definition short_chunk_kwargs : gmap string pyval :=
  list_to_map [("nb_freq", VInt 1); ("nb_classes", VInt 2); ("nb_hist", VInt 10);
               ("nb_pre_conv", VInt 2)].

(** [tcn_stft(nb_freq=1, nb_classes=2, nb_hist=64, nb_pre_conv=2)], typed. *)
Definition aligned_args : models.builder_args :=
  {| models.nb_freq := 1; models.nb_classes := 2; models.nb_hist := 64;
     models.nb_filters := 16; models.kernel_size := 3; models.nb_conv := 1;
     models.loss := "categorical_crossentropy"; models.dilations := None;
     models.activation := "norm_relu"; models.use_skip_connections := true;
     models.return_sequences := true; models.dropout_rate := 0%Q;
     models.padding := "same"; models.sample_weight_mode := None;
     models.nb_pre_conv := 2; models.pre_nb_dft := 64; models.nb_lstm_units := 0;
     models.learning_rate := (5 # 10000)%Q; models.upsample := true;
     models.use_separable := VBool false |}.

(** C5 as stated fails where the factor does not divide the chunk: with 10
    samples and [nb_pre_conv = 2] the pooling of [tcn_tcn] leaves 2 steps,
    not 10/4, and the upsampled output has 8 steps, not 10. *)
Lemma frontend_factor_not_exact :
  exists m, models.tcn_tcn spec_layers [] short_chunk_kwargs = Ok m /\
            frontend_length m = Some 2 /\ 2 * 2 ^ 2 <> 10 /\
            output_length m = Some 8.
Proof.
  destruct (models.tcn_tcn spec_layers [] short_chunk_kwargs) as [m|e] eqn:E;
    [|vm_compute in E; discriminate].
  exists m. vm_compute in E. injection E as <-.
  repeat split; vm_compute; done.
Qed.

(** C5, amended.  For a model built with [return_sequences], by either
    builder, over layers that keep their contracts:
    with [nb_pre_conv > 0] the frontend leaves some length [L], the output
    has [2**nb_pre_conv * L] steps with [upsample] and [L] without, and an
    upsampling layer is there exactly with [upsample]; [L] is
    [nb_hist // 2**nb_pre_conv] for [tcn_tcn], and for both builders it is
    the exact quotient, restored by the upsampling, when [2**nb_pre_conv]
    divides [nb_hist];
    with [nb_pre_conv <= 0] there is no frontend layer, no upsampling layer,
    and the output has [nb_hist] steps. *)
Theorem frontend_and_upsampling_lengths (lib : Layers) a m :
  TCN_keeps_length lib -> Spectrogram_hops lib ->
  models.return_sequences a = true ->
  models.tcn_stft_body lib a = Ok m \/ models.tcn_tcn_body lib a = Ok m ->
  let f := 2 ^ models.nb_pre_conv a in
  (0 < models.nb_pre_conv a ->
     exists L, frontend_length m = Some L /\
       output_length m = Some (if models.upsample a then f * L else L) /\
       has_layer is_upsampling m = models.upsample a /\
       (models.tcn_tcn_body lib a = Ok m -> L = models.nb_hist a / f) /\
       ((f | models.nb_hist a) -> L = models.nb_hist a / f /\ f * L = models.nb_hist a)) /\
  (models.nb_pre_conv a <= 0 ->
     has_layer is_frontend m = false /\ has_layer is_upsampling m = false /\
     output_length m = Some (models.nb_hist a)).
Proof.
  intros HTCN HSTFT Hrs Hbuilt f.
  assert (forall L, 0 < models.nb_pre_conv a -> frontend_length m = Some L ->
                    models.tcn_tcn_body lib a = Ok m -> L = models.nb_hist a / f) as Htcn.
  { intros L Hn HL H.
    destruct (tcn_tcn_lengths lib HTCN a m Hrs H) as [Hpos _].
    destruct (Hpos Hn) as (HL' & _). rewrite HL in HL'. by injection HL' as ->. }
  destruct Hbuilt as [H|H].
  - destruct (tcn_stft_lengths lib HTCN HSTFT a m Hrs H) as [Hpos Hzero].
    split; [|exact Hzero].
    intros Hn. destruct (Hpos Hn) as (L & HL & Hout & Hup & Hdiv).
    exists L. repeat split; try done.
    + by apply Htcn.
    + by apply Hdiv.
    + rewrite (Hdiv H0). apply divide_mul_div; [by apply pow2_pos | done].
  - destruct (tcn_tcn_lengths lib HTCN a m Hrs H) as [Hpos Hzero].
    split; [|exact Hzero].
    intros Hn. destruct (Hpos Hn) as (HL & Hout & Hup).
    exists (models.nb_hist a / f). repeat split; try done.
    apply divide_mul_div; [by apply pow2_pos | done].
Qed.

Lemma frontend_and_upsampling_lengths_witness :
  exists m, models.tcn_stft_body spec_layers aligned_args = Ok m /\
            frontend_length m = Some 16 /\ output_length m = Some 64 /\
            has_layer is_upsampling m = true.
Proof.
  destruct (models.tcn_stft_body spec_layers aligned_args) as [m|e] eqn:E;
    [|vm_compute in E; discriminate].
  exists m. split; [done |].
  destruct (frontend_and_upsampling_lengths spec_layers aligned_args m
              spec_layers_keep_length spec_layers_hop eq_refl (or_introl E))
    as [Hpos _].
  destruct (Hpos ltac:(vm_compute; reflexivity)) as (L & HL & Hout & Hup & _ & Hdiv).
  destruct (Hdiv ltac:(exists 16; reflexivity)) as [-> _].
  repeat split; assumption.
Defined.

(** ** The registry *)

Section Registry.
Context (lib : Layers).

Lemma model_dict_tcn :
  models.model_dict lib !! "tcn"
  = Some {| models.__name__ := "tcn"; models.__call__ := models.tcn lib |}.
Proof. reflexivity. Qed.

Lemma model_dict_tcn_stft :
  models.model_dict lib !! "tcn_stft"
  = Some {| models.__name__ := "tcn_stft"; models.__call__ := models.tcn_stft lib |}.
Proof. reflexivity. Qed.

Lemma model_dict_tcn_tcn :
  models.model_dict lib !! "tcn_tcn"
  = Some {| models.__name__ := "tcn_tcn"; models.__call__ := models.tcn_tcn lib |}.
Proof. reflexivity. Qed.

(** Every entry is filed under the name of its function, and there are
    three of them. *)
Lemma model_dict_inv name f :
  models.model_dict lib !! name = Some f ->
  models.__name__ f = name /\
  (f = {| models.__name__ := "tcn"; models.__call__ := models.tcn lib |} \/
   f = {| models.__name__ := "tcn_stft"; models.__call__ := models.tcn_stft lib |} \/
   f = {| models.__name__ := "tcn_tcn"; models.__call__ := models.tcn_tcn lib |}).
Proof.
  unfold models.model_dict, models._register_as_model. cbn [models.__name__].
  intros H.
  apply lookup_insert_Some in H as [[<- <-]|[_ H]]; [by auto |].
  apply lookup_insert_Some in H as [[<- <-]|[_ H]]; [by auto |].
  apply lookup_insert_Some in H as [[<- <-]|[_ H]]; [by auto |].
  by rewrite lookup_empty in H.
Qed.

(** C9.  [tcn] returns what [tcn_stft] returns on the same arguments, so
    the entries 'tcn' and 'tcn_stft' of the registry build the same model
    from the same parameters. *)
Theorem tcn_is_tcn_stft :
  (forall args kwargs, models.tcn lib args kwargs = models.tcn_stft lib args kwargs) /\
  exists f g,
    models.model_dict lib !! "tcn" = Some f /\
    models.model_dict lib !! "tcn_stft" = Some g /\
    forall args kwargs, models.__call__ f args kwargs = models.__call__ g args kwargs.
Proof.
  split; [reflexivity |].
  eexists _, _. split; [apply model_dict_tcn |]. split; [apply model_dict_tcn_stft |].
  reflexivity.
Qed.

End Registry.

(** * Runs of the training script *)

(** ** Reasoning about computations *)

Lemma bind_run {A B} (m : M A) (f : A -> M B) fs :
  (m ≫= f) fs =
  match m fs with
  | (Ok a, fs1, ev1) =>
      match f a fs1 with
      | (r, fs2, ev2) => (r, fs2, (ev1 ++ ev2)%list)
      end
  | (Raise e, fs1, ev1) => (Raise e, fs1, ev1)
  end.
Proof. reflexivity. Qed.

Lemma bind_inv {A B} (m : M A) (f : A -> M B) fs r fs' evs :
  (m ≫= f) fs = (r, fs', evs) ->
  (exists e, m fs = (Raise e, fs', evs) /\ r = Raise e) \/
  (exists a fs1 ev1 ev2,
      m fs = (Ok a, fs1, ev1) /\ f a fs1 = (r, fs', ev2) /\ evs = (ev1 ++ ev2)%list).
Proof.
  rewrite bind_run. destruct (m fs) as [[[a|e] fs1] ev1].
  - destruct (f a fs1) as [[r2 fs2] ev2] eqn:E. intros [= <- <- <-].
    right. by exists a, fs1, ev1, ev2.
  - intros [= <- <- <-]. left. by exists e.
Qed.

Lemma bind_ok_inv {A B} (m : M A) (f : A -> M B) fs b fs' evs :
  (m ≫= f) fs = (Ok b, fs', evs) ->
  exists a fs1 ev1 ev2,
    m fs = (Ok a, fs1, ev1) /\ f a fs1 = (Ok b, fs', ev2) /\ evs = (ev1 ++ ev2)%list.
Proof.
  intros H. apply bind_inv in H as [(e & _ & ?)|H]; [discriminate | exact H].
Qed.

(** What a computation may emit, that every change of a file is announced
    by an [EvWrite], and what holds of a value it returns. *)
Definition sat {A} (m : M A) (P : event -> Prop) (Q : A -> Prop) : Prop :=
  forall fs r fs' evs,
    m fs = (r, fs', evs) ->
    Forall P evs /\
    (forall p, ~ In (EvWrite p) evs -> fs' !! p = fs !! p) /\
    (forall a, r = Ok a -> Q a).

Lemma sat_ret {A} (a : A) (P : event -> Prop) (Q : A -> Prop) :
  Q a -> sat (mret a) P Q.
Proof.
  intros HQ fs r fs' evs [= <- <- <-]. split; [|split]; [constructor | done |].
  by intros ? [= <-].
Qed.

Lemma sat_raise {A} e (P : event -> Prop) (Q : A -> Prop) : sat (raise e) P Q.
Proof.
  intros fs r fs' evs [= <- <- <-]. split; [|split]; [constructor | done | done].
Qed.

Lemma sat_lib_call {A} (o : outcome A) (P : event -> Prop) (Q : A -> Prop) :
  (forall a, o = Ok a -> Q a) -> sat (lib_call o) P Q.
Proof.
  intros HQ fs r fs' evs [= <- <- <-]. split; [|split]; [constructor | done | done].
Qed.

Lemma sat_emit ev (P : event -> Prop) (Q : unit -> Prop) :
  P ev -> (forall p, ev <> EvWrite p) -> Q tt -> sat (emit ev) P Q.
Proof.
  intros HP Hw HQ fs r fs' evs [= <- <- <-]. split; [|split]; [by repeat constructor | done |].
  by intros [] _.
Qed.

Lemma sat_write path f (P : event -> Prop) (Q : unit -> Prop) :
  P (EvWrite path) -> Q tt -> sat (write_file path f) P Q.
Proof.
  intros HP HQ fs r fs' evs [= <- <- <-]. split; [|split]; [by repeat constructor | |].
  - intros p Hp. apply lookup_insert_ne. intros ->. apply Hp. by left.
  - by intros [] _.
Qed.

Lemma sat_bind {A B} (m : M A) (f : A -> M B) (P : event -> Prop)
    (Q1 : A -> Prop) (Q2 : B -> Prop) :
  sat m P Q1 -> (forall a, Q1 a -> sat (f a) P Q2) -> sat (m ≫= f) P Q2.
Proof.
  intros Hm Hf fs r fs' evs H.
  apply bind_inv in H as [(e & H & ->)|(a & fs1 & ev1 & ev2 & H1 & H2 & ->)].
  - destruct (Hm _ _ _ _ H) as (HP & Hfs & _). split; [|split]; [done | done | done].
  - destruct (Hm _ _ _ _ H1) as (HP1 & Hfs1 & HQ1).
    destruct (Hf a (HQ1 a eq_refl) _ _ _ _ H2) as (HP2 & Hfs2 & HQ2).
    split; [|split]; [by apply Forall_app | | done].
    intros p Hp. rewrite Hfs2, Hfs1; [done | |]; intros Hin; apply Hp, in_or_app; auto.
Qed.

Lemma sat_weaken {A} (m : M A) (P P' : event -> Prop) (Q Q' : A -> Prop) :
  sat m P Q -> (forall ev, P ev -> P' ev) -> (forall a, Q a -> Q' a) -> sat m P' Q'.
Proof.
  intros Hm HP HQ fs r fs' evs H. destruct (Hm _ _ _ _ H) as (H1 & H2 & H3).
  split; [|split]; [by eapply Forall_impl | done | by auto].
Qed.

Lemma sat_logging_info msg (P : event -> Prop) (Q : unit -> Prop) :
  P (EvLog "INFO" msg) -> Q tt -> sat (logging_info msg) P Q.
Proof. intros. by apply sat_emit. Qed.

Lemma sat_info s (P : event -> Prop) (Q : unit -> Prop) :
  P (EvLog "INFO" (LFmt s [])) -> Q tt -> sat (info s) P Q.
Proof. intros. by apply sat_emit. Qed.

Lemma sat_logging_error msg (P : event -> Prop) (Q : unit -> Prop) :
  P (EvLog "ERROR" msg) -> Q tt -> sat (logging_error msg) P Q.
Proof. intros. by apply sat_emit. Qed.

Lemma sat_logging_exception msg (P : event -> Prop) (Q : unit -> Prop) :
  P (EvLog "ERROR" msg) -> Q tt -> sat (logging_exception msg) P Q.
Proof. intros. by apply sat_emit. Qed.

(** The events of the kinds that only the stages before the training loop
    emit, and the epochs among a list of events. *)
Definition is_log (ev : event) : Prop :=
  match ev with
  | EvLogConfig _ | EvLog _ _ => True
  | _ => False
  end.

Definition epochs_of (evs : list event) : list (nat * Z * option metric) :=
  omap (fun ev => match ev with
                  | EvEpoch e w l => Some (e, w, l)
                  | _ => None
                  end) evs.

(** ** The training loop and its checkpoint *)

Lemma Qltb_true a b : Qltb a b = true -> (a < b)%Q.
Proof.
  unfold Qltb. intros H. apply negb_true_iff in H.
  apply Qnot_le_lt. intros Hle. apply Qle_bool_iff in Hle. congruence.
Qed.

Lemma Qltb_false a b : Qltb a b = false -> (b <= a)%Q.
Proof.
  unfold Qltb. intros H. apply negb_false_iff in H. by apply Qle_bool_iff.
Qed.

Lemma lib_call_inv {A} (o : outcome A) fs r fs' evs :
  lib_call o fs = (r, fs', evs) -> r = o /\ fs' = fs /\ evs = [].
Proof. by intros [= <- <- <-]. Qed.

Lemma emit_inv ev fs r fs' evs :
  emit ev fs = (r, fs', evs) -> r = Ok tt /\ fs' = fs /\ evs = [ev].
Proof. by intros [= <- <- <-]. Qed.

Lemma ret_inv {A} (a : A) fs r fs' evs :
  (mret a : M A) fs = (r, fs', evs) -> r = Ok a /\ fs' = fs /\ evs = [].
Proof. by intros [= <- <- <-]. Qed.

Lemma Qltb_intro a b : (a < b)%Q -> Qltb a b = true.
Proof.
  intros H. destruct (Qltb a b) eqn:E; [done |].
  apply Qltb_false in E. exfalso. by eapply Qlt_not_le.
Qed.

(** *** Comparing metrics *)

Lemma np_less_irrefl a : np_less a a = false.
Proof.
  destruct a; cbn; try done.
  destruct (Qltb q q) eqn:E; [|done]. apply Qltb_true in E.
  exfalso. by eapply Qlt_irrefl.
Qed.

Lemma np_less_trans a b c :
  np_less a b = true -> np_less b c = true -> np_less a c = true.
Proof.
  destruct a, b, c; cbn; try done.
  intros H1 H2. apply Qltb_true in H1, H2. apply Qltb_intro. by eapply Qlt_trans.
Qed.

Lemma np_less_asym a b : np_less a b = true -> np_less b a = false.
Proof.
  intros H. destruct (np_less b a) eqn:E; [|done].
  by rewrite <- (np_less_irrefl a), (np_less_trans a b a).
Qed.

(** What beats [b] beats every number that does not beat [b]. *)
Lemma np_less_below a b c :
  np_less a b = true -> np_less c b = false -> c <> MNaN -> np_less a c = true.
Proof.
  destruct a, b, c; cbn; try done.
  intros H1 H2 _. apply Qltb_true in H1. apply Qltb_false in H2.
  apply Qltb_intro. by eapply Qlt_le_trans.
Qed.

(** What does not beat [b] does not beat what beats [b]. *)
Lemma np_less_above a b c :
  np_less a b = true -> np_less c b = false -> np_less c a = false.
Proof.
  intros H1 H2. destruct (np_less c a) eqn:E; [|done].
  by rewrite <- H2, (np_less_trans c a b).
Qed.

(** What is below something is a number or minus infinity. *)
Lemma np_less_number a b : np_less a b = true -> a <> MNaN.
Proof. by destruct a. Qed.

(** *** Library callbacks *)

(** The lists of files the hooks of the callback [c] write. *)
Definition hook_writes (env : Env) (c : callback) (ws : list (string * file)) : Prop :=
  ws = (callback_train_begin env c).1 \/
  (exists e, ws = (callback_epoch_begin env c e).1) \/
  (exists e logs, ws = (callback_epoch_end env c e logs).1) \/
  ws = (callback_train_end env c).1.

(** [p] is a path that a hook of one of the callbacks [C] writes. *)
Definition written_by (env : Env) (C : callback -> Prop) (p : string) : Prop :=
  exists c ws f, C c /\ hook_writes env c ws /\ In (p, f) ws.

(** A callback that is no checkpoint: early stopping, or one of the
    library callbacks [C]. *)
Definition bystander (C : callback -> Prop) (c : callback) : Prop :=
  match c with
  | ModelCheckpoint _ _ _ _ _ => False
  | EarlyStopping _ _ => True
  | other => C other
  end.

(** All a library callback emits is the writes of its hooks. *)
Definition hook_event (W : string -> Prop) (ev : event) : Prop :=
  match ev with
  | EvWrite p => W p
  | _ => False
  end.

(** What the loop emits when its only checkpoint saves to [path] and the
    hooks of its other callbacks write to the paths [W]. *)
Definition fit_event (path : string) (W : string -> Prop) (ev : event) : Prop :=
  match ev with
  | EvEpoch _ _ _ => True
  | EvWrite p => p = path \/ W p
  | EvCheckpoint p _ _ _ => p = path
  | _ => False
  end.

(** Every save follows an epoch whose loss beat the best one before it: it
    is below [best], no earlier epoch is below it, and it is below every
    earlier loss that is a number. *)
Definition saves_improve (path : string) (best : metric) (evs : list event) : Prop :=
  forall p e w l,
    In (EvCheckpoint p e w l) evs ->
    p = path /\ In (EvEpoch e w l) evs /\
    exists lv, l = Some lv /\ np_less lv best = true /\
    forall e' w' l', In (EvEpoch e' w' (Some l')) evs -> (e' < e)%nat ->
                     np_less l' lv = false /\ (l' <> MNaN -> np_less lv l' = true).

(** Either nothing was saved, because no epoch beat the best loss the
    callback started with, or an epoch whose loss no other epoch beat was
    saved; the file holds its weights unless a library callback writes to
    the same path. *)
Definition best_so_far (path : string) (W : string -> Prop) (best : metric)
    (fs' : gmap string file) (evs : list event) : Prop :=
  ((forall p e w l, ~ In (EvCheckpoint p e w l) evs) /\
   (forall e w l, In (EvEpoch e w (Some l)) evs -> np_less l best = false) /\
   (~ W path -> ~ In (EvWrite path) evs))
  \/
  (exists e saved l,
      In (EvEpoch e (m_weights saved) (Some l)) evs /\
      In (EvCheckpoint path e (m_weights saved) (Some l)) evs /\
      In (EvWrite path) evs /\
      np_less l best = true /\
      (forall e' w' l', In (EvEpoch e' w' (Some l')) evs -> np_less l' l = false) /\
      (~ W path -> fs' !! path = Some (ModelFile saved))).

Definition summary (lg : epoch_logs) : Z * option metric :=
  (new_weights lg, e_val_loss lg).

Lemma epochs_of_cons ev evs :
  epochs_of (ev :: evs) =
  match ev with
  | EvEpoch e w l => (e, w, l) :: epochs_of evs
  | _ => epochs_of evs
  end.
Proof. by destruct ev. Qed.

Lemma epochs_of_app evs1 evs2 :
  epochs_of (evs1 ++ evs2) = (epochs_of evs1 ++ epochs_of evs2)%list.
Proof. apply omap_app. Qed.

(** Goes through the elements of a list an event is in. *)
Ltac in_cases H :=
  repeat match type of H with
         | In _ (_ :: _) => destruct H as [H|H]; [try discriminate H |]
         | In _ [] => destruct H
         end.

Lemma hook_event_epoch W lib e w l :
  Forall (hook_event W) lib -> ~ In (EvEpoch e w l) lib.
Proof. intros H Hin. rewrite List.Forall_forall in H. by apply H in Hin. Qed.

Lemma hook_event_checkpoint W lib p e w l :
  Forall (hook_event W) lib -> ~ In (EvCheckpoint p e w l) lib.
Proof. intros H Hin. rewrite List.Forall_forall in H. by apply H in Hin. Qed.

Lemma hook_event_write W lib p :
  Forall (hook_event W) lib -> In (EvWrite p) lib -> W p.
Proof. intros H Hin. rewrite List.Forall_forall in H. by apply H in Hin. Qed.

Lemma hook_event_epochs W lib : Forall (hook_event W) lib -> epochs_of lib = [].
Proof.
  induction 1 as [|ev lib Hev _ IH]; [done |].
  rewrite epochs_of_cons. by destruct ev.
Qed.

Section Hooks.
Context (env : Env) (C : callback -> Prop).

Local Abbreviation W := (written_by env C).

Lemma write_files_sat ws (P : event -> Prop) :
  (forall p f, In (p, f) ws -> P (EvWrite p)) ->
  sat (write_files ws) P (fun _ => True).
Proof.
  induction ws as [|[p f] ws IH]; intros HP; cbn [write_files].
  - by apply sat_ret.
  - eapply sat_bind with (Q1 := fun _ => True);
      [apply sat_write; [apply (HP p f); by left | done] |].
    cbn beta. intros _ _. apply IH. intros p' f' Hin. apply (HP p' f'). by right.
Qed.

Lemma run_hook_sat {A} (h : hook A) (P : event -> Prop) :
  (forall p f, In (p, f) h.1 -> P (EvWrite p)) ->
  sat (run_hook h) P (fun a => h.2 = Ok a).
Proof.
  intros HP. unfold run_hook.
  eapply sat_bind; [by apply write_files_sat |]. cbn beta. intros _ _.
  by apply sat_lib_call.
Qed.

Lemma epoch_hook_sat c e logs :
  C c ->
  sat (run_hook (callback_epoch_end env c e logs)) (hook_event W) (fun _ => True).
Proof.
  intros Hc. eapply sat_weaken; [apply run_hook_sat | done | done].
  intros p f Hin. exists c, (callback_epoch_end env c e logs).1, f.
  split; [done |]. split; [|done]. right. right. left. by eexists _, _.
Qed.

Lemma on_epoch_end_bystander model e logs c :
  bystander C (cb c) ->
  sat (on_epoch_end env model e logs c) (hook_event W)
    (fun r => bystander C (cb r.1)).
Proof.
  unfold on_epoch_end. intros Hq. destruct (cb c) eqn:Hcb; try done.
  - destruct (get_monitor _ _); [destruct (monitor_op _ _ _) |];
      apply sat_ret; cbn; by rewrite ?Hcb.
  - eapply sat_bind; [by apply epoch_hook_sat |]. cbn beta. intros stop _.
    apply sat_ret. cbn. by rewrite Hcb.
  - eapply sat_bind; [by apply epoch_hook_sat |]. cbn beta. intros stop _.
    apply sat_ret. cbn. by rewrite Hcb.
  - eapply sat_bind; [by apply epoch_hook_sat |]. cbn beta. intros stop _.
    apply sat_ret. cbn. by rewrite Hcb.
  - eapply sat_bind; [by apply epoch_hook_sat |]. cbn beta. intros stop _.
    apply sat_ret. cbn. by rewrite Hcb.
Qed.

Lemma callbacks_bystanders model e logs cbs :
  Forall (fun c => bystander C (cb c)) cbs ->
  sat (callbacks_epoch_end env model e logs cbs) (hook_event W)
    (fun r => Forall (fun c => bystander C (cb c)) r.1).
Proof.
  induction 1 as [|c rest Hc Hrest IH]; cbn [callbacks_epoch_end].
  - apply sat_ret. constructor.
  - eapply sat_bind; [by apply on_epoch_end_bystander |]. cbn beta.
    intros [c' stop] Hc'.
    eapply sat_bind; [exact IH |]. cbn beta. intros [rest' stop'] Hrest'.
    apply sat_ret. by constructor.
Qed.

Lemma train_begin_sat cbs :
  Forall (bystander C) cbs ->
  sat (for_each (on_train_begin env) cbs) (hook_event W) (fun _ => True).
Proof.
  induction 1 as [|c rest Hc Hrest IH]; cbn [for_each]; [by apply sat_ret |].
  eapply sat_bind with (Q1 := fun _ => True); [|by intros _ _].
  assert (C c ->
          sat (run_hook (callback_train_begin env c)) (hook_event W) (fun _ => True))
    as Hhook.
  { intros Hcc. eapply sat_weaken; [apply run_hook_sat | done | done].
    intros p f Hin. exists c, (callback_train_begin env c).1, f.
    split; [done |]. split; [by left | done]. }
  destruct c; cbn in Hc; first [done | by apply sat_ret | by apply Hhook].
Qed.

Lemma epoch_begin_sat e cbs :
  Forall (bystander C) cbs ->
  sat (for_each (on_epoch_begin env e) cbs) (hook_event W) (fun _ => True).
Proof.
  induction 1 as [|c rest Hc Hrest IH]; cbn [for_each]; [by apply sat_ret |].
  eapply sat_bind with (Q1 := fun _ => True); [|by intros _ _].
  assert (C c ->
          sat (run_hook (callback_epoch_begin env c e)) (hook_event W) (fun _ => True))
    as Hhook.
  { intros Hcc. eapply sat_weaken; [apply run_hook_sat | done | done].
    intros p f Hin. exists c, (callback_epoch_begin env c e).1, f.
    split; [done |]. split; [|done]. right. left. by eexists. }
  destruct c; cbn in Hc; first [done | by apply sat_ret | by apply Hhook].
Qed.

Lemma train_end_sat cbs :
  Forall (bystander C) cbs ->
  sat (for_each (on_train_end env) cbs) (hook_event W) (fun _ => True).
Proof.
  induction 1 as [|c rest Hc Hrest IH]; cbn [for_each]; [by apply sat_ret |].
  eapply sat_bind with (Q1 := fun _ => True); [|by intros _ _].
  assert (C c ->
          sat (run_hook (callback_train_end env c)) (hook_event W) (fun _ => True))
    as Hhook.
  { intros Hcc. eapply sat_weaken; [apply run_hook_sat | done | done].
    intros p f Hin. exists c, (callback_train_end env c).1, f.
    split; [done |]. split; [by right; right; right | done]. }
  destruct c; cbn in Hc; first [done | by apply sat_ret | by apply Hhook].
Qed.

End Hooks.

Section FitFacts.
Context (env : Env) (req : fit_request) (path : string) (v : Z) (C : callback -> Prop).

Local Abbreviation W := (written_by env C).
Local Abbreviation bystanders := (Forall (fun c => bystander C (cb c))).

(** The checkpoint of [train] at the end of an epoch. *)
Lemma checkpoint_epoch_end model e logs c fs :
  cb c = ModelCheckpoint path true false "val_loss" v ->
  on_epoch_end env model e logs c fs =
  match e_val_loss logs with
  | Some l =>
      if np_less l (cb_best c)
      then (Ok ({| cb := cb c; cb_best := l; cb_wait := cb_wait c |}, false),
            <[path := ModelFile model]> fs,
            [EvWrite path; EvCheckpoint path e (m_weights model) (Some l)])
      else (Ok (c, false), fs, [])
  | None => (Ok (c, false), fs, [])
  end.
Proof.
  intros Hcb. unfold on_epoch_end, save_checkpoint. rewrite Hcb.
  change (get_monitor "val_loss" logs) with (e_val_loss logs).
  change (checkpoint_grows "val_loss") with false.
  unfold monitor_op.
  destruct (e_val_loss logs) as [l|]; [|reflexivity].
  destruct (np_less l (cb_best c)); reflexivity.
Qed.

(** The callbacks of [train] at the end of an epoch: the checkpoint saves
    or not, then the library callbacks [lib] have their turn. *)
Lemma epoch_callbacks model e logs c0 rest fs cbs' stop fs' evs :
  cb c0 = ModelCheckpoint path true false "val_loss" v ->
  bystanders rest ->
  callbacks_epoch_end env model e logs (c0 :: rest) fs = (Ok (cbs', stop), fs', evs) ->
  exists c0' rest' fs1 lib,
    cbs' = c0' :: rest' /\ cb c0' = cb c0 /\ bystanders rest' /\
    Forall (hook_event W) lib /\
    (forall p, ~ In (EvWrite p) lib -> fs' !! p = fs1 !! p) /\
    ((exists l, e_val_loss logs = Some l /\ np_less l (cb_best c0) = true /\
                cb_best c0' = l /\ fs1 = <[path := ModelFile model]> fs /\
                evs = EvWrite path
                        :: EvCheckpoint path e (m_weights model) (Some l) :: lib)
     \/
     ((forall l, e_val_loss logs = Some l -> np_less l (cb_best c0) = false) /\
      cb_best c0' = cb_best c0 /\ fs1 = fs /\ evs = lib)).
Proof.
  intros Hcb Hq H. cbn [callbacks_epoch_end] in H.
  apply bind_ok_inv in H as ([c' s] & fs1 & ev1 & ev2 & H1 & H2 & ->).
  apply bind_ok_inv in H2 as ([rest' s'] & fs2 & ev3 & ev4 & H3 & H4 & ->).
  apply ret_inv in H4 as (H4 & -> & ->). injection H4 as -> ->.
  destruct (callbacks_bystanders env C _ _ _ _ Hq _ _ _ _ H3) as (Hlib & Hframe & Hrest').
  specialize (Hrest' _ eq_refl). cbn [fst] in Hrest'.
  rewrite (checkpoint_epoch_end _ _ _ _ _ Hcb) in H1.
  exists c', rest', fs1, ev3. split; [done |].
  rewrite app_nil_r.
  destruct (e_val_loss logs) as [l|] eqn:Hl.
  - destruct (np_less l (cb_best c0)) eqn:Hlt; injection H1 as <- <- <- <-.
    + do 4 (split; [done |]). left. by exists l.
    + do 4 (split; [done |]). right. split; [|done]. by intros ? [= <-].
  - injection H1 as <- <- <- <-. do 4 (split; [done |]). right. by split.
Qed.

Definition loop_post (best : metric) (e : nat) (fs fs' : gmap string file)
    (evs : list event) : Prop :=
  (forall e' w l, In (EvEpoch e' w l) evs -> (e <= e')%nat) /\
  saves_improve path best evs /\
  best_so_far path W best fs' evs /\
  (forall p, ~ In (EvWrite p) evs -> fs' !! p = fs !! p) /\
  Forall (fit_event path W) evs.

Lemma loop_post_nil best e fs : loop_post best e fs fs [].
Proof.
  split; [by intros ? ? ? [] |]. split; [by intros ? ? ? ? [] |].
  split; [|split; [done | constructor]].
  left. split; [by intros ? ? ? ? [] |]. split; [by intros ? ? ? [] | by intros _ []].
Qed.

Lemma hook_fit_event ev : hook_event W ev -> fit_event path W ev.
Proof. destruct ev; cbn; try done. by right. Qed.

(** The hooks of the library callbacks, before the rest of the loop. *)
Lemma loop_post_hooks best e fs fs1 fs' lib evs :
  Forall (hook_event W) lib ->
  (forall p, ~ In (EvWrite p) lib -> fs1 !! p = fs !! p) ->
  loop_post best e fs1 fs' evs ->
  loop_post best e fs fs' (lib ++ evs).
Proof.
  intros Hlib Hframe (G1 & G2 & G3 & G4 & G5).
  split; [|split; [|split; [|split]]].
  - intros e' w l H. apply in_app_or in H as [H|H]; [|by eapply G1].
    by apply (hook_event_epoch _ _ _ _ _ Hlib) in H.
  - intros p e0 w0 l0 H. apply in_app_or in H as [H|H];
      [by apply (hook_event_checkpoint _ _ _ _ _ _ Hlib) in H |].
    destruct (G2 _ _ _ _ H) as (-> & Hin & lv & -> & Hb & Hearlier).
    split; [done |]. split; [apply in_or_app; by right |].
    exists lv. split; [done |]. split; [done |].
    intros e' w' l' Hin' Hlt. apply in_app_or in Hin' as [Hin'|Hin'];
      [by apply (hook_event_epoch _ _ _ _ _ Hlib) in Hin' | by eapply Hearlier].
  - destruct G3 as [(Hnc & Hep & Hnw)|(e0 & saved & l0 & Hi1 & Hi2 & Hi3 & Hb & Hmin & Hf)].
    + left. split; [|split].
      * intros p e0 w0 l0 H. apply in_app_or in H as [H|H]; [|by eapply Hnc].
        by apply (hook_event_checkpoint _ _ _ _ _ _ Hlib) in H.
      * intros e0 w0 l0 H. apply in_app_or in H as [H|H]; [|by eapply Hep].
        by apply (hook_event_epoch _ _ _ _ _ Hlib) in H.
      * intros HW H. apply in_app_or in H as [H|H]; [|by apply Hnw].
        by apply HW, (hook_event_write _ _ _ Hlib).
    + right. exists e0, saved, l0.
      split; [apply in_or_app; by right |]. split; [apply in_or_app; by right |].
      split; [apply in_or_app; by right |]. split; [done |]. split; [|done].
      intros e' w' l' H. apply in_app_or in H as [H|H]; [|by eapply Hmin].
      by apply (hook_event_epoch _ _ _ _ _ Hlib) in H.
  - intros p Hp. rewrite G4, Hframe; [done | |]; intros Hin; apply Hp, in_or_app; auto.
  - apply Forall_app. split; [|done]. eapply Forall_impl; [done |]. apply hook_fit_event.
Qed.

(** The hooks of the library callbacks, after the loop. *)
Lemma loop_post_hooks_end best e fs fs1 fs' lib evs :
  Forall (hook_event W) lib ->
  (forall p, ~ In (EvWrite p) lib -> fs' !! p = fs1 !! p) ->
  loop_post best e fs fs1 evs ->
  loop_post best e fs fs' (evs ++ lib).
Proof.
  intros Hlib Hframe (G1 & G2 & G3 & G4 & G5).
  split; [|split; [|split; [|split]]].
  - intros e' w l H. apply in_app_or in H as [H|H]; [by eapply G1 |].
    by apply (hook_event_epoch _ _ _ _ _ Hlib) in H.
  - intros p e0 w0 l0 H. apply in_app_or in H as [H|H];
      [|by apply (hook_event_checkpoint _ _ _ _ _ _ Hlib) in H].
    destruct (G2 _ _ _ _ H) as (-> & Hin & lv & -> & Hb & Hearlier).
    split; [done |]. split; [apply in_or_app; by left |].
    exists lv. split; [done |]. split; [done |].
    intros e' w' l' Hin' Hlt. apply in_app_or in Hin' as [Hin'|Hin'];
      [by eapply Hearlier | by apply (hook_event_epoch _ _ _ _ _ Hlib) in Hin'].
  - destruct G3 as [(Hnc & Hep & Hnw)|(e0 & saved & l0 & Hi1 & Hi2 & Hi3 & Hb & Hmin & Hf)].
    + left. split; [|split].
      * intros p e0 w0 l0 H. apply in_app_or in H as [H|H]; [by eapply Hnc |].
        by apply (hook_event_checkpoint _ _ _ _ _ _ Hlib) in H.
      * intros e0 w0 l0 H. apply in_app_or in H as [H|H]; [by eapply Hep |].
        by apply (hook_event_epoch _ _ _ _ _ Hlib) in H.
      * intros HW H. apply in_app_or in H as [H|H]; [by apply Hnw |].
        by apply HW, (hook_event_write _ _ _ Hlib).
    + right. exists e0, saved, l0.
      split; [apply in_or_app; by left |]. split; [apply in_or_app; by left |].
      split; [apply in_or_app; by left |]. split; [done |]. split.
      * intros e' w' l' H. apply in_app_or in H as [H|H]; [by eapply Hmin |].
        by apply (hook_event_epoch _ _ _ _ _ Hlib) in H.
      * intros HW. rewrite Hframe; [by apply Hf |].
        intros H. by apply HW, (hook_event_write _ _ _ Hlib).
  - intros p Hp. rewrite Hframe, G4; [done | |]; intros Hin; apply Hp, in_or_app; auto.
  - apply Forall_app. split; [done |]. eapply Forall_impl; [done |]. apply hook_fit_event.
Qed.

(** An epoch that improved on the best loss, followed by the rest of the
    loop. *)
Lemma loop_post_improved best e model l fs fs' evs :
  np_less l best = true ->
  loop_post l (S e) (<[path := ModelFile model]> fs) fs' evs ->
  loop_post best e fs fs'
    (EvEpoch e (m_weights model) (Some l)
       :: EvWrite path :: EvCheckpoint path e (m_weights model) (Some l) :: evs).
Proof.
  intros Himp (G1 & G2 & G3 & G4 & G5).
  assert (forall e' w l', In (EvEpoch e' w l')
            (EvEpoch e (m_weights model) (Some l)
               :: EvWrite path :: EvCheckpoint path e (m_weights model) (Some l) :: evs) ->
          (e <= e')%nat) as G1'.
  { intros e' w l' H. in_cases H; [injection H as <- _ _; lia |].
    apply G1 in H. lia. }
  split; [exact G1' |]. split; [|split; [|split]].
  - intros p e0 w0 l0 H. in_cases H.
    + injection H as <- <- <- <-. split; [done |]. split; [by left |].
      exists l. split; [done |]. split; [done |].
      intros e' w' l' Hin Hlt. apply G1' in Hin. lia.
    + destruct (G2 _ _ _ _ H) as (-> & Hin & lv & -> & Hb & Hearlier).
      split; [done |]. split; [by do 3 right |].
      exists lv. split; [done |]. split; [by eapply np_less_trans |].
      intros e' w' l' Hin' Hlt. in_cases Hin'.
      * injection Hin' as <- <- <-. split; [by apply np_less_asym | done].
      * by eapply Hearlier.
  - destruct G3 as [(Hnc & Hep & Hnw)|(e0 & saved & l0 & Hi1 & Hi2 & Hi3 & Hb & Hmin & Hf)].
    + right. exists e, model, l.
      split; [by left |]. split; [by do 2 right; left |]. split; [by right; left |].
      split; [done |]. split.
      * intros e' w' l' Hin. in_cases Hin.
        -- injection Hin as <- <- <-. apply np_less_irrefl.
        -- by eapply Hep.
      * intros HW. rewrite G4 by by apply Hnw. by rewrite lookup_insert_eq.
    + right. exists e0, saved, l0.
      split; [by do 3 right |]. split; [by do 3 right |]. split; [by right; left |].
      split; [by eapply np_less_trans |]. split; [|done].
      intros e' w' l' Hin. in_cases Hin.
      * injection Hin as <- <- <-. by apply np_less_asym.
      * by eapply Hmin.
  - intros p Hp. rewrite G4.
    + apply lookup_insert_ne. intros <-. apply Hp. by right; left.
    + intros Hin. apply Hp. by do 3 right.
  - constructor; [done |]. constructor; [by left |]. by constructor.
Qed.

(** An epoch whose loss is missing or did not improve on the best one. *)
Lemma loop_post_kept best e w l fs fs' evs :
  (forall lv, l = Some lv -> np_less lv best = false) ->
  loop_post best (S e) fs fs' evs ->
  loop_post best e fs fs' (EvEpoch e w l :: evs).
Proof.
  intros Hle (G1 & G2 & G3 & G4 & G5).
  split; [|split; [|split; [|split]]].
  - intros e' w' l' H. in_cases H; [injection H as <- _ _; lia |].
    apply G1 in H. lia.
  - intros p e0 w0 l0 H. in_cases H.
    destruct (G2 _ _ _ _ H) as (-> & Hin & lv & -> & Hb & Hearlier).
    split; [done |]. split; [by right |].
    exists lv. split; [done |]. split; [done |].
    intros e' w' l' Hin' Hlt. in_cases Hin'.
    + injection Hin' as <- <- ->. split.
      * eapply np_less_above; [done | by apply Hle].
      * intros Hnan. eapply np_less_below; [done | by apply Hle | done].
    + by eapply Hearlier.
  - destruct G3 as [(Hnc & Hep & Hnw)|(e0 & saved & l0 & Hi1 & Hi2 & Hi3 & Hb & Hmin & Hf)].
    + left. split; [|split].
      * intros p e0 w0 l0 H. in_cases H. by eapply Hnc.
      * intros e' w' l' Hin. in_cases Hin.
        -- injection Hin as <- <- ->. by apply Hle.
        -- by eapply Hep.
      * intros HW H. in_cases H. by apply Hnw.
    + right. exists e0, saved, l0.
      split; [by right |]. split; [by right |]. split; [by right |].
      split; [done |]. split; [|done].
      intros e' w' l' Hin. in_cases Hin.
      * injection Hin as <- <- ->. eapply np_less_above; [done | by apply Hle].
      * by eapply Hmin.
  - intros p Hp. apply G4. intros Hin. apply Hp. by right.
  - by constructor.
Qed.

(** The hooks of the library callbacks before an epoch. *)
Lemma loop_post_begin best e fs fs1 fs' lib evs hist hist' (n : nat) :
  Forall (hook_event W) lib ->
  (forall p, ~ In (EvWrite p) lib -> fs1 !! p = fs !! p) ->
  loop_post best e fs1 fs' evs /\
  ((0 < n)%nat -> exists e' w l, In (EvEpoch e' w l) evs) /\
  (exists new, hist' = (hist ++ new)%list /\
               map (fun x => (x.1.2, x.2)) (epochs_of evs) = map summary new) ->
  loop_post best e fs fs' (lib ++ evs) /\
  ((0 < n)%nat -> exists e' w l, In (EvEpoch e' w l) (lib ++ evs)) /\
  exists new, hist' = (hist ++ new)%list /\
              map (fun x => (x.1.2, x.2)) (epochs_of (lib ++ evs)) = map summary new.
Proof.
  intros Hlib Hframe (Hpost & Hsome & new & Hhist & Hnew).
  split; [by eapply loop_post_hooks |]. split.
  - intros Hn. destruct (Hsome Hn) as (e' & w & l & Hin).
    exists e', w, l. apply in_or_app. by right.
  - exists new. split; [done |].
    by rewrite epochs_of_app, (hook_event_epochs _ _ Hlib).
Qed.

(** The loop of [train]: a checkpoint on the validation loss first, then
    callbacks that are no checkpoints. *)
Lemma fit_loop_post n :
  forall e model c0 rest hist fs hist' model' fs' evs,
    cb c0 = ModelCheckpoint path true false "val_loss" v ->
    bystanders rest ->
    fit_loop env req n e model (c0 :: rest) hist fs = (Ok (hist', model'), fs', evs) ->
    loop_post (cb_best c0) e fs fs' evs /\
    ((0 < n)%nat -> exists e' w l, In (EvEpoch e' w l) evs) /\
    exists new, hist' = (hist ++ new)%list /\
                map (fun x => (x.1.2, x.2)) (epochs_of evs) = map summary new.
Proof.
  induction n as [|n IH]; intros e model c0 rest hist fs hist' model' fs' evs Hcb Hq H.
  - apply ret_inv in H as (H & -> & ->). injection H as <- <-.
    split; [apply loop_post_nil |]. split; [lia |].
    exists []. by rewrite app_nil_r.
  - cbn [fit_loop] in H.
    apply bind_ok_inv in H as ([] & fs0 & lib0 & ev0 & H0 & H & ->).
    cbn [map for_each] in H0. rewrite Hcb in H0. cbn [on_epoch_begin] in H0.
    rewrite bind_run in H0. cbn [mret M_ret] in H0.
    destruct (for_each (on_epoch_begin env e) (map cb rest) fs) as [[r0 fs0'] lib0']
      eqn:E0.
    injection H0 as -> -> ->. cbn [app].
    destruct (epoch_begin_sat env C e _ (proj2 (Forall_map _ _ _) Hq) _ _ _ _ E0)
      as (Hlib0 & Hframe0 & _).
    eapply loop_post_begin; [exact Hlib0 | exact Hframe0 |].
    apply bind_ok_inv in H as (logs & fs1 & ev1 & ev2 & H1 & H & ->).
    apply lib_call_inv in H1 as (_ & -> & ->).
    apply bind_ok_inv in H as ([] & fs1 & ev1 & ev3 & H1 & H & ->).
    apply emit_inv in H1 as (_ & -> & ->).
    apply bind_ok_inv in H as ([cbs' stop] & fs2 & ev1 & ev4 & H1 & H & ->).
    destruct (epoch_callbacks _ _ _ _ _ _ _ _ _ _ Hcb Hq H1)
      as (c0' & rest' & fs1 & lib & -> & Hcb' & Hq' & Hlib & Hframe & Hcase).
    rewrite Hcb in Hcb'.
    assert (exists evs', ev4 = evs' /\
              loop_post (cb_best c0') (S e) fs2 fs' evs' /\
              exists new, hist' = ((hist ++ [logs]) ++ new)%list /\
                map (fun x => (x.1.2, x.2)) (epochs_of evs') = map summary new)
      as (evs' & -> & Hpost & new & -> & Hnew).
    { exists ev4. split; [done |]. destruct stop.
      - apply ret_inv in H as (H & -> & ->). injection H as -> ->.
        split; [apply loop_post_nil |]. exists []. by rewrite app_nil_r.
      - apply IH in H as (Hpost & _ & Hnew); done. }
    cbn [m_weights set_weights] in *.
    pose proof (loop_post_hooks _ _ _ _ _ _ _ Hlib Hframe Hpost) as Hpost'.
    split; [|split].
    + destruct Hcase as [(l & Hl & Himp & Hbest' & -> & ->)|(Hle & Hbest' & -> & ->)].
      * rewrite Hbest' in Hpost'. rewrite Hl. cbn [app].
        by apply (loop_post_improved _ _ (set_weights model (new_weights logs))).
      * rewrite Hbest' in Hpost'. cbn [app]. by apply loop_post_kept.
    + intros _. eexists _, _, _. by left.
    + exists (logs :: new). split; [by rewrite <- app_assoc |].
      destruct Hcase as [(l & _ & _ & _ & _ & ->)|(_ & _ & _ & ->)];
        cbn [app]; rewrite !epochs_of_cons, epochs_of_app,
          (hook_event_epochs _ _ Hlib); cbn [map fst snd app]; by rewrite Hnew.
Qed.

(** [fit] with the callbacks of [train]: the hooks at the begin of
    training, the loop, the hooks at its end. *)
Lemma fit_post model rest fs hist model' fs' evs :
  fr_callbacks req = ModelCheckpoint path true false "val_loss" v :: rest ->
  Forall (bystander C) rest ->
  fit env model req fs = (Ok (hist, model'), fs', evs) ->
  loop_post MInf 0 fs fs' evs /\
  (0 < fr_epochs req -> exists e w l, In (EvEpoch e w l) evs) /\
  map (fun x => (x.1.2, x.2)) (epochs_of evs) = map summary hist.
Proof.
  intros Hcbs Hrest H. unfold fit in H. rewrite Hcbs in H. cbn [map] in H.
  apply bind_ok_inv in H as ([] & fs1 & ev1 & ev2 & H1 & H & ->).
  apply bind_ok_inv in H as ([hist0 model0] & fs2 & ev3 & ev4 & H2 & H & ->).
  apply bind_ok_inv in H as ([] & fs3 & ev5 & ev6 & H3 & H & ->).
  apply ret_inv in H as (H & -> & ->). injection H as <- <-. rewrite app_nil_r.
  cbn [for_each on_train_begin on_train_end] in H1, H3.
  rewrite bind_run in H1, H3. cbn [mret M_ret] in H1, H3.
  destruct (for_each (on_train_begin env) rest fs) as [[r1 fs1'] ev1'] eqn:E1.
  destruct (for_each (on_train_end env) rest fs2) as [[r3 fs3'] ev3'] eqn:E3.
  injection H1 as -> -> ->. injection H3 as -> -> ->. cbn [app].
  destruct (train_begin_sat env C _ Hrest _ _ _ _ E1) as (Hlib1 & Hframe1 & _).
  destruct (train_end_sat env C _ Hrest _ _ _ _ E3) as (Hlib3 & Hframe3 & _).
  apply fit_loop_post in H2 as (Hpost & Hsome & new & -> & Hnew); [|done |].
  2:{ clear -Hrest. induction Hrest; cbn [map]; constructor; [|done].
      cbn. by destruct x. }
  cbn [cb_best start_callback] in Hpost.
  change (worst (checkpoint_grows "val_loss")) with MInf in Hpost.
  split; [|split].
  - apply loop_post_hooks with (fs1 := fs1); [done | done |].
    by apply loop_post_hooks_end with (fs1 := fs2).
  - intros Hpos. destruct Hsome as (e & w & l & Hin); [lia |].
    exists e, w, l. apply in_or_app. right. apply in_or_app. by left.
  - rewrite !epochs_of_app, (hook_event_epochs _ _ Hlib1), (hook_event_epochs _ _ Hlib3).
    by rewrite app_nil_r.
Qed.

End FitFacts.

(** ** The stages of [train] *)

Lemma sat_lib_call_eq {A} (o : outcome A) (P : event -> Prop) :
  sat (lib_call o) P (fun a => o = Ok a).
Proof. by apply sat_lib_call. Qed.

Lemma sat_emit_any ev (P : event -> Prop) :
  P ev -> (forall p, ev <> EvWrite p) -> sat (emit ev) P (fun _ => True).
Proof. intros. by apply sat_emit. Qed.

Lemma sat_log level msg (P : event -> Prop) :
  P (EvLog level msg) -> sat (emit (EvLog level msg)) P (fun _ => True).
Proof. intros. by apply sat_emit. Qed.

Lemma sat_write_any path f (P : event -> Prop) :
  P (EvWrite path) -> sat (write_file path f) P (fun _ => True).
Proof. intros. by apply sat_write. Qed.

Lemma sat_read path (P : event -> Prop) :
  sat (read_file path) P (fun _ => True).
Proof.
  intros fs r fs' evs [= <- <- <-]. split; [|split]; [constructor | done | done].
Qed.

(** One step of a computation whose first action is a log line, an event
    that is no write, or a library call. *)
Ltac sat_head :=
  first [ apply sat_lib_call_eq
        | apply sat_log; exact I
        | apply sat_emit_any; [exact I | intros ?; discriminate] ].

Ltac sat_first :=
  eapply sat_bind; [unfold info, logging_info, logging_error, logging_exception; sat_head |];
  cbn beta.

Ltac sat_next := sat_first; intros ? ?.
Ltac sat_skip := sat_first; intros _ _.
Tactic Notation "sat_bind_as" ident(x) ident(H) := sat_first; intros x H.

Ltac string_in := apply (bool_decide_unpack _); by vm_compute.

(** The keys the data stage adds to the parameter dictionary. *)
Definition added_keys : list string :=
  ["data_hash"; "nb_freq"; "nb_channels"; "nb_classes"; "first_sample_train";
   "last_sample_train"; "first_sample_val"; "last_sample_val"; "class_weights"].

Definition data_event (ev : event) : Prop :=
  match ev with
  | EvLog _ _ | EvLoad _ _ _ | EvSeed _ => True
  | _ => False
  end.

Section Stages.
Context (env : Env) (a : train_py.train_args).

Definition cfg_events : list event :=
  if train_py.log_messages a then [EvLogConfig "INFO"] else [].

(** The prefix and the dictionary lines 157-173 arrive at. *)
Definition cfg_prefix : string :=
  let save_prefix := match train_py.save_prefix a with None => "" | Some s => s end in
  if (0 <? String.length save_prefix)%nat then save_prefix +:+ "_" else save_prefix.

Definition cfg_params : gmap string pyval :=
  let params :=
    delete "_qt_progress" (train_py.locals a (train_py.windowing a) 1 cfg_prefix) in
  let params :=
    match params !! "learning_rate" with
    | Some VNone => delete "learning_rate" params
    | _ => params
    end in
  if is_substring "_multi" (train_py.model_name a)
  then <["unpack_channels" := VBool true]> params
  else params.

Lemma configure_run fs :
  train_py.configure a fs =
  (if train_py.stride (train_py.windowing a) <=? 0
   then Raise train_py.stride_error
   else Ok (cfg_params, cfg_prefix),
   fs, cfg_events).
Proof.
  unfold train_py.configure, cfg_events. rewrite bind_run.
  destruct (train_py.log_messages a); cbn [emit mret M_ret];
    destruct (train_py.stride (train_py.windowing a) <=? 0); reflexivity.
Qed.

Lemma sat_resolve_fraction d :
  sat (train_py.resolve_fraction a d) data_event (fun _ => True).
Proof.
  unfold train_py.resolve_fraction.
  destruct (train_py.fraction_data a) as [f|]; [|by apply sat_ret].
  destruct (Qltb 1 f).
  - do 4 sat_next. sat_skip. by apply sat_ret.
  - destruct (Qltb f 1); [|by apply sat_ret].
    sat_skip. by apply sat_ret.
Qed.

Lemma added_key_lookup (m : gmap string pyval) kvs k :
  k ∉ added_keys -> Forall (fun k' => k' ∈ added_keys) kvs.*1 ->
  (list_to_map kvs ∪ m) !! k = m !! k.
Proof.
  intros Hk Hsub. rewrite lookup_union.
  rewrite (not_elem_of_list_to_map_1 kvs k); [by destruct (m !! k) |].
  intros Hin. apply Hk. rewrite Forall_forall in Hsub. by apply Hsub.
Qed.

Lemma prepare_sat params :
  sat (train_py.prepare env a params) data_event
    (fun p =>
       io_load env (train_py.data_dir a) (train_py.x_suffix a) (train_py.y_suffix a)
       = Ok (train_py.p_d p) /\
       forall k, k ∉ added_keys ->
                 train_py.p_params p !! k = (d_attrs (train_py.p_d p) ∪ params) !! k).
Proof.
  unfold train_py.prepare.
  do 2 sat_skip. sat_bind_as d Hd.
  eapply sat_bind with
    (Q1 := fun params' => forall k, k ∉ added_keys ->
                                    params' !! k = (d_attrs d ∪ params) !! k).
  { destruct (train_py.version_data a); [|by apply sat_ret].
    sat_bind_as h Hh. do 3 sat_skip. apply sat_ret.
    intros k Hk. apply lookup_insert_ne. intros <-. apply Hk. string_in. }
  cbn beta. intros params1 Hp1.
  eapply sat_bind; [apply sat_resolve_fraction |]. cbn beta. intros fraction _.
  eapply sat_bind with (Q1 := fun _ => True).
  { destruct fraction as [f|]; [|by apply sat_ret].
    destruct (train_py.batch_level_subsampling a); [by apply sat_ret |].
    sat_next. sat_first. intros [ft lt] _. sat_next. sat_first.
    intros [fv lv] _. by apply sat_ret. }
  cbn beta. intros [[[fst_train lst_train] fst_val] lst_val] _.
  sat_bind_as nb_freq Hnb_freq. sat_bind_as nb_channels Hnb_channels.
  sat_bind_as nb_classes Hnb_classes. do 3 sat_skip.
  eapply sat_bind with (Q1 := fun _ => True).
  { destruct fraction as [f|]; [|by apply sat_ret].
    destruct (train_py.batch_level_subsampling a); [|by apply sat_ret].
    sat_skip. by apply sat_ret. }
  cbn beta. intros shuffle_subset _.
  sat_bind_as data_gen Hdata_gen. sat_bind_as val_gen Hval_gen. do 4 sat_skip.
  eapply sat_bind with
    (Q1 := fun params' => forall k, k ∉ added_keys ->
                                    params' !! k = (d_attrs d ∪ params) !! k).
  { assert (forall k, k ∉ added_keys ->
              <["class_weights" := VNone]>
                (list_to_map
                   [("nb_freq", VInt nb_freq); ("nb_channels", VInt nb_channels);
                    ("nb_classes", VInt nb_classes);
                    ("first_sample_train", VInt fst_train);
                    ("last_sample_train", lst_train);
                    ("first_sample_val", VInt fst_val);
                    ("last_sample_val", lst_val)] ∪ params1) !! k
              = (d_attrs d ∪ params) !! k) as Hbase.
    { intros k Hk. rewrite lookup_insert_ne by (intros <-; apply Hk; string_in).
      rewrite added_key_lookup; [by apply Hp1 | done |].
      repeat constructor; string_in. }
    destruct (train_py.balance a); [|by apply sat_ret].
    sat_bind_as cw Hcw. sat_skip. apply sat_ret. intros k Hk.
    rewrite lookup_insert_ne by (intros <-; apply Hk; string_in).
    rewrite <- (Hbase k Hk).
    by rewrite lookup_insert_ne by (intros <-; apply Hk; string_in). }
  cbn beta. intros params2 Hp2. apply sat_ret. by split.
Qed.

Lemma prepare_loads params fs r fs' evs :
  train_py.prepare env a params fs = (r, fs', evs) ->
  exists rest,
    evs = EvLog "INFO" (LFmt "Loading data from {}." [VStr (train_py.data_dir a)])
          :: EvLoad (train_py.data_dir a) (train_py.x_suffix a) (train_py.y_suffix a)
          :: rest.
Proof.
  unfold train_py.prepare. intros H.
  apply bind_inv in H as [(e & H & _)|(? & fs1 & ev1 & ev2 & H1 & H & ->)];
    [by apply emit_inv in H as (? & _) |].
  apply emit_inv in H1 as (_ & -> & ->).
  apply bind_inv in H as [(e & H & _)|(? & fs2 & ev1 & ev3 & H1 & H & ->)];
    [by apply emit_inv in H as (? & _) |].
  apply emit_inv in H1 as (_ & -> & ->). by eexists.
Qed.

(** The common stem of the output files: [save_dir/prefix_timestamp]. *)
Definition stem : string :=
  train_py.save_dir a +:+ "/" +:+ cfg_prefix +:+ strftime env.

Definition build_event (params : gmap string pyval) (ev : event) : Prop :=
  match ev with
  | EvLog _ _ | EvMakedirs _ => True
  | EvBuild n kw =>
      n = train_py.model_name a /\ kw = params /\
      exists f, models.model_dict (layers env) !! n = Some f /\ models.__name__ f = n
  | EvWrite p => p = stem +:+ params_suffix env
  | _ => False
  end.

(** The library callbacks the arguments ask for. *)
Definition configured (c : callback) : Prop :=
  match c with
  | ReduceLROnPlateau patience verbose =>
      train_py.reduce_lr a = true /\
      patience = train_py.reduce_lr_patience a /\ verbose = 1
  | QtProgressCallback nb_epoch comms =>
      train_py._qt_progress a = true /\ nb_epoch = train_py.nb_epoch a /\ comms = true
  | TensorBoard log_dir =>
      train_py.tensorboard a = true /\ log_dir = train_py.save_dir a
  | NeptuneCallback pos =>
      train_py.opt_truthy (train_py.neptune_api_token a)
        && train_py.opt_truthy (train_py.neptune_project a) = true /\
      HAS_NEPTUNE env = true /\
      exists params,
        Poseidon env (default "" (train_py.neptune_project a))
          (default "" (train_py.neptune_api_token a)) params = Ok pos
  | _ => False
  end.

(** The callbacks handed to [fit]: the checkpoint on the validation loss
    first, early stopping, then the library callbacks asked for. *)
Definition train_callbacks (cbs : list callback) : Prop :=
  exists rest,
    cbs = ModelCheckpoint (stem +:+ "_model.h5") true false "val_loss" 1
            :: EarlyStopping "val_loss" 20 :: rest /\
    Forall configured rest.

Lemma build_sat p :
  sat (train_py.build env a cfg_prefix p) (build_event (train_py.p_params p))
    (fun b =>
       train_py.b_save_name b = stem /\
       train_py.b_checkpoint_save_name b = stem +:+ "_model.h5" /\
       train_py.b_params b = delete "neptune_api_token" (train_py.p_params p) /\
       train_callbacks (train_py.b_callbacks b) /\
       (exists f, models.model_dict (layers env) !! train_py.model_name a = Some f /\
                  models.__call__ f [] (train_py.p_params p) = Ok (train_py.b_model b)) /\
       (HAS_NEPTUNE env = false -> train_py.b_poseidon b = None)).
Proof.
  unfold train_py.build. sat_skip.
  eapply sat_bind with
    (Q1 := fun f => models.model_dict (layers env) !! train_py.model_name a = Some f).
  { destruct (models.model_dict (layers env) !! train_py.model_name a) as [f|];
      [by apply sat_ret | apply sat_raise]. }
  cbn beta. intros f Hf.
  eapply sat_bind with (Q1 := fun _ => True).
  { apply sat_emit_any; [|intros ?; discriminate].
    destruct (model_dict_inv _ _ _ Hf) as [Hname _]. cbn. rewrite Hname.
    split; [done |]. split; [done |]. exists f. by rewrite Hname. }
  cbn beta. intros _ _.
  sat_bind_as model Hmodel. do 2 sat_skip. sat_next. sat_skip.
  eapply sat_bind with (Q1 := fun _ => True);
    [unfold train_py.save_params; by apply sat_write_any |].
  cbn beta. intros _ _.
  set (base := [ModelCheckpoint _ _ _ _ _; EarlyStopping _ _]).
  set (cbs1 := if train_py.reduce_lr a then _ else _).
  set (cbs2 := if train_py._qt_progress a then _ else _).
  set (cbs3 := if train_py.tensorboard a then _ else _).
  assert (train_callbacks cbs3) as (rest & Hcbs & Hrest).
  { subst cbs3 cbs2 cbs1 base.
    destruct (train_py.tensorboard a) eqn:Htb, (train_py._qt_progress a) eqn:Hqt,
      (train_py.reduce_lr a) eqn:Hlr;
      cbn [app]; (eexists; split; [reflexivity | by repeat constructor]). }
  assert (forall extra, configured extra -> train_callbacks (cbs3 ++ [extra])) as Hext.
  { intros extra Hextra. exists (rest ++ [extra])%list. rewrite Hcbs. split; [done |].
    apply Forall_app. split; [done | by repeat constructor]. }
  eapply sat_bind with
    (Q1 := fun pc => train_callbacks pc.2 /\ (HAS_NEPTUNE env = false -> pc.1 = None)).
  { destruct (_ && _) eqn:Hnep; [|apply sat_ret; split; [by exists rest | done]].
    destruct (HAS_NEPTUNE env) eqn:Hhas; cbn [negb].
    - destruct (Poseidon env _ _ _) as [pos|e] eqn:Hpos.
      + destruct (poseidon_callback env pos).
        * apply sat_ret. split; [|done]. apply Hext. cbn.
          split; [done |]. split; [done |]. by eexists.
        * sat_skip. apply sat_ret. split; [by exists rest | done].
      + sat_skip. apply sat_ret. split; [by exists rest | done].
    - sat_skip. apply sat_ret. split; [by exists rest | done]. }
  cbn beta. intros [pos cbs] [Hcbs' Hpos]. apply sat_ret. cbn.
  split; [done |]. split; [done |]. split; [done |]. split; [done |].
  split; [by exists f | done].
Qed.

End Stages.

(** ** What the loop emits, whatever its outcome *)

Section FitEvents.
Context (env : Env) (req : fit_request) (path : string) (C : callback -> Prop).

Local Abbreviation W := (written_by env C).

(** A callback of the loop: a checkpoint that saves to [path], early
    stopping or one of the library callbacks [C]. *)
Definition saves_to (c : callback) : Prop :=
  match c with
  | ModelCheckpoint p _ _ _ _ => p = path
  | EarlyStopping _ _ => True
  | other => C other
  end.

Lemma save_checkpoint_sat model e logs swo :
  sat (save_checkpoint model e logs path swo) (fit_event path W) (fun _ => True).
Proof.
  unfold save_checkpoint.
  eapply sat_bind; [apply sat_write_any; by left |]. cbn beta. intros _ _.
  by apply sat_emit_any.
Qed.

Lemma hook_sat {A} (h : hook A) c :
  C c -> hook_writes env c h.1 ->
  sat (run_hook h) (fit_event path W) (fun _ => True).
Proof.
  intros Hc Hh. eapply sat_weaken; [apply run_hook_sat | done | done].
  intros p f Hin. right. by exists c, h.1, f.
Qed.

Lemma on_epoch_end_sat model e logs c :
  saves_to (cb c) ->
  sat (on_epoch_end env model e logs c) (fit_event path W) (fun r => saves_to (cb r.1)).
Proof.
  assert (forall c' : callback, C c' ->
            sat (run_hook (callback_epoch_end env c' e logs)) (fit_event path W)
              (fun _ => True)) as Hhook.
  { intros c' Hc'. apply (hook_sat _ c'); [done |]. right. right. left.
    by eexists _, _. }
  unfold saves_to, on_epoch_end. intros Hc.
  destruct (cb c) eqn:Hcb.
  - subst filepath. destruct save_best_only.
    + destruct (get_monitor _ _); [|by apply sat_ret; cbn; rewrite ?Hcb].
      destruct (monitor_op _ _ _); [|by apply sat_ret; cbn; rewrite ?Hcb].
      eapply sat_bind; [apply save_checkpoint_sat |]. cbn beta. intros _ _.
      apply sat_ret. cbn. by rewrite ?Hcb.
    + eapply sat_bind; [apply save_checkpoint_sat |]. cbn beta. intros _ _.
      apply sat_ret. cbn. by rewrite ?Hcb.
  - destruct (get_monitor _ _); [|by apply sat_ret; cbn; rewrite ?Hcb].
    destruct (monitor_op _ _ _); apply sat_ret; cbn; by rewrite ?Hcb.
  - eapply sat_bind; [by apply Hhook |]. cbn beta. intros stop _.
    apply sat_ret. cbn. by rewrite ?Hcb.
  - eapply sat_bind; [by apply Hhook |]. cbn beta. intros stop _.
    apply sat_ret. cbn. by rewrite ?Hcb.
  - eapply sat_bind; [by apply Hhook |]. cbn beta. intros stop _.
    apply sat_ret. cbn. by rewrite ?Hcb.
  - eapply sat_bind; [by apply Hhook |]. cbn beta. intros stop _.
    apply sat_ret. cbn. by rewrite ?Hcb.
Qed.

Lemma callbacks_sat model e logs cbs :
  Forall (fun c => saves_to (cb c)) cbs ->
  sat (callbacks_epoch_end env model e logs cbs) (fit_event path W)
    (fun r => Forall (fun c => saves_to (cb c)) r.1).
Proof.
  induction 1 as [|c rest Hc Hrest IH]; cbn [callbacks_epoch_end].
  - apply sat_ret. constructor.
  - eapply sat_bind; [by apply on_epoch_end_sat |]. cbn beta. intros [c' stop] Hc'.
    eapply sat_bind; [exact IH |]. cbn beta. intros [rest' stop'] Hrest'.
    apply sat_ret. by constructor.
Qed.

Lemma epoch_begin_hooks_sat e cbs :
  Forall saves_to cbs ->
  sat (for_each (on_epoch_begin env e) cbs) (fit_event path W) (fun _ => True).
Proof.
  induction 1 as [|c rest Hc Hrest IH]; cbn [for_each]; [by apply sat_ret |].
  eapply sat_bind with (Q1 := fun _ => True); [|by intros _ _].
  destruct c; cbn in Hc;
    first [by apply sat_ret | apply (hook_sat _ _ Hc); right; left; by eexists].
Qed.

Lemma fit_loop_sat n :
  forall e model cbs hist,
    Forall (fun c => saves_to (cb c)) cbs ->
    sat (fit_loop env req n e model cbs hist) (fit_event path W) (fun _ => True).
Proof.
  induction n as [|n IH]; intros e model cbs hist Hcbs; cbn [fit_loop].
  - by apply sat_ret.
  - eapply sat_bind;
      [apply epoch_begin_hooks_sat; by apply (proj2 (Forall_map _ _ _)) |].
    cbn beta. intros _ _. sat_next. sat_skip.
    eapply sat_bind; [by apply callbacks_sat |]. cbn beta. intros [cbs' stop] Hcbs'.
    destruct stop; [by apply sat_ret | by apply IH].
Qed.

Lemma train_hooks_sat cbs :
  Forall saves_to cbs ->
  sat (for_each (on_train_begin env) cbs) (fit_event path W) (fun _ => True) /\
  sat (for_each (on_train_end env) cbs) (fit_event path W) (fun _ => True).
Proof.
  induction 1 as [|c rest Hc Hrest [IH1 IH2]]; cbn [for_each];
    [split; by apply sat_ret |].
  split.
  - eapply sat_bind with (Q1 := fun _ => True); [|by intros _ _].
    destruct c; cbn in Hc; first [by apply sat_ret | apply (hook_sat _ _ Hc); by left].
  - eapply sat_bind with (Q1 := fun _ => True); [|by intros _ _].
    destruct c; cbn in Hc;
      first [by apply sat_ret | apply (hook_sat _ _ Hc); by right; right; right].
Qed.

Lemma fit_sat model :
  Forall saves_to (fr_callbacks req) ->
  sat (fit env model req) (fit_event path W) (fun _ => True).
Proof.
  intros Hcbs. unfold fit. destruct (train_hooks_sat _ Hcbs) as [Hbegin Hend].
  eapply sat_bind; [exact Hbegin |]. cbn beta. intros _ _.
  eapply sat_bind.
  { apply fit_loop_sat. clear -Hcbs.
    induction Hcbs; cbn [map]; constructor; [|done]. cbn. done. }
  cbn beta. intros r _.
  eapply sat_bind; [exact Hend |]. cbn beta. intros _ _. by apply sat_ret.
Qed.

End FitEvents.

(** ** Whole runs *)

Section Run.
Context (env : Env) (a : train_py.train_args).

Definition params_name : string := stem env a +:+ params_suffix env.
Definition checkpoint_name : string := stem env a +:+ "_model.h5".
Definition results_name : string := stem env a +:+ "_results.h5".

(** A path that a hook of one of the library callbacks of the run writes
    (TensorBoard, when asked for, writes below [save_dir]). *)
Definition callback_path (p : string) : Prop := written_by env (configured env a) p.

(** What a run of [train] may emit: it builds the network once, by the
    function registered under [model_name] and with the dictionary of the
    data stage; it writes to three paths, and its library callbacks to
    theirs. *)
Definition train_event (ev : event) : Prop :=
  match ev with
  | EvBuild n kw =>
      n = train_py.model_name a /\
      (exists f, models.model_dict (layers env) !! n = Some f /\ models.__name__ f = n) /\
      exists d,
        io_load env (train_py.data_dir a) (train_py.x_suffix a) (train_py.y_suffix a)
        = Ok d /\
        forall k, k ∉ added_keys -> kw !! k = (d_attrs d ∪ cfg_params a) !! k
  | EvWrite p =>
      p = params_name \/ p = checkpoint_name \/ p = results_name \/ callback_path p
  | EvCheckpoint p _ _ _ => p = checkpoint_name
  | _ => True
  end.

Definition network_event (ev : event) : Prop :=
  match ev with
  | EvLog _ _ | EvEpoch _ _ _ => True
  | EvWrite p => p = checkpoint_name \/ callback_path p
  | EvCheckpoint p _ _ _ => p = checkpoint_name
  | _ => False
  end.

Definition test_event (ev : event) : Prop :=
  match ev with
  | EvLog _ _ | EvLoadWeights _ | EvEvaluate _ => True
  | EvWrite p => p = results_name
  | _ => False
  end.

Lemma configured_bystander c : configured env a c -> bystander (configured env a) c.
Proof. by destruct c. Qed.

Lemma callbacks_save cbs :
  train_callbacks env a cbs ->
  Forall (saves_to checkpoint_name (configured env a)) cbs.
Proof.
  intros (rest & -> & Hrest). do 2 (constructor; [done |]).
  eapply Forall_impl; [done |]. intros c Hc. by destruct c.
Qed.

Lemma network_sat p b :
  train_callbacks env a (train_py.b_callbacks b) ->
  sat (train_py.train_network env a p b) network_event (fun _ => True).
Proof.
  intros Hcbs. unfold train_py.train_network. sat_skip. sat_next.
  eapply sat_weaken;
    [apply (fit_sat env _ checkpoint_name (configured env a)) | | done].
  - by apply callbacks_save.
  - by intros [].
Qed.

Lemma load_weights_sat model path :
  sat (load_weights model path) test_event (fun _ => True).
Proof.
  unfold load_weights. sat_skip.
  eapply sat_bind; [apply sat_read |]. cbn beta. intros f _.
  destruct f as [[]|]; first [by apply sat_ret | apply sat_raise].
Qed.

Lemma test_sat p b hist model :
  train_py.b_save_name b = stem env a ->
  sat (train_py.test env a p b hist model) test_event (fun _ => True).
Proof.
  intros Hname. unfold train_py.test. sat_next.
  destruct (_ <? _).
  - sat_skip. by apply sat_ret.
  - sat_skip.
    eapply sat_bind; [apply load_weights_sat |]. cbn beta. intros model' _.
    do 2 sat_skip. sat_first. intros [[x_test y_test] y_pred] _.
    do 2 sat_next. sat_skip. sat_next. sat_first. intros [conf_mat report] _.
    do 2 sat_skip.
    eapply sat_bind with (Q1 := fun _ => True).
    { destruct (_ && _); [|by apply sat_ret].
      destruct (train_py.b_poseidon b); [apply sat_lib_call; done | apply sat_raise]. }
    cbn beta. intros _ _. sat_skip.
    eapply sat_bind; [apply sat_write_any; cbn; by rewrite Hname |].
    cbn beta. intros _ _. sat_skip. by apply sat_ret.
Qed.

Lemma configure_sat :
  sat (train_py.configure a) train_event
    (fun r => r = (cfg_params a, cfg_prefix a) /\
              0 < train_py.stride (train_py.windowing a)).
Proof.
  intros fs r fs' evs H. rewrite configure_run in H. injection H as <- <- <-.
  split; [|split]; [| done |].
  - unfold cfg_events. destruct (train_py.log_messages a); by repeat constructor.
  - intros r. destruct (_ <=? _) eqn:Hs; [done |].
    apply Z.leb_gt in Hs. by intros [= <-].
Qed.

(** Every event of every run, whether it ends well or not. *)
Lemma train_sat : sat (train_py.train env a) train_event (fun _ => True).
Proof.
  unfold train_py.train.
  eapply sat_bind; [apply configure_sat |]. cbn beta. intros ? [-> _].
  eapply sat_bind.
  { eapply sat_weaken; [apply prepare_sat | | intros p Hp; exact Hp]. by intros []. }
  cbn beta. intros p [Hd Hparams].
  eapply sat_bind.
  { eapply sat_weaken; [apply build_sat | | intros b Hb; exact Hb].
    intros [] Hev; try done.
    - destruct Hev as (-> & -> & Hf). split; [done |]. split; [done |]. by eexists.
    - cbn in Hev. left. by rewrite Hev. }
  cbn beta. intros b (Hname & _ & _ & Hcbs & _).
  eapply sat_bind.
  { eapply sat_weaken; [by apply network_sat | | done].
    intros [] Hev; try done. cbn in Hev. destruct Hev as [->|Hev]; cbn; tauto. }
  cbn beta. intros [fit_hist model] _.
  eapply sat_weaken; [by apply test_sat | | done].
  intros [] Hev; try done. cbn in Hev. right. right. left. by rewrite Hev.
Qed.

End Run.

(** ** Runs that return *)

Lemma write_inv path f fs r fs' evs :
  write_file path f fs = (r, fs', evs) ->
  r = Ok tt /\ fs' = <[path := f]> fs /\ evs = [EvWrite path].
Proof. by intros [= <- <- <-]. Qed.

(** Steps through [x ← m; k] in a run that returned, for [m] a log line, an
    event, a library call or a write. *)
Ltac ok_bind H x Hx :=
  let fs1 := fresh "fs" in
  let ev1 := fresh "ev" in
  let ev2 := fresh "ev" in
  apply bind_ok_inv in H as (x & fs1 & ev1 & ev2 & Hx & H & ->);
  unfold info, logging_info, logging_error, logging_exception in Hx;
  first [ apply emit_inv in Hx as (_ & -> & ->)
        | apply lib_call_inv in Hx as (Hx & -> & ->)
        | apply write_inv in Hx as (_ & -> & ->) ].

Ltac ok_skip H :=
  let x := fresh "u" in
  let Hx := fresh "Hu" in
  ok_bind H x Hx; try clear x.

(** What a saved file hands to [load_weights]. *)
Definition holds_weights (f : option file) (w : Z) : Prop :=
  match f with
  | Some (ModelFile saved) => w = m_weights saved
  | Some (WeightsFile w') => w = w'
  | _ => False
  end.

Section RunOk.
Context (env : Env) (a : train_py.train_args).

Lemma load_weights_ok model path fs model' fs' evs :
  load_weights model path fs = (Ok model', fs', evs) ->
  exists w, holds_weights (fs !! path) w /\ model' = set_weights model w /\
            fs' = fs /\ evs = [EvLoadWeights path].
Proof.
  unfold load_weights. intros H. ok_skip H.
  apply bind_ok_inv in H as (f & fsR & evR & evR' & Hf & H & ->).
  injection Hf as <- <- <-.
  destruct (fs !! path) as [[params|saved|w|r|c]|] eqn:E; try discriminate.
  - apply ret_inv in H as (H & -> & ->). injection H as ->.
    by exists (m_weights saved).
  - apply ret_inv in H as (H & -> & ->). injection H as ->.
    by exists w.
Qed.

Definition evaluation_events (b : train_py.built) (w : Z) : list event :=
  [EvLog "INFO" (LFmt "re-loading last best model" []);
   EvLoadWeights (train_py.b_checkpoint_save_name b);
   EvLog "INFO" (LFmt "predicting" []);
   EvEvaluate w;
   EvLog "INFO" (LFmt "evaluating" []);
   EvLog "INFO" (LObj "conf_mat");
   EvLog "INFO" (LObj "report");
   EvLog "INFO" (LFmt "saving to {}." [VStr (train_py.b_save_name b +:+ "_results.h5")]);
   EvWrite (train_py.b_save_name b +:+ "_results.h5");
   EvLog "INFO" (LFmt "DONE." [])].

(** The last stage of a run that returned: either the test split is
    shorter than a chunk and nothing more happens, or the checkpoint is
    loaded, evaluated, and the results are written. *)
Lemma test_ok p b hist model fs res fs' evs :
  train_py.test env a p b hist model fs = (Ok res, fs', evs) ->
  exists n,
    array_len (sx (d_test (train_py.p_d p))) = Ok n /\
    ((n < train_py.nb_hist a /\ res = None /\ fs' = fs /\
      evs = [EvLog "INFO" (LFmt "No test data - skipping final evaluation step." [])])
     \/
     (train_py.nb_hist a <= n /\
      exists w r labels_test labels_pred class_names,
        holds_weights (fs !! train_py.b_checkpoint_save_name b) w /\
        res = Some (set_weights model w, train_py.b_params b) /\
        fs' = <[train_py.b_save_name b +:+ "_results.h5" := ResultsFile r]> fs /\
        r_fit_hist r = hist /\ r_params r = train_py.b_params b /\
        evaluate_segments env labels_test labels_pred class_names
        = Ok (r_confusion_matrix r, r_classification_report r) /\
        (train_py.opt_truthy (train_py.neptune_api_token a)
         && train_py.opt_truthy (train_py.neptune_project a) = true ->
         train_py.b_poseidon b <> None) /\
        evs = evaluation_events b w)).
Proof.
  unfold train_py.test. intros H. ok_bind H n Hn. exists n. split; [done |].
  destruct (n <? train_py.nb_hist a) eqn:Hlt.
  - apply Z.ltb_lt in Hlt. left. ok_skip H.
    apply ret_inv in H as (H & -> & ->). by injection H as ->.
  - apply Z.ltb_ge in Hlt. right. split; [done |]. ok_skip H.
    apply bind_ok_inv in H as (model1 & fsL & evL & evL' & Hload & H & ->).
    apply load_weights_ok in Hload as (w & Hw & -> & -> & ->).
    ok_skip H. ok_skip H. ok_bind H probs Hprobs.
    destruct probs as [[x_test y_test] y_pred].
    ok_bind H labels_test Hlt'. ok_bind H labels_pred Hlp. ok_skip H.
    ok_bind H class_names Hcn. ok_bind H seg Hseg. destruct seg as [conf_mat report].
    ok_skip H. ok_skip H.
    apply bind_ok_inv in H as ([] & fsN & evN & evN' & Hnep & H & ->).
    assert (fsN = fs /\ evN = [] /\
            (train_py.opt_truthy (train_py.neptune_api_token a)
             && train_py.opt_truthy (train_py.neptune_project a) = true ->
             train_py.b_poseidon b <> None)) as (-> & -> & Hpos).
    { destruct (_ && _).
      - destruct (train_py.b_poseidon b); [|discriminate].
        apply lib_call_inv in Hnep as (_ & -> & ->). done.
      - apply ret_inv in Hnep as (_ & -> & ->). done. }
    ok_skip H. ok_skip H. ok_skip H.
    apply ret_inv in H as (H & -> & ->). injection H as ->.
    eexists w, _, labels_test, labels_pred, class_names.
    split; [done |]. split; [done |]. split; [reflexivity |].
    cbn [r_fit_hist r_params r_confusion_matrix r_classification_report].
    split; [done |]. split; [done |]. split; [done |]. split; [done |]. reflexivity.
Qed.

(** The entries of the results file of a run that returned a model. *)
Lemma test_bundle p b hist model fs m params fs' evs :
  train_py.test env a p b hist model fs = (Ok (Some (m, params)), fs', evs) ->
  exists r class_names,
    fs' = <[train_py.b_save_name b +:+ "_results.h5" := ResultsFile r]> fs /\
    params = train_py.b_params b /\
    r_fit_hist r = hist /\ r_params r = params /\
    evaluate_probabilities env (sx (d_test (train_py.p_d p)))
      (sy (d_test (train_py.p_d p))) m params
    = Ok (r_x_test r, r_y_test r, r_y_pred r) /\
    labels_from_probabilities env (r_y_test r) = Ok (r_labels_test r) /\
    labels_from_probabilities env (r_y_pred r) = Ok (r_labels_pred r) /\
    train_py.getitem "params" params "class_names" = Ok class_names /\
    evaluate_segments env (r_labels_test r) (r_labels_pred r) class_names
    = Ok (r_confusion_matrix r, r_classification_report r).
Proof.
  unfold train_py.test. intros H. ok_bind H n Hn.
  destruct (n <? train_py.nb_hist a).
  { ok_skip H. by apply ret_inv in H as (H & _). }
  ok_skip H.
  apply bind_ok_inv in H as (model1 & fsL & evL & evL' & Hload & H & ->).
  apply load_weights_ok in Hload as (w & Hw & -> & -> & ->).
  ok_skip H. ok_skip H. ok_bind H probs Hprobs.
  destruct probs as [[x_test y_test] y_pred].
  ok_bind H labels_test Hlt'. ok_bind H labels_pred Hlp. ok_skip H.
  ok_bind H class_names Hcn. ok_bind H seg Hseg. destruct seg as [conf_mat report].
  ok_skip H. ok_skip H.
  apply bind_ok_inv in H as ([] & fsN & evN & evN' & Hnep & H & ->).
  assert (fsN = fs) as ->.
  { destruct (_ && _).
    - destruct (train_py.b_poseidon b); [|discriminate].
      by apply lib_call_inv in Hnep as (_ & -> & _).
    - by apply ret_inv in Hnep as (_ & -> & _). }
  ok_skip H. ok_skip H. ok_skip H.
  apply ret_inv in H as (H & -> & ->). injection H as -> ->.
  eexists _, class_names. split; [reflexivity |]. cbn.
  by repeat split.
Qed.

(** The stages of a run that returned. *)
Lemma train_ok fs res fs' evs :
  train_py.train env a fs = (Ok res, fs', evs) ->
  exists p b hist model fs1 fs2 fs3 ev1 ev2 ev3 ev4,
    0 < train_py.stride (train_py.windowing a) /\
    train_py.prepare env a (cfg_params a) fs = (Ok p, fs1, ev1) /\
    train_py.build env a (cfg_prefix a) p fs1 = (Ok b, fs2, ev2) /\
    train_py.train_network env a p b fs2 = (Ok (hist, model), fs3, ev3) /\
    train_py.test env a p b hist model fs3 = (Ok res, fs', ev4) /\
    evs = (cfg_events a ++ ev1 ++ ev2 ++ ev3 ++ ev4)%list.
Proof.
  unfold train_py.train. intros H.
  apply bind_ok_inv in H as ([params prefix] & fs0 & ev0 & evA & Hc & H & ->).
  rewrite configure_run in Hc.
  destruct (_ <=? _) eqn:Hs; [discriminate |]. apply Z.leb_gt in Hs.
  injection Hc as <- <- <- <-.
  apply bind_ok_inv in H as (p & fs1 & ev1 & evB & Hp & H & ->).
  apply bind_ok_inv in H as (b & fs2 & ev2 & evC & Hb & H & ->).
  apply bind_ok_inv in H as ([hist model] & fs3 & ev3 & ev4 & Hn & H & ->).
  by exists p, b, hist, model, fs1, fs2, fs3, ev1, ev2, ev3, ev4.
Qed.

End RunOk.

(** * The claims on [train] *)

Section Stride.
Context (env : Env).

Lemma np_ceil_int z : np_ceil (inject_Z z) = z.
Proof. apply Qceiling_Z. Qed.

Lemma train_rejected a fs :
  train_py.stride (train_py.windowing a) <= 0 ->
  train_py.train env a fs = (Raise train_py.stride_error, fs, cfg_events a).
Proof.
  intros Hs. unfold train_py.train. rewrite bind_run, configure_run.
  apply Z.leb_le in Hs. by rewrite Hs.
Qed.

Lemma train_loads a fs r fs' evs :
  0 < train_py.stride (train_py.windowing a) ->
  train_py.train env a fs = (r, fs', evs) ->
  exists rest,
    evs = (cfg_events a
           ++ EvLog "INFO" (LFmt "Loading data from {}." [VStr (train_py.data_dir a)])
           :: EvLoad (train_py.data_dir a) (train_py.x_suffix a) (train_py.y_suffix a)
           :: rest)%list.
Proof.
  intros Hs H. unfold train_py.train in H.
  apply bind_inv in H as [(e & H & _)|([params prefix] & fs0 & ev0 & ev & Hc & H & ->)];
    rewrite configure_run in *; apply Z.leb_gt in Hs; rewrite Hs in *; [discriminate |].
  injection Hc as <- <- <- <-.
  apply bind_inv in H as [(e & H & _)|(p & fs1 & ev1 & ev2 & Hp & _ & ->)].
  - apply prepare_loads in H as (rest & ->). by eexists.
  - apply prepare_loads in Hp as (rest & ->). by eexists.
Qed.

(** C1.  With [with_y_hist] and [ignore_boundaries] the stride is
    [nb_hist - 2*ceil(kernel_size*nb_conv)] (the ceiling of the integer
    product being the product), and the stride is at most zero exactly when
    the run is the rejected one: it raises the ValueError that names the
    remedies, leaves the files as they were, and has emitted nothing but
    the logging configuration, so no data was loaded and nothing
    written. *)
Theorem stride_check a fs :
  train_py.with_y_hist a = true ->
  train_py.ignore_boundaries a = true ->
  train_py.stride (train_py.windowing a)
  = train_py.nb_hist a
    - 2 * np_ceil (inject_Z (train_py.kernel_size a * train_py.nb_conv a)) /\
  np_ceil (inject_Z (train_py.kernel_size a * train_py.nb_conv a))
  = train_py.kernel_size a * train_py.nb_conv a /\
  (train_py.stride (train_py.windowing a) <= 0 <->
   train_py.train env a fs = (Raise train_py.stride_error, fs, cfg_events a)) /\
  Forall (fun ev => ev = EvLogConfig "INFO") (cfg_events a).
Proof.
  intros Hy Hb. split; [|split; [|split]].
  - unfold train_py.windowing. by rewrite Hy, Hb.
  - apply np_ceil_int.
  - split; [apply train_rejected |].
    intros H. destruct (Z_le_gt_dec (train_py.stride (train_py.windowing a)) 0) as [|Hs];
      [done |].
    apply train_loads in H as (rest & H); [|lia].
    rewrite <- (app_nil_r (cfg_events a)) in H at 1.
    by apply app_inv_head in H.
  - unfold cfg_events. destruct (train_py.log_messages a); by repeat constructor.
Qed.

(** C8.  Without [with_y_hist] the stride is 1 whatever the other
    parameters are, the stride check passes, and every run goes on to load
    the data. *)
Theorem classification_stride_is_one a fs :
  train_py.with_y_hist a = false ->
  train_py.stride (train_py.windowing a) = 1 /\
  train_py.configure a fs = (Ok (cfg_params a, cfg_prefix a), fs, cfg_events a) /\
  train_py.train env a fs <> (Raise train_py.stride_error, fs, cfg_events a) /\
  forall r fs' evs,
    train_py.train env a fs = (r, fs', evs) ->
    In (EvLoad (train_py.data_dir a) (train_py.x_suffix a) (train_py.y_suffix a)) evs.
Proof.
  intros Hy.
  assert (train_py.stride (train_py.windowing a) = 1) as Hs
      by (unfold train_py.windowing; by rewrite Hy).
  split; [done |]. split; [by rewrite configure_run, Hs |].
  assert (forall r fs' evs,
             train_py.train env a fs = (r, fs', evs) ->
             In (EvLoad (train_py.data_dir a) (train_py.x_suffix a) (train_py.y_suffix a))
                evs) as Hload.
  { intros r fs' evs H. apply train_loads in H as (rest & ->); [|lia].
    apply in_or_app. right. right. by left. }
  split; [|exact Hload].
  intros H. apply Hload in H. unfold cfg_events in H.
  destruct (train_py.log_messages a); by in_cases H.
Qed.

End Stride.

(** Chunks of 64 samples are too short for three blocks of kernel 16. *)
Lemma stride_check_witness :
  train_py.stride (train_py.windowing (custom_args "tcn" 64 true None None None)) = 64 - 2 * 48 /\
  train_py.train (demo_env false 4096 ∅) (custom_args "tcn" 64 true None None None) ∅
  = (Raise train_py.stride_error, ∅, []).
Proof.
  destruct (stride_check (demo_env false 4096 ∅) (custom_args "tcn" 64 true None None None) ∅
              eq_refl eq_refl) as (Hs & Hc & Hiff & _).
  split.
  - rewrite Hs, Hc. reflexivity.
  - apply Hiff. rewrite Hs, Hc. vm_compute. discriminate.
Defined.

Lemma classification_stride_is_one_witness :
  train_py.stride (train_py.windowing (custom_args "tcn" 64 false None None None)) = 1 /\
  train_py.train (demo_env false 4096 ∅) (custom_args "tcn" 64 false None None None) ∅
  <> (Raise train_py.stride_error, ∅, []).
Proof.
  destruct (classification_stride_is_one (demo_env false 4096 ∅)
              (custom_args "tcn" 64 false None None None) ∅ eq_refl) as (Hs & _ & Hne & _).
  split; [exact Hs | exact Hne].
Defined.

Lemma set_weights_idem m w w' : set_weights (set_weights m w) w' = set_weights m w'.
Proof. reflexivity. Qed.

Lemma set_weights_self m : set_weights m (m_weights m) = m.
Proof. by destruct m. Qed.

Lemma drop_ignored_param names b k :
  k ∈ names -> models.drop_ignored names b !! k = b !! k.
Proof.
  intros Hk. unfold models.drop_ignored.
  destruct (b !! k) as [v|] eqn:E.
  - apply map_lookup_filter_Some. split; [done |]. cbn. by apply bool_decide_pack.
  - apply map_lookup_filter_None. left. done.
Qed.

Lemma bind_signature_keywords names kwargs b :
  models.bind_signature names [] kwargs = Ok b -> b = kwargs.
Proof.
  unfold models.bind_signature.
  assert (zip names ([] : list pyval) = []) as -> by (by destruct names).
  cbn [length Nat.ltb Nat.leb map existsb]. rewrite list_to_map_nil.
  intros [= <-]. apply (left_id_L ∅ (∪)).
Qed.

Lemma typed_args_learning_rate b args :
  models.typed_args b = Ok args ->
  match b !! "learning_rate" with
  | None => models.learning_rate args = (5 # 10000)%Q
  | Some (VFloat q) => models.learning_rate args = q
  | Some (VInt z) => models.learning_rate args = inject_Z z
  | Some _ => False
  end.
Proof.
  unfold models.typed_args. intros H.
  do 20 inv_ok H. injection H as <-. cbn [models.learning_rate].
  unfold models.arg in Hv16.
  destruct (b !! "learning_rate") as [[]|]; cbn in Hv16; by try injection Hv16 as <-.
Qed.

Lemma tcn_stft_body_lr lib args m :
  models.tcn_stft_body lib args = Ok m -> opt_lr (m_optimizer m) = models.learning_rate args.
Proof.
  unfold models.tcn_stft_body. intros H. do 6 inv_ok H. by injection H as <-.
Qed.

Lemma tcn_tcn_body_lr lib args m :
  models.tcn_tcn_body lib args = Ok m -> opt_lr (m_optimizer m) = models.learning_rate args.
Proof.
  unfold models.tcn_tcn_body. intros H. do 5 inv_ok H. by injection H as <-.
Qed.

(** The learning rate of a model built from keywords: the one given, or the
    default of the signature, 0.0005. *)
Lemma builder_learning_rate lib name f kw m :
  models.model_dict lib !! name = Some f ->
  models.__call__ f [] kw = Ok m ->
  match kw !! "learning_rate" with
  | None => opt_lr (m_optimizer m) = (5 # 10000)%Q
  | Some (VFloat q) => opt_lr (m_optimizer m) = q
  | Some (VInt z) => opt_lr (m_optimizer m) = inject_Z z
  | Some _ => False
  end.
Proof.
  intros Hf Hcall.
  assert (forall args b, b !! "learning_rate" = kw !! "learning_rate" ->
                         models.typed_args b = Ok args ->
                         opt_lr (m_optimizer m) = models.learning_rate args ->
                         match kw !! "learning_rate" with
                         | None => opt_lr (m_optimizer m) = (5 # 10000)%Q
                         | Some (VFloat q) => opt_lr (m_optimizer m) = q
                         | Some (VInt z) => opt_lr (m_optimizer m) = inject_Z z
                         | Some _ => False
                         end) as Hgen.
  { intros args b Hb Ht Hlr. apply typed_args_learning_rate in Ht.
    rewrite Hb in Ht. rewrite Hlr. exact Ht. }
  destruct (model_dict_inv _ _ _ Hf) as [_ [-> | [-> | ->]]]; cbn [models.__call__] in Hcall.
  - unfold models.tcn, models.tcn_stft in Hcall. inv_ok Hcall. inv_ok Hcall.
    apply bind_signature_keywords in Hv as ->.
    eapply Hgen; [done | done | by eapply tcn_stft_body_lr].
  - unfold models.tcn_stft in Hcall. inv_ok Hcall. inv_ok Hcall.
    apply bind_signature_keywords in Hv as ->.
    eapply Hgen; [done | done | by eapply tcn_stft_body_lr].
  - unfold models.tcn_tcn in Hcall. inv_ok Hcall. inv_ok Hcall.
    apply bind_signature_keywords in Hv as ->.
    eapply Hgen; [| done | by eapply tcn_tcn_body_lr].
    apply drop_ignored_param. string_in.
Qed.

Lemma cfg_params_learning_rate a :
  cfg_params a !! "learning_rate" = VFloat <$> train_py.learning_rate a.
Proof.
  unfold cfg_params.
  assert (delete "_qt_progress" (train_py.locals a (train_py.windowing a) 1 (cfg_prefix a))
            !! "learning_rate"
          = Some (of_opt VFloat (train_py.learning_rate a))) as Hlr.
  { rewrite lookup_delete_ne by done. reflexivity. }
  rewrite Hlr.
  destruct (train_py.learning_rate a) as [q|]; cbn [of_opt fmap option_fmap option_map].
  - destruct (is_substring _ _); [by rewrite lookup_insert_ne |]; done.
  - destruct (is_substring _ _); [rewrite lookup_insert_ne by done |];
      by rewrite lookup_delete_eq.
Qed.

(** The keyword arguments of the first call of a builder in a run. *)
Definition build_kwargs (evs : list event) : option (gmap string pyval) :=
  match List.find (fun ev => match ev with EvBuild _ _ => true | _ => false end) evs with
  | Some (EvBuild _ kw) => Some kw
  | _ => None
  end.

Section Selection.
Context (env : Env).

Lemma build_unknown a prefix p fs :
  models.model_dict (layers env) !! train_py.model_name a = None ->
  train_py.build env a prefix p fs
  = (Raise (KeyError (train_py.model_name a)), fs,
     [EvLog "INFO" (LFmt "building network" [])]).
Proof.
  intros Hnone. unfold train_py.build. rewrite bind_run. cbn [info logging_info emit].
  rewrite bind_run, Hnone. reflexivity.
Qed.

Lemma build_ok_events a prefix p fs b fs' evs :
  train_py.build env a prefix p fs = (Ok b, fs', evs) ->
  exists f rest,
    models.model_dict (layers env) !! train_py.model_name a = Some f /\
    evs = EvLog "INFO" (LFmt "building network" [])
          :: EvBuild (models.__name__ f) (train_py.p_params p) :: rest.
Proof.
  unfold train_py.build. intros H. ok_skip H.
  apply bind_ok_inv in H as (f & fsA & evA & evB & Hf & H & ->).
  destruct (models.model_dict (layers env) !! train_py.model_name a) as [f'|];
    [|discriminate].
  apply ret_inv in Hf as (Hf & -> & ->). injection Hf as ->.
  ok_skip H. by eexists f', _.
Qed.

Lemma fit_loop_model req n :
  forall e model cbs hist fs hist' model' fs' evs,
    fit_loop env req n e model cbs hist fs = (Ok (hist', model'), fs', evs) ->
    model' = set_weights model (m_weights model').
Proof.
  induction n as [|n IH]; intros e model cbs hist fs hist' model' fs' evs H.
  - apply ret_inv in H as (H & _). injection H as _ <-. by rewrite set_weights_self.
  - cbn [fit_loop] in H.
    apply bind_ok_inv in H as ([] & fs0 & ev0 & ev0' & _ & H & ->).
    ok_skip H. ok_skip H.
    apply bind_ok_inv in H as ([cbs' stop] & fsA & evA & evB & _ & H & ->).
    destruct stop.
    + apply ret_inv in H as (H & _). by injection H as _ ->.
    + apply IH in H. rewrite H. reflexivity.
Qed.

Lemma fit_model req model fs hist' model' fs' evs :
  fit env model req fs = (Ok (hist', model'), fs', evs) ->
  model' = set_weights model (m_weights model').
Proof.
  unfold fit. intros H.
  apply bind_ok_inv in H as ([] & fs1 & ev1 & ev2 & _ & H & ->).
  apply bind_ok_inv in H as ([hist0 model0] & fs2 & ev3 & ev4 & H2 & H & ->).
  apply bind_ok_inv in H as ([] & fs3 & ev5 & ev6 & _ & H & ->).
  apply ret_inv in H as (H & _). injection H as _ <-.
  by apply fit_loop_model in H2.
Qed.


(** Where the attributes of the loaded dataset have no 'learning_rate'
    of their own, the dictionary a run passes to the builder has no
    'learning_rate' key when [learning_rate] is None, and the given value
    under that key otherwise; accordingly the optimiser of the model built
    has the default 0.0005 of the signature, or the given rate. *)
Theorem learning_rate_passed a fs r fs' evs d name kw :
  io_load env (train_py.data_dir a) (train_py.x_suffix a) (train_py.y_suffix a) = Ok d ->
  d_attrs d !! "learning_rate" = None ->
  train_py.train env a fs = (r, fs', evs) ->
  In (EvBuild name kw) evs ->
  kw !! "learning_rate" = VFloat <$> train_py.learning_rate a /\
  forall f m,
    models.model_dict (layers env) !! name = Some f ->
    models.__call__ f [] kw = Ok m ->
    opt_lr (m_optimizer m) = default (5 # 10000)%Q (train_py.learning_rate a).
Proof.
  intros Hd Hattr H Hin.
  destruct (train_sat env a _ _ _ _ H) as (Hev & _).
  rewrite Forall_forall in Hev. apply list_elem_of_In, Hev in Hin.
  destruct Hin as (-> & _ & d' & Hd' & Hkw).
  rewrite Hd in Hd'. injection Hd' as <-.
  assert (kw !! "learning_rate" = VFloat <$> train_py.learning_rate a) as Hlr.
  { rewrite Hkw by string_in.
    rewrite lookup_union_r by done. apply cfg_params_learning_rate. }
  split; [done |]. intros f m Hf Hcall.
  pose proof (builder_learning_rate _ _ _ _ _ Hf Hcall) as Hm.
  rewrite Hlr in Hm. by destruct (train_py.learning_rate a).
Qed.

End Selection.

Lemma build_kwargs_in evs kw :
  build_kwargs evs = Some kw -> exists n, In (EvBuild n kw) evs.
Proof.
  unfold build_kwargs.
  destruct (List.find _ evs) as [[]|] eqn:E; try discriminate.
  intros [= <-]. apply find_some in E as [Hin _]. by eexists.
Qed.

(** The model a run returned, if it returned one. *)
Definition returned_model (r : outcome (option (Model * gmap string pyval)))
    : option Model :=
  match r with
  | Ok (Some (m, _)) => Some m
  | _ => None
  end.

(** C10, a defect of the code.  Lines 168-170 remove the key "so the value
    from the model def is used", and the docstring has [learning_rate=None]
    use the "per model defaults"; yet on a dataset that brings a
    'learning_rate' of 0.1 among its attributes, [params.update(d.attrs)]
    (line 178) puts the key back after it was removed: [train] is called
    with [learning_rate=None], the builder receives 0.1 and the optimiser of
    the model returned does not use the default 0.0005. *)
Theorem dataset_learning_rate_reaches_builder :
  train_py.learning_rate (demo_args None None None) = None /\
  build_kwargs
    (train_py.train (demo_env false 4096 {["learning_rate" := VFloat (1 # 10)]})
       (demo_args None None None) ∅).2
    ≫= (fun kw => kw !! "learning_rate") = Some (VFloat (1 # 10)) /\
  (fun m => opt_lr (m_optimizer m)) <$>
    returned_model
      (train_py.train (demo_env false 4096 {["learning_rate" := VFloat (1 # 10)]})
         (demo_args None None None) ∅).1.1
  = Some (1 # 10)%Q /\
  (1 # 10)%Q <> (5 # 10000)%Q.
Proof.
  split; [reflexivity |]. split; [by vm_compute |]. split; [by vm_compute | discriminate].
Qed.

Definition is_some {A} (o : option A) : bool :=
  match o with
  | Some _ => true
  | None => false
  end.

Lemma is_some_inv {A} (o : option A) : is_some o = true -> exists x, o = Some x.
Proof. destruct o; [by eexists | discriminate]. Qed.

Lemma demo_run_builds :
  is_some (build_kwargs
             (train_py.train (demo_env false 4096 ∅)
                (demo_args None None (Some (1 # 1000)%Q)) ∅).2) = true.
Proof. vm_compute. reflexivity. Qed.

Lemma learning_rate_passed_witness :
  exists kw,
    build_kwargs
      (train_py.train (demo_env false 4096 ∅) (demo_args None None (Some (1 # 1000)%Q)) ∅).2
    = Some kw /\
    kw !! "learning_rate" = Some (VFloat (1 # 1000)).
Proof.
  destruct (is_some_inv _ demo_run_builds) as [kw E].
  exists kw. split; [exact E |].
  apply build_kwargs_in in E as (n & Hin).
  destruct (train_py.train (demo_env false 4096 ∅)
              (demo_args None None (Some (1 # 1000)%Q)) ∅) as [[r fs'] evs] eqn:Erun.
  assert (d_attrs (demo_dataset 4096 ∅) !! "learning_rate" = None) as Hattr
      by (vm_compute; reflexivity).
  destruct (learning_rate_passed (demo_env false 4096 ∅)
              (demo_args None None (Some (1 # 1000)%Q)) ∅ r fs' evs
              (demo_dataset 4096 ∅) n kw eq_refl Hattr Erun Hin) as [Hlr _].
  exact Hlr.
Defined.

(** ** The output files and the checkpoint *)

Lemma append_inv_head (s x y : string) : s +:+ x = s +:+ y -> x = y.
Proof.
  induction s as [|c s IH]; cbn; [done |]. intros [= H]. by apply IH.
Qed.

(** The events that only the training loop emits. *)
Definition loop_only (ev : event) : Prop :=
  match ev with
  | EvEpoch _ _ _ | EvCheckpoint _ _ _ _ => True
  | _ => False
  end.

Lemma epochs_of_none (P : event -> Prop) evs :
  Forall P evs -> (forall ev, P ev -> ~ loop_only ev) -> epochs_of evs = [].
Proof.
  intros H HP. induction H as [|ev evs Hev _ IH]; [done |].
  rewrite epochs_of_cons, IH. destruct ev; try done. by destruct (HP _ Hev).
Qed.

Lemma not_in_quiet (P : event -> Prop) evs ev :
  Forall P evs -> ~ P ev -> ~ In ev evs.
Proof.
  intros HP Hev Hin. rewrite Forall_forall in HP. by apply list_elem_of_In, HP in Hin.
Qed.

Definition test_event_kind (ev : event) : Prop :=
  match ev with
  | EvLog _ _ | EvLoadWeights _ | EvEvaluate _ | EvWrite _ => True
  | _ => False
  end.

Section Outputs.
Context (env : Env) (a : train_py.train_args).

(** The build stage of a run that got through it leaves one file: the
    parameters file. *)
Lemma build_files p fs b fs' evs :
  train_py.build env a (cfg_prefix a) p fs = (Ok b, fs', evs) ->
  fs' = <[params_name env a := ParamsFile (train_py.p_params p)]> fs /\
  In (EvWrite (params_name env a)) evs.
Proof.
  intros Hb. unfold train_py.build in Hb. ok_skip Hb.
  apply bind_ok_inv in Hb as (f & fsA & evA & evB & Hf & Hb & ->).
  destruct (models.model_dict _ !! _); [|discriminate].
  apply ret_inv in Hf as (_ & -> & ->).
  ok_skip Hb. ok_skip Hb. ok_skip Hb. ok_skip Hb. ok_skip Hb. ok_skip Hb.
  unfold train_py.save_params in Hb. ok_skip Hb.
  split; [|cbn [app]; do 5 right; by left].
  apply bind_ok_inv in Hb as ([pos cbs] & fsN & evN & evN' & Hnep & Hb & ->).
  apply ret_inv in Hb as (_ & -> & _).
  destruct (_ && _); [|by apply ret_inv in Hnep as (_ & -> & _)].
  destruct (HAS_NEPTUNE env); cbn [negb] in Hnep.
  - destruct (Poseidon env _ _ _) as [pos'|e].
    + destruct (poseidon_callback env pos').
      * by apply ret_inv in Hnep as (_ & -> & _).
      * ok_skip Hnep. by apply ret_inv in Hnep as (_ & -> & _).
    + ok_skip Hnep. by apply ret_inv in Hnep as (_ & -> & _).
  - ok_skip Hnep. by apply ret_inv in Hnep as (_ & -> & _).
Qed.

(** What is known of a run that returned, stage by stage: the data
    stage writes nothing, the build stage writes the parameters file, the
    loop starts from a checkpoint callback that has seen no loss yet, and
    the history lists the epochs. *)
Lemma train_returned fs res fs' evs :
  train_py.train env a fs = (Ok res, fs', evs) ->
  exists p b hist model fs2 fs3 ev1 ev2 ev3 ev4,
    evs = (cfg_events a ++ ev1 ++ ev2
           ++ (EvLog "INFO" (LFmt "start training" []) :: ev3) ++ ev4)%list /\
    Forall data_event ev1 /\
    Forall (build_event env a (train_py.p_params p)) ev2 /\
    In (EvWrite (params_name env a)) ev2 /\
    train_py.b_save_name b = stem env a /\
    train_py.b_checkpoint_save_name b = checkpoint_name env a /\
    loop_post env (checkpoint_name env a) (configured env a) MInf 0 fs2 fs3 ev3 /\
    (0 < train_py.nb_epoch a -> exists e w l, In (EvEpoch e w l) ev3) /\
    map (fun x => (x.1.2, x.2)) (epochs_of ev3) = map summary hist /\
    train_py.test env a p b hist model fs3 = (Ok res, fs', ev4) /\
    io_load env (train_py.data_dir a) (train_py.x_suffix a) (train_py.y_suffix a)
    = Ok (train_py.p_d p) /\
    forall q, fs2 !! q = (<[params_name env a := ParamsFile (train_py.p_params p)]> fs) !! q.
Proof.
  intros H.
  apply train_ok in H
      as (p & b & hist & model & fs1 & fs2 & fs3 & ev1 & ev2 & ev3 & ev4
          & Hs & Hp & Hb & Hn & Ht & ->).
  destruct (prepare_sat env a _ _ _ _ _ Hp) as (Hev1 & Hfs1 & Hq1).
  destruct (Hq1 p eq_refl) as [Hd _].
  destruct (build_sat env a p _ _ _ _ Hb) as (Hev2 & _ & Hq2).
  destruct (Hq2 b eq_refl) as (Hname & Hckpt & _ & (rest & Hcbs & Hrest) & _ & _).
  destruct (build_files _ _ _ _ _ Hb) as [Hfs2 Hwritten].
  unfold train_py.train_network in Hn. ok_skip Hn. ok_skip Hn.
  eapply (fit_post env _ (checkpoint_name env a) 1 (configured env a)) in Hn
      as (Hpost & Hsome & Hhist); [|exact Hcbs |].
  2:{ constructor; [done |]. eapply Forall_impl; [exact Hrest |].
      apply configured_bystander. }
  eexists p, b, hist, model, fs2, fs3, ev1, ev2, _, ev4.
  split; [reflexivity |].
  split; [done |]. split; [done |]. split; [done |]. split; [done |]. split; [done |].
  split; [exact Hpost |]. split; [exact Hsome |]. do 3 (split; [done |]).
  intros q. rewrite Hfs2.
  destruct (decide (params_name env a = q)) as [->|Hne].
  - by rewrite !lookup_insert_eq.
  - rewrite !lookup_insert_ne by done. apply Hfs1.
    apply (not_in_quiet _ _ _ Hev1). cbn. tauto.
Qed.

Lemma names_differ : checkpoint_name env a <> results_name env a.
Proof.
  unfold checkpoint_name, results_name. intros H. by apply append_inv_head in H.
Qed.

Lemma cfg_events_log : Forall is_log (cfg_events a).
Proof. unfold cfg_events. destruct (train_py.log_messages a); by repeat constructor. Qed.

Lemma evaluation_events_quiet b w : Forall test_event_kind (evaluation_events b w).
Proof. by repeat constructor. Qed.

(** An event of the loop in a run is one of the events of its loop. *)
Lemma loop_event_in p ev ev1 ev2 ev3 ev4 :
  Forall data_event ev1 ->
  Forall (build_event env a p) ev2 ->
  Forall test_event_kind ev4 ->
  loop_only ev ->
  In ev (cfg_events a ++ ev1 ++ ev2
         ++ (EvLog "INFO" (LFmt "start training" []) :: ev3) ++ ev4) ->
  In ev ev3.
Proof.
  intros H1 H2 H4 Hev Hin.
  pose proof cfg_events_log as H0.
  rewrite Forall_forall in H0, H1, H2, H4.
  rewrite !in_app_iff in Hin.
  destruct Hin as [Hin|[Hin|[Hin|[[Hin|Hin]|Hin]]]]; try done.
  - apply list_elem_of_In, H0 in Hin. by destruct ev.
  - apply list_elem_of_In, H1 in Hin. by destruct ev.
  - apply list_elem_of_In, H2 in Hin. by destruct ev.
  - by subst ev.
  - apply list_elem_of_In, H4 in Hin. by destruct ev.
Qed.

Lemma run_epochs p ev1 ev2 ev3 ev4 :
  Forall data_event ev1 ->
  Forall (build_event env a p) ev2 ->
  Forall test_event_kind ev4 ->
  epochs_of (cfg_events a ++ ev1 ++ ev2
             ++ (EvLog "INFO" (LFmt "start training" []) :: ev3) ++ ev4)
  = epochs_of ev3.
Proof.
  intros H1 H2 H4. rewrite !epochs_of_app, epochs_of_cons.
  assert (epochs_of (cfg_events a) = []) as ->
      by (apply (epochs_of_none _ _ cfg_events_log); intros []; cbn; tauto).
  assert (epochs_of ev1 = []) as -> by (apply (epochs_of_none _ _ H1); intros []; cbn; tauto).
  assert (epochs_of ev2 = []) as -> by (apply (epochs_of_none _ _ H2); intros []; cbn; tauto).
  assert (epochs_of ev4 = []) as -> by (apply (epochs_of_none _ _ H4); intros []; cbn; tauto).
  cbn [app]. by rewrite app_nil_r.
Qed.

(** The events of the loop among those of a run that returned. *)
Lemma loop_events p ev1 ev2 ev3 ev4 ev :
  Forall data_event ev1 ->
  Forall (build_event env a p) ev2 ->
  Forall test_event_kind ev4 ->
  loop_only ev ->
  In ev (cfg_events a ++ ev1 ++ ev2
         ++ (EvLog "INFO" (LFmt "start training" []) :: ev3) ++ ev4) <->
  In ev ev3.
Proof.
  intros H1 H2 H4 Hev. split; [by eapply loop_event_in |].
  intros Hin. rewrite !in_app_iff. right. right. right. left. by right.
Qed.

Lemma test_events_kind p b hist model fs res fs' evs :
  train_py.test env a p b hist model fs = (Ok res, fs', evs) ->
  Forall test_event_kind evs.
Proof.
  intros Ht.
  apply test_ok in Ht
      as (n & _ & [(_ & _ & _ & ->)|(_ & w & r & ? & ? & ? & _ & _ & _ & _ & _ & _ & _ & ->)]);
    by repeat constructor.
Qed.

(** C2, amended.  A run that returns has written the parameters file.
    Its checkpoint callback has saved exactly when some epoch ended with a
    validation loss below plus infinity (a number, not a missing value,
    not-a-number or an infinity); then the checkpoint was written, and it
    is a saved model unless a library callback writes to the same path.
    The results bundle is written exactly when the test split has at
    least [nb_hist] samples: then the run returns the model, the bundle
    holds the history of the epochs that ran, the parameters returned,
    the test inputs, targets and predictions of the returned model, the
    labels derived from them and the confusion matrix and report of
    their evaluation, and the checkpoint holds the weights of the
    returned model; otherwise the run logs that there is no test data,
    returns None and has written nothing but the parameters file, the
    checkpoint and what its library callbacks write.  The three names
    are [save_dir/prefix_timestamp] followed by the suffix of the
    parameters file, [_model.h5] and [_results.h5]. *)
Theorem train_outputs fs res fs' evs :
  train_py.train env a fs = (Ok res, fs', evs) ->
  In (EvWrite (stem env a +:+ params_suffix env)) evs /\
  ((exists e w l, In (EvEpoch e w (Some l)) evs /\ np_less l MInf = true) <->
   (exists e w l, In (EvCheckpoint (stem env a +:+ "_model.h5") e w l) evs)) /\
  ((exists e w l, In (EvCheckpoint (stem env a +:+ "_model.h5") e w l) evs) ->
   In (EvWrite (stem env a +:+ "_model.h5")) evs /\
   (~ callback_path env a (stem env a +:+ "_model.h5") ->
    exists saved, fs' !! (stem env a +:+ "_model.h5") = Some (ModelFile saved))) /\
  exists d n,
    io_load env (train_py.data_dir a) (train_py.x_suffix a) (train_py.y_suffix a) = Ok d /\
    array_len (sx (d_test d)) = Ok n /\
    (n < train_py.nb_hist a ->
     res = None /\
     In (EvLog "INFO" (LFmt "No test data - skipping final evaluation step." [])) evs /\
     forall p, In (EvWrite p) evs ->
               p = stem env a +:+ params_suffix env \/ p = stem env a +:+ "_model.h5" \/
               callback_path env a p) /\
    (train_py.nb_hist a <= n ->
     exists m params r f class_names,
       res = Some (m, params) /\
       In (EvWrite (stem env a +:+ "_results.h5")) evs /\
       fs' !! (stem env a +:+ "_results.h5") = Some (ResultsFile r) /\
       map summary (r_fit_hist r) = map (fun x => (x.1.2, x.2)) (epochs_of evs) /\
       r_params r = params /\
       evaluate_probabilities env (sx (d_test d)) (sy (d_test d)) m params
       = Ok (r_x_test r, r_y_test r, r_y_pred r) /\
       labels_from_probabilities env (r_y_test r) = Ok (r_labels_test r) /\
       labels_from_probabilities env (r_y_pred r) = Ok (r_labels_pred r) /\
       train_py.getitem "params" params "class_names" = Ok class_names /\
       evaluate_segments env (r_labels_test r) (r_labels_pred r) class_names
       = Ok (r_confusion_matrix r, r_classification_report r) /\
       fs' !! (stem env a +:+ "_model.h5") = Some f /\
       holds_weights (Some f) (m_weights m)).
Proof.
  intros H.
  apply train_returned in H
      as (p & b & hist & model & fs2 & fs3 & ev1 & ev2 & ev3 & ev4
          & -> & Hev1 & Hev2 & Hparams & Hname & Hckpt & Hpost & Hsome & Hhist & Ht
          & Hd & Hfs2).
  destruct Hpost as (_ & Hsaves & Hbest & _ & Hev3).
  pose proof (test_events_kind _ _ _ _ _ _ _ _ Ht) as Hev4.
  pose proof (fun ev => loop_events _ _ _ ev3 _ ev Hev1 Hev2 Hev4) as Hloop.
  assert (fs' !! checkpoint_name env a = fs3 !! checkpoint_name env a) as Hkeep.
  { pose proof Ht as Ht'.
    apply test_ok in Ht'
        as (n & _ & [(_ & _ & -> & _)|(_ & w & r & ? & ? & ? & _ & _ & -> & _)]);
      [done |].
    rewrite Hname. apply lookup_insert_ne. intros Heq. by apply names_differ. }
  split; [|split; [|split]].
  - rewrite !in_app_iff. auto.
  - split.
    + intros (e & w & l & Hin & Hlt). apply Hloop in Hin; [|done].
      destruct Hbest as [(_ & Hep & _)|(e0 & saved & l0 & _ & Hin0 & _)].
      * apply Hep in Hin. congruence.
      * exists e0, (m_weights saved), (Some l0). by apply Hloop.
    + intros (e & w & l & Hin). apply Hloop in Hin; [|done].
      destruct (Hsaves _ _ _ _ Hin) as (_ & Hep & lv & -> & Hb & _).
      exists e, w, lv. split; [by apply Hloop | done].
  - intros (e & w & l & Hin). apply Hloop in Hin; [|done].
    destruct Hbest as [(Hnc & _)|(e0 & saved & l0 & _ & _ & Hw & _ & _ & Hf)];
      [by apply Hnc in Hin |].
    split.
    + rewrite !in_app_iff. right. right. right. left. by right.
    + intros HW. exists saved. unfold checkpoint_name in Hkeep. rewrite Hkeep.
      by apply Hf.
  - exists (train_py.p_d p). pose proof Ht as Ht'.
    apply test_ok in Ht' as (n & Hn & Hcase). exists n.
    split; [done |]. split; [done |].
    destruct Hcase as [(Hlt & -> & -> & ->)|(Hge & w & r0 & lt & lp & cn
                                             & Hw & -> & _ & _ & _ & _ & _ & ->)].
    + split; [|lia]. intros _. split; [done |]. split.
      { rewrite !in_app_iff. do 4 right. by left. }
      intros q Hin. rewrite !in_app_iff in Hin.
      pose proof cfg_events_log as Hev0.
      rewrite Forall_forall in Hev0, Hev1, Hev2, Hev3.
      destruct Hin as [Hin|[Hin|[Hin|[[Hin|Hin]|Hin]]]]; try done.
      * by apply list_elem_of_In, Hev0 in Hin.
      * by apply list_elem_of_In, Hev1 in Hin.
      * apply list_elem_of_In, Hev2 in Hin. by left.
      * apply list_elem_of_In, Hev3 in Hin. right. exact Hin.
      * by in_cases Hin.
    + split; [lia |]. intros _.
      apply test_bundle in Ht
          as (r & class_names & -> & _ & Hr & Hrp & Hprobs & Hlt & Hlp & Hcn & Hseg).
      destruct (fs3 !! train_py.b_checkpoint_save_name b) as [f|] eqn:Hf; [|done].
      eexists _, _, r, f, class_names. split; [reflexivity |].
      rewrite Hname. split; [|split; [|split]].
      * rewrite !in_app_iff. do 4 right. unfold evaluation_events. rewrite Hname.
        cbn. tauto.
      * by rewrite lookup_insert_eq.
      * rewrite Hr, <- Hhist.
        by rewrite (run_epochs _ _ _ _ _ Hev1 Hev2 (evaluation_events_quiet b w)).
      * do 6 (split; [done |]). split; [|exact Hw].
        rewrite lookup_insert_ne by (intros Heq; by apply names_differ).
        rewrite Hckpt in Hf. exact Hf.
Qed.

(** C7.  Let no library callback of the run write to the path of the
    checkpoint.  In a run that returns, the checkpoint is only ever
    written after an epoch whose validation loss is a number below plus
    infinity that no earlier epoch beat and that is below every earlier
    loss that is a number.  If the callback saved at all, the file holds
    a model saved at the end of an epoch whose validation loss no epoch of
    the run beat; if it did not, no epoch reported a validation loss
    below plus infinity.  When the run gets to the final evaluation, the
    weights are read back from the file after the last epoch and before
    the one evaluation, so the model that is evaluated and returned
    carries the weights in the file, whatever the last epoch left; and
    with no file at the path before the run, the callback did save. *)
Theorem checkpoint_is_best fs res fs' evs :
  ~ callback_path env a (stem env a +:+ "_model.h5") ->
  train_py.train env a fs = (Ok res, fs', evs) ->
  saves_improve (stem env a +:+ "_model.h5") MInf evs /\
  ((exists e w l, In (EvCheckpoint (stem env a +:+ "_model.h5") e w l) evs) ->
   exists saved e l,
     fs' !! (stem env a +:+ "_model.h5") = Some (ModelFile saved) /\
     In (EvCheckpoint (stem env a +:+ "_model.h5") e (m_weights saved) (Some l)) evs /\
     In (EvEpoch e (m_weights saved) (Some l)) evs /\
     np_less l MInf = true /\
     (forall e' w' l', In (EvEpoch e' w' (Some l')) evs -> np_less l' l = false) /\
     forall m params, res = Some (m, params) -> m_weights m = m_weights saved) /\
  ((forall e w l, ~ In (EvCheckpoint (stem env a +:+ "_model.h5") e w l) evs) ->
   forall e w l, In (EvEpoch e w (Some l)) evs -> np_less l MInf = false) /\
  forall m params,
    res = Some (m, params) ->
    holds_weights (fs' !! (stem env a +:+ "_model.h5")) (m_weights m) /\
    (fs !! (stem env a +:+ "_model.h5") = None ->
     exists e w l, In (EvCheckpoint (stem env a +:+ "_model.h5") e w l) evs) /\
    exists before after,
      evs = (before
             ++ EvLoadWeights (stem env a +:+ "_model.h5")
             :: EvLog "INFO" (LFmt "predicting" [])
             :: EvEvaluate (m_weights m) :: after)%list /\
      (forall ev, In ev after -> ~ loop_only ev) /\
      (forall w, ~ In (EvEvaluate w) before) /\
      (forall w, ~ In (EvEvaluate w) after).
Proof.
  intros HW H.
  apply train_returned in H
      as (p & b & hist & model & fs2 & fs3 & ev1 & ev2 & ev3 & ev4
          & -> & Hev1 & Hev2 & Hparams & Hname & Hckpt & Hpost & Hsome & Hhist & Ht
          & Hd & Hfs2).
  destruct Hpost as (_ & Hsaves & Hbest & Hframe & Hev3).
  pose proof (test_events_kind _ _ _ _ _ _ _ _ Ht) as Hev4.
  pose proof (fun ev => loop_events _ _ _ ev3 _ ev Hev1 Hev2 Hev4) as Hloop.
  apply test_ok in Ht as (n & Hn & Hcase).
  assert (fs' !! checkpoint_name env a = fs3 !! checkpoint_name env a) as Hkeep.
  { destruct Hcase as [(_ & _ & -> & _)|(_ & w & r & ? & ? & ? & _ & _ & -> & _)];
      [done |].
    rewrite Hname. apply lookup_insert_ne. intros Heq. by apply names_differ. }
  unfold checkpoint_name in Hkeep.
  assert (forall m params,
            res = Some (m, params) ->
            holds_weights (fs3 !! (stem env a +:+ "_model.h5")) (m_weights m) /\
            ev4 = evaluation_events b (m_weights m)) as Hloaded.
  { intros m params Hres.
    destruct Hcase as [(_ & -> & _)|(_ & w & r & lt & lp & cn & Hw & -> & _ & _ & _ & _
                                     & _ & ->)]; [discriminate |].
    injection Hres as <- <-. by rewrite Hckpt in Hw. }
  split; [|split; [|split]].
  - intros q e' w' l' Hin. apply Hloop in Hin; [|done].
    destruct (Hsaves _ _ _ _ Hin) as (-> & Hep & lv & -> & Hb & Hearlier).
    split; [done |]. split; [by apply Hloop |].
    exists lv. split; [done |]. split; [done |].
    intros e'' w'' l'' Hin' Hlt. apply Hloop in Hin'; [|done]. by eapply Hearlier.
  - intros (e & w & l & Hin). apply Hloop in Hin; [|done].
    destruct Hbest as [(Hnc & _)|(e0 & saved & l0 & Hi1 & Hi2 & _ & Hb & Hmin & Hf)];
      [by apply Hnc in Hin |].
    specialize (Hf HW).
    exists saved, e0, l0. split; [by rewrite Hkeep |].
    split; [by apply Hloop |]. split; [by apply Hloop |]. split; [done |]. split.
    + intros e' w' l' Hin'. apply Hloop in Hin'; [|done]. by eapply Hmin.
    + intros m params Hres. destruct (Hloaded _ _ Hres) as [Hw _].
      unfold checkpoint_name in Hf. rewrite Hf in Hw. exact Hw.
  - intros Hnone e w l Hin. apply Hloop in Hin; [|done].
    destruct Hbest as [(_ & Hep & _)|(e0 & saved & l0 & _ & Hi2 & _)];
      [by eapply Hep |].
    exfalso. eapply Hnone. by apply Hloop.
  - intros m params Hres. destruct (Hloaded _ _ Hres) as [Hw ->].
    split; [by rewrite Hkeep |]. split.
    + intros Hnofile.
      destruct Hbest as [(_ & _ & Hnw)|(e0 & saved & l0 & _ & Hi2 & _)].
      * exfalso. specialize (Hnw HW).
        pose proof (Hframe _ Hnw) as Hsame. unfold checkpoint_name in Hsame.
        rewrite Hsame, Hfs2 in Hw.
        destruct (decide (params_name env a = stem env a +:+ "_model.h5")) as [Heq|Hne].
        -- by rewrite Heq, lookup_insert_eq in Hw.
        -- by rewrite lookup_insert_ne, Hnofile in Hw.
      * exists e0, (m_weights saved), (Some l0). by apply Hloop.
    + exists (cfg_events a ++ ev1 ++ ev2
              ++ (EvLog "INFO" (LFmt "start training" []) :: ev3)
              ++ [EvLog "INFO" (LFmt "re-loading last best model" [])])%list.
      eexists. split.
      { unfold evaluation_events. rewrite Hckpt.
        rewrite <- !app_assoc. cbn [app]. reflexivity. }
      split; [|split].
      * intros ev Hin. in_cases Hin; subst ev; cbn; tauto.
      * intros w Hin. rewrite !in_app_iff in Hin.
        pose proof cfg_events_log as Hev0.
        rewrite Forall_forall in Hev0, Hev1, Hev2, Hev3.
        destruct Hin as [Hin|[Hin|[Hin|[[Hin|Hin]|Hin]]]]; try done.
        -- by apply list_elem_of_In, Hev0 in Hin.
        -- by apply list_elem_of_In, Hev1 in Hin.
        -- by apply list_elem_of_In, Hev2 in Hin.
        -- by apply list_elem_of_In, Hev3 in Hin.
        -- by in_cases Hin.
      * intros w Hin. by in_cases Hin.
Qed.

(** With the experiment tracking asked for but its dependency missing, no
    run gets to return the model: [poseidon] was never assigned when the
    test results are to be logged. *)
Lemma neptune_unavailable_returns_no_model fs r fs' evs :
  HAS_NEPTUNE env = false ->
  train_py.opt_truthy (train_py.neptune_api_token a)
  && train_py.opt_truthy (train_py.neptune_project a) = true ->
  train_py.train env a fs = (r, fs', evs) ->
  returned_model r = None.
Proof.
  intros Hnep Hasked H. destruct r as [[[m params]|]|e]; try done. exfalso.
  apply train_ok in H
      as (p & b & hist & model & fs1 & fs2 & fs3 & ev1 & ev2 & ev3 & ev4
          & _ & _ & Hb & _ & Ht & _).
  destruct (build_sat env a p _ _ _ _ Hb) as (_ & _ & Hq).
  destruct (Hq b eq_refl) as (_ & _ & _ & _ & _ & Hpos).
  apply test_ok in Ht as (n & _ & [(_ & ? & _)|(_ & w & r & ? & ? & ? & _ & _ & _ & _ & _
                                                  & _ & Hbound & _)]);
    [discriminate |].
  apply Hbound; [done | by apply Hpos].
Qed.

End Outputs.

(** ** Concrete runs *)

Definition wrote (path : string) (evs : list event) : bool :=
  existsb (fun ev => match ev with
                     | EvWrite p => String.eqb p path
                     | _ => false
                     end) evs.

Definition logged (level msg : string) (evs : list event) : bool :=
  existsb (fun ev => match ev with
                     | EvLog lv (LFmt s _) => String.eqb lv level && String.eqb s msg
                     | _ => false
                     end) evs.

Definition is_ok {A} (r : outcome A) : bool :=
  match r with
  | Ok _ => true
  | Raise _ => false
  end.

Lemma is_ok_inv {A} (r : outcome A) : is_ok r = true -> exists x, r = Ok x.
Proof. destruct r; [by eexists | discriminate]. Qed.

(** Whether an epoch ended with a validation loss below plus infinity. *)
Definition improved (evs : list event) : bool :=
  existsb (fun ev => match ev with
                     | EvEpoch _ _ (Some l) => np_less l MInf
                     | _ => false
                     end) evs.

Lemma improved_in evs :
  improved evs = true ->
  exists e w l, In (EvEpoch e w (Some l)) evs /\ np_less l MInf = true.
Proof.
  unfold improved. rewrite existsb_exists. intros ([| | | | | | |e w [l|]| | |] & Hin & H);
    try discriminate.
  by exists e, w, l.
Qed.

(** Whether the checkpoint callback saved to [path]. *)
Definition saved_to (path : string) (evs : list event) : bool :=
  existsb (fun ev => match ev with
                     | EvCheckpoint p _ _ _ => String.eqb p path
                     | _ => false
                     end) evs.

Lemma classic_checkpoint evs path :
  (exists e w l, In (EvCheckpoint path e w l) evs) \/
  (forall e w l, ~ In (EvCheckpoint path e w l) evs).
Proof.
  destruct (saved_to path evs) eqn:E.
  - left. unfold saved_to in E. apply existsb_exists in E as (ev & Hin & H).
    destruct ev; try discriminate. apply String.eqb_eq in H as ->. by eexists _, _, _.
  - right. intros e w l Hin.
    assert (saved_to path evs = true) as E'; [|congruence].
    unfold saved_to. apply existsb_exists. eexists. split; [exact Hin |].
    apply String.eqb_refl.
Qed.

(** The argument of [train] asks for no library callback. *)
Definition plain (a : train_py.train_args) : bool :=
  negb (train_py.reduce_lr a) && negb (train_py._qt_progress a)
  && negb (train_py.tensorboard a)
  && negb (train_py.opt_truthy (train_py.neptune_api_token a)
           && train_py.opt_truthy (train_py.neptune_project a)).

Lemma plain_no_callback_path env a p : plain a = true -> ~ callback_path env a p.
Proof.
  unfold plain. rewrite !andb_true_iff, !negb_true_iff.
  intros [[[Hlr Hqt] Htb] Hnep] (c & ws & f & Hc & _).
  destruct c; cbn in Hc; try done; destruct Hc as [Hc _]; congruence.
Qed.

(** With TensorBoard as the only library callback of the demo world, the
    one path a hook writes is the log file below [save_dir]. *)
Lemma board_callback_path has_neptune test_len attrs a p :
  plain a = true ->
  callback_path (demo_env has_neptune test_len attrs) (with_tensorboard a) p ->
  p = train_py.save_dir a +:+ "/train/events.out.tfevents".
Proof.
  unfold plain. rewrite !andb_true_iff, !negb_true_iff.
  intros [[[Hlr Hqt] Htb] Hnep] (c & ws & f & Hc & Hh & Hin).
  destruct c; cbn in Hc; try done.
  - destruct Hc as [Hc _]. congruence.
  - destruct Hc as [Hc _]. congruence.
  - destruct Hc as [_ ->].
    destruct Hh as [->|[(e & ->)|[(e & logs & ->)| ->]]]; cbn in Hin; [|done | |done];
      destruct Hin as [[= <- _]|[]]; reflexivity.
  - destruct Hc as [Hc _]. congruence.
Qed.

(** A test split of 10 samples, chunks of 1024. *)
Definition short_test_run :=
  train_py.train (demo_env false 10 ∅) (demo_args None None None) ∅.

(** A test split of 4096 samples. *)
Definition full_run :=
  train_py.train (demo_env false 4096 ∅) (demo_args None None None) ∅.

(** The same with [tensorboard=True]. *)
Definition board_run :=
  train_py.train (demo_env false 4096 ∅) (with_tensorboard (demo_args None None None)) ∅.

(** The short test split again, with a validation loss that is not a number
    in every epoch. *)
Definition diverged_run :=
  train_py.train (with_val_loss (Some MNaN) (demo_env false 10 ∅))
    (demo_args None None None) ∅.

(** The same, with a token and a project for neptune, whose dependency is
    missing. *)
Definition neptune_run :=
  train_py.train (demo_env false 4096 ∅) (demo_args (Some "tok") (Some "proj") None) ∅.

(** C2 as stated fails on a test split shorter than one chunk: the run
    completes (it returns None after three epochs), the parameters file and
    the checkpoint are there, and no results bundle is written. *)
Lemma short_test_split_leaves_no_results :
  short_test_run.1.1 = Ok None /\
  length (epochs_of short_test_run.2) = 3%nat /\
  wrote "res/20200101_120000_params.yaml" short_test_run.2 = true /\
  wrote "res/20200101_120000_model.h5" short_test_run.2 = true /\
  wrote "res/20200101_120000_results.h5" short_test_run.2 = false /\
  short_test_run.1.2 !! "res/20200101_120000_results.h5" = None.
Proof.
  split; [vm_compute; reflexivity |]. split; [vm_compute; reflexivity |].
  split; [vm_compute; reflexivity |]. split; [vm_compute; reflexivity |].
  split; vm_compute; reflexivity.
Qed.

Lemma full_run_ok : is_ok full_run.1.1 = true.
Proof. vm_compute. reflexivity. Qed.

Lemma full_run_returns_model : is_some (returned_model full_run.1.1) = true.
Proof. vm_compute. reflexivity. Qed.

Lemma full_run_improved : improved full_run.2 = true.
Proof. vm_compute. reflexivity. Qed.

Lemma train_outputs_witness :
  In (EvWrite "res/20200101_120000_params.yaml") full_run.2 /\
  In (EvWrite "res/20200101_120000_model.h5") full_run.2 /\
  (exists saved, full_run.1.2 !! "res/20200101_120000_model.h5" = Some (ModelFile saved)) /\
  In (EvWrite "res/20200101_120000_results.h5") full_run.2 /\
  exists r, full_run.1.2 !! "res/20200101_120000_results.h5" = Some (ResultsFile r).
Proof.
  destruct (is_ok_inv _ full_run_ok) as [res Hres].
  destruct (improved_in _ full_run_improved) as (e & w & l & Hin & Hlt).
  unfold full_run in *.
  destruct (train_py.train (demo_env false 4096 ∅) (demo_args None None None) ∅)
    as [[r fs'] evs] eqn:Erun.
  cbn [fst snd] in *. subst r.
  destruct (train_outputs (demo_env false 4096 ∅) (demo_args None None None) ∅ res fs' evs
              Erun) as (Hparams & Hiff & Hckpt & d & n & Hd & Hn & _ & Hresults).
  split; [exact Hparams |].
  assert (exists e w l, In (EvEpoch e w (Some l)) evs /\ np_less l MInf = true) as Himp.
  { exists e, w, l. split; [exact Hin | exact Hlt]. }
  destruct (Hckpt (proj1 Hiff Himp)) as [Hwritten Hfile].
  split; [exact Hwritten |].
  split; [apply Hfile, plain_no_callback_path; reflexivity |].
  injection Hd as <-. injection Hn as <-.
  destruct (Hresults ltac:(vm_compute; discriminate))
    as (m & params & r & f & cn & _ & Hw & Hr & _).
  split; [exact Hw | by exists r].
Defined.

Lemma board_run_returns_model : is_some (returned_model board_run.1.1) = true.
Proof. vm_compute. reflexivity. Qed.

Lemma board_run_improved : improved board_run.2 = true.
Proof. vm_compute. reflexivity. Qed.

(** The run with TensorBoard: its log file is written, and is none of the
    three outputs. *)
Example board_run_writes_logs :
  wrote "res/train/events.out.tfevents" board_run.2 = true /\
  board_run.1.2 !! "res/train/events.out.tfevents" = Some (LogFile 3).
Proof. split; vm_compute; reflexivity. Qed.

Lemma checkpoint_is_best_witness :
  exists saved,
    board_run.1.2 !! "res/20200101_120000_model.h5" = Some (ModelFile saved) /\
    (m_weights <$> returned_model board_run.1.1) = Some (m_weights saved) /\
    exists e l, In (EvEpoch e (m_weights saved) (Some l)) board_run.2 /\
                forall e' w' l', In (EvEpoch e' w' (Some l')) board_run.2 ->
                                 np_less l' l = false.
Proof.
  destruct (is_some_inv _ board_run_returns_model) as [m Hm].
  destruct (improved_in _ board_run_improved) as (e0 & w0 & l0 & Hin0 & Hlt0).
  unfold board_run in *.
  destruct (train_py.train (demo_env false 4096 ∅)
              (with_tensorboard (demo_args None None None)) ∅)
    as [[r fs'] evs] eqn:Erun.
  cbn [fst snd] in *.
  destruct r as [[[m' params]|]|]; [|discriminate Hm | discriminate Hm].
  injection Hm as ->.
  assert (~ callback_path (demo_env false 4096 ∅)
            (with_tensorboard (demo_args None None None))
            (stem (demo_env false 4096 ∅) (with_tensorboard (demo_args None None None))
             +:+ "_model.h5")) as Hfree.
  { intros Hp. apply board_callback_path in Hp; [discriminate Hp | reflexivity]. }
  destruct (checkpoint_is_best (demo_env false 4096 ∅)
              (with_tensorboard (demo_args None None None)) ∅
              (Some (m, params)) fs' evs Hfree Erun)
    as (_ & Hsaved & Hnot & _).
  assert (exists e w l,
             In (EvCheckpoint
                   (stem (demo_env false 4096 ∅)
                      (with_tensorboard (demo_args None None None)) +:+ "_model.h5")
                   e w l) evs) as Hck.
  { destruct (classic_checkpoint evs
                (stem (demo_env false 4096 ∅)
                   (with_tensorboard (demo_args None None None)) +:+ "_model.h5"))
      as [Hck|Hno]; [exact Hck |].
    rewrite (Hnot Hno _ _ _ Hin0) in Hlt0. discriminate Hlt0. }
  destruct (Hsaved Hck) as (saved & e & l & Hf & _ & Hin & _ & Hmin & Hres).
  exists saved. split; [exact Hf |]. split; [cbn; by rewrite (Hres m params eq_refl) |].
  exists e, l. split; [exact Hin | exact Hmin].
Defined.

(** In the run without TensorBoard the epochs end with the weights 1, 2 and
    3 and the losses 0.5, 0.3 and 0.4: the model returned carries the
    weights of the second epoch, not of the last. *)
Example full_run_returns_second_epoch :
  map (fun x => (x.1.2, x.2)) (epochs_of full_run.2)
  = [(1, Some (MNum (5 # 10))); (2, Some (MNum (3 # 10))); (3, Some (MNum (4 # 10)))] /\
  (m_weights <$> returned_model full_run.1.1) = Some 2.
Proof. split; vm_compute; reflexivity. Qed.

(** A validation loss that is not a number beats nothing: the three epochs
    run, the checkpoint is never written, and on the short test split the
    run still returns. *)
Example diverged_run_saves_nothing :
  diverged_run.1.1 = Ok None /\
  length (epochs_of diverged_run.2) = 3%nat /\
  wrote "res/20200101_120000_model.h5" diverged_run.2 = false /\
  diverged_run.1.2 !! "res/20200101_120000_model.h5" = None.
Proof.
  split; [vm_compute; reflexivity |]. split; [vm_compute; reflexivity |].
  split; vm_compute; reflexivity.
Qed.

(** On the full test split the same optimiser makes the run fail: there
    is no checkpoint to re-load. *)
Example diverged_run_cannot_reload :
  (train_py.train (with_val_loss (Some MNaN) (demo_env false 4096 ∅))
     (demo_args None None None) ∅).1.1
  = Raise (LibraryError "load_weights").
Proof. vm_compute. reflexivity. Qed.

(** A run with a model name that has no entry, and the run of the default
    name: the first fails with a KeyError before anything is built or
    written, the second calls the entry 'tcn'. *)
Definition unregistered_run :=
  train_py.train (demo_env false 4096 ∅)
    (custom_args "resnet" 1024 true None None None) ∅.


Example unregistered_run_fails :
  unregistered_run.1.1 = Raise (KeyError "resnet") /\
  build_kwargs unregistered_run.2 = None /\
  unregistered_run.1.2 = ∅.
Proof.
  split; [vm_compute; reflexivity |]. split; vm_compute; reflexivity.
Qed.

(** The run of C3's failing input: the missing dependency is logged, the
    three epochs run, and the evaluation ends in an UnboundLocalError before
    the results are written. *)
Lemma neptune_unavailable_aborts_evaluation :
  neptune_run.1.1 = Raise (UnboundLocalError "poseidon") /\
  logged "ERROR" "Could not import neptune in das.neptune." neptune_run.2 = true /\
  length (epochs_of neptune_run.2) = 3%nat /\
  logged "INFO" "evaluating" neptune_run.2 = true /\
  wrote "res/20200101_120000_results.h5" neptune_run.2 = false /\
  neptune_run.1.2 !! "res/20200101_120000_results.h5" = None.
Proof.
  split; [vm_compute; reflexivity |]. split; [vm_compute; reflexivity |].
  split; [vm_compute; reflexivity |]. split; [vm_compute; reflexivity |].
  split; vm_compute; reflexivity.
Qed.

(** * More concrete worlds *)

(** [train(data_dir='dat', save_dir='res', model_name=name, nb_epoch=epochs,
    fraction_data=fraction, batch_level_subsampling=batch_level,
    balance=bal)], the other parameters at their defaults. *)
Definition tuned_args (name : string) (epochs : Z) (fraction : option Q)
    (batch_level bal : bool) : train_py.train_args :=
  let a := train_py.default_args "dat" in
  {| train_py.data_dir := train_py.data_dir a; train_py.y_suffix := train_py.y_suffix a;
     train_py.save_dir := "res"; train_py.save_prefix := train_py.save_prefix a;
     train_py.model_name := name;
     train_py.nb_filters := train_py.nb_filters a;
     train_py.kernel_size := train_py.kernel_size a; train_py.nb_conv := train_py.nb_conv a;
     train_py.use_separable := train_py.use_separable a;
     train_py.nb_hist := train_py.nb_hist a;
     train_py.ignore_boundaries := train_py.ignore_boundaries a;
     train_py.batch_norm := train_py.batch_norm a;
     train_py.nb_pre_conv := train_py.nb_pre_conv a;
     train_py.pre_nb_dft := train_py.pre_nb_dft a;
     train_py.pre_kernel_size := train_py.pre_kernel_size a;
     train_py.pre_nb_filters := train_py.pre_nb_filters a;
     train_py.pre_nb_conv := train_py.pre_nb_conv a;
     train_py.nb_lstm_units := train_py.nb_lstm_units a;
     train_py.verbose := train_py.verbose a; train_py.batch_size := train_py.batch_size a;
     train_py.nb_epoch := epochs; train_py.learning_rate := train_py.learning_rate a;
     train_py.reduce_lr := train_py.reduce_lr a;
     train_py.reduce_lr_patience := train_py.reduce_lr_patience a;
     train_py.fraction_data := fraction; train_py.seed := Some 42;
     train_py.batch_level_subsampling := batch_level;
     train_py.tensorboard := train_py.tensorboard a;
     train_py.neptune_api_token := train_py.neptune_api_token a;
     train_py.neptune_project := train_py.neptune_project a;
     train_py.log_messages := train_py.log_messages a;
     train_py.nb_stacks := train_py.nb_stacks a;
     train_py.with_y_hist := train_py.with_y_hist a;
     train_py.x_suffix := train_py.x_suffix a; train_py.balance := bal;
     train_py.version_data := train_py.version_data a;
     train_py._qt_progress := train_py._qt_progress a |}.

(** The small dataset without a single attribute. *)
Definition bare_dataset : Dataset :=
  {| d_train := d_train (demo_dataset 4096 ∅); d_val := d_val (demo_dataset 4096 ∅);
     d_test := d_test (demo_dataset 4096 ∅); d_attrs := ∅ |}.

(** The world of [demo_env] around another dataset. *)
Definition env_of (d : Dataset) : Env :=
  let e := demo_env false 4096 ∅ in
  {| layers := layers e;
     io_load := fun _ _ _ => Ok d;
     hash_data := hash_data e;
     sub_range := sub_range e;
     AudioSequence := AudioSequence e;
     compute_class_weight := compute_class_weight e;
     strftime := strftime e;
     makedirs := makedirs e;
     params_suffix := params_suffix e;
     run_epoch := run_epoch e;
     callback_train_begin := callback_train_begin e;
     callback_epoch_begin := callback_epoch_begin e;
     callback_epoch_end := callback_epoch_end e;
     callback_train_end := callback_train_end e;
     HAS_NEPTUNE := HAS_NEPTUNE e;
     Poseidon := Poseidon e;
     poseidon_callback := poseidon_callback e;
     log_test_results := log_test_results e;
     evaluate_probabilities := evaluate_probabilities e;
     labels_from_probabilities := labels_from_probabilities e;
     evaluate_segments := evaluate_segments e |}.

(** * Further properties of the builders *)

(** ** How a call binds its keywords *)

Lemma zip_names_sub (names : list string) (args : list pyval) n :
  In n (map fst (zip names args)) -> n ∈ names.
Proof.
  revert args. induction names as [|n0 names IH]; intros [|v args]; cbn; try done.
  intros [<-|Hin]; [by left |]. right. by eapply IH.
Qed.

Lemma existsb_has_key_insert (m : gmap string pyval) k v (l : list string) :
  ~ In k l -> existsb (has_key (<[k:=v]> m)) l = existsb (has_key m) l.
Proof.
  induction l as [|n l IH]; intros Hk; [done |]. cbn [existsb].
  rewrite IH by (intros Hin; apply Hk; by right).
  unfold has_key at 1 3. rewrite lookup_insert_ne; [done |].
  intros ->. apply Hk. by left.
Qed.

(** A keyword that names no parameter changes neither the outcome of the
    binding nor the value of any parameter. *)
Lemma bind_signature_insert names args kwargs k v :
  k ∉ names ->
  match models.bind_signature names args kwargs with
  | Ok b => exists b', models.bind_signature names args (<[k:=v]> kwargs) = Ok b' /\
                       forall n, n <> k -> b' !! n = b !! n
  | Raise e => models.bind_signature names args (<[k:=v]> kwargs) = Raise e
  end.
Proof.
  intros Hk. unfold models.bind_signature.
  destruct (_ <? _)%nat; [done |].
  rewrite existsb_has_key_insert by (intros Hin; by apply Hk, (zip_names_sub _ args)).
  destruct (existsb _ _); [done |].
  eexists. split; [done |]. intros n Hn.
  by rewrite !lookup_union, lookup_insert_ne.
Qed.

(** The typed arguments read the bound dictionary at the names of the
    signature only. *)
Lemma typed_args_ext b b' :
  (forall k, k ∈ models.tcn_stft_params -> b !! k = b' !! k) ->
  models.typed_args b = models.typed_args b'.
Proof.
  intros H. unfold models.typed_args, models.arg_required, models.arg.
  rewrite !H by string_in. reflexivity.
Qed.

Lemma drop_ignored_other names b k :
  k ∉ names -> models.drop_ignored names b !! k = None.
Proof.
  intros Hk. unfold models.drop_ignored. apply map_lookup_filter_None.
  right. intros v _ Hin. cbn in Hin. by apply bool_decide_unpack in Hin.
Qed.

Lemma drop_ignored_ext names b b' :
  (forall k, k ∈ names -> b !! k = b' !! k) ->
  forall k, models.drop_ignored names b !! k = models.drop_ignored names b' !! k.
Proof.
  intros H k. destruct (decide (k ∈ names)) as [Hk|Hk].
  - by rewrite !drop_ignored_param, H.
  - by rewrite !drop_ignored_other.
Qed.

(** X1.  The builders ignore the keywords that name none of their
    parameters ([**kwignored]): adding such a keyword to a call changes
    neither the model built nor the error raised.  This holds for [tcn_stft]
    and [tcn] on every key outside the signature of [tcn_stft], and for
    [tcn_tcn] on every key outside its own, which has no [pre_nb_dft] and no
    [nb_lstm_units]. *)
Theorem unknown_keywords_are_ignored (lib : Layers) k v args kwargs :
  (k ∉ models.tcn_stft_params ->
   models.tcn_stft lib args (<[k:=v]> kwargs) = models.tcn_stft lib args kwargs /\
   models.tcn lib args (<[k:=v]> kwargs) = models.tcn lib args kwargs) /\
  (k ∉ models.tcn_tcn_params ->
   models.tcn_tcn lib args (<[k:=v]> kwargs) = models.tcn_tcn lib args kwargs).
Proof.
  split.
  - intros Hk.
    assert (models.tcn_stft lib args (<[k:=v]> kwargs) = models.tcn_stft lib args kwargs)
      as Heq; [|by split].
    unfold models.tcn_stft.
    pose proof (bind_signature_insert models.tcn_stft_params args kwargs k v Hk) as Hb.
    destruct (models.bind_signature _ args kwargs) as [b|e].
    + destruct Hb as (b' & -> & Hb). cbn [mbind outcome_bind obind].
      rewrite (typed_args_ext b' b); [done |].
      intros n Hn. apply Hb. by intros ->.
    + by rewrite Hb.
  - intros Hk. unfold models.tcn_tcn.
    pose proof (bind_signature_insert models.tcn_tcn_params args kwargs k v Hk) as Hb.
    destruct (models.bind_signature _ args kwargs) as [b|e].
    + destruct Hb as (b' & -> & Hb). cbn [mbind outcome_bind obind].
      rewrite (typed_args_ext (models.drop_ignored models.tcn_tcn_params b')
                 (models.drop_ignored models.tcn_tcn_params b)); [done |].
      intros n _. apply drop_ignored_ext. intros n' Hn'. apply Hb. by intros ->.
    + by rewrite Hb.
Qed.

(** [tcn_tcn] is indifferent to [nb_lstm_units], [tcn_stft] to the
    [pre_nb_filters] that [train] hands over. *)
Lemma unknown_keywords_are_ignored_witness :
  models.tcn_tcn spec_layers [] (<["nb_lstm_units" := VInt 8]> short_chunk_kwargs)
  = models.tcn_tcn spec_layers [] short_chunk_kwargs /\
  models.tcn_stft spec_layers [] (<["pre_nb_filters" := VInt 32]> demo_kwargs)
  = models.tcn_stft spec_layers [] demo_kwargs.
Proof.
  split.
  - apply (proj2 (unknown_keywords_are_ignored spec_layers "nb_lstm_units" (VInt 8) []
                    short_chunk_kwargs)).
    apply (bool_decide_unpack _). vm_compute. exact I.
  - apply (proj1 (unknown_keywords_are_ignored spec_layers "pre_nb_filters" (VInt 32) []
                    demo_kwargs)).
    apply (bool_decide_unpack _). vm_compute. exact I.
Defined.

(** ** Required arguments *)

Lemma bind_signature_first n0 names args kwargs b :
  models.bind_signature (n0 :: names) args kwargs = Ok b ->
  b !! n0 = passed n0 0 args kwargs.
Proof.
  unfold models.bind_signature, passed.
  destruct (_ <? _)%nat; [discriminate |].
  destruct (existsb _ _); [discriminate |].
  intros [= <-].
  destruct args as [|a0 rest]; cbn [zip_with nth_error];
    rewrite ?list_to_map_cons, ?list_to_map_nil.
  - by rewrite (left_id_L ∅ (∪)).
  - rewrite lookup_union, lookup_insert_eq. by destruct (kwargs !! n0).
Qed.

Lemma bind_signature_error names args kwargs e :
  models.bind_signature names args kwargs = Raise e -> exists msg, e = TypeError msg.
Proof.
  unfold models.bind_signature.
  destruct (_ <? _)%nat; [intros [= <-]; by eexists |].
  destruct (existsb _ _); [intros [= <-]; by eexists | discriminate].
Qed.

Lemma typed_args_required b :
  b !! "nb_freq" = None \/ b !! "nb_classes" = None ->
  exists msg, models.typed_args b = Raise (TypeError msg).
Proof.
  unfold models.typed_args, models.arg_required.
  intros [H|H].
  - rewrite H. by eexists.
  - rewrite H. destruct (b !! "nb_freq") as [[]|]; by eexists.
Qed.

(** X2.  [nb_freq] and [nb_classes] have no default: a call of a
    registered builder that gives one of them neither by position nor by
    keyword raises a TypeError, and builds nothing. *)
Theorem required_arguments (lib : Layers) name f args kwargs :
  models.model_dict lib !! name = Some f ->
  passed "nb_freq" 0 args kwargs = None \/ passed "nb_classes" 1 args kwargs = None ->
  exists msg, models.__call__ f args kwargs = Raise (TypeError msg).
Proof.
  intros Hf Hmissing.
  assert (forall names b,
             models.bind_signature ("nb_freq" :: "nb_classes" :: names) args kwargs = Ok b ->
             b !! "nb_freq" = None \/ b !! "nb_classes" = None) as Hb.
  { intros names b Hbind.
    rewrite (bind_signature_first _ _ _ _ _ Hbind).
    rewrite (bind_signature_second "nb_freq" "nb_classes" _ _ _ _ ltac:(done) Hbind).
    exact Hmissing. }
  destruct (model_dict_inv _ _ _ Hf) as [_ [-> | [-> | ->]]]; cbn [models.__call__];
    unfold models.tcn, models.tcn_stft, models.tcn_tcn.
  - destruct (models.bind_signature _ args kwargs) as [b|e] eqn:Hbind.
    + apply Hb in Hbind. cbn [mbind outcome_bind obind].
      destruct (typed_args_required b Hbind) as [msg ->]. by exists msg.
    + apply bind_signature_error in Hbind as [msg ->]. by exists msg.
  - destruct (models.bind_signature _ args kwargs) as [b|e] eqn:Hbind.
    + apply Hb in Hbind. cbn [mbind outcome_bind obind].
      destruct (typed_args_required b Hbind) as [msg ->]. by exists msg.
    + apply bind_signature_error in Hbind as [msg ->]. by exists msg.
  - destruct (models.bind_signature _ args kwargs) as [b|e] eqn:Hbind.
    + apply Hb in Hbind. cbn [mbind outcome_bind obind].
      destruct (typed_args_required (models.drop_ignored models.tcn_tcn_params b))
        as [msg ->]; [|by exists msg].
      rewrite !drop_ignored_param by string_in. exact Hbind.
    + apply bind_signature_error in Hbind as [msg ->]. by exists msg.
Qed.

(** [tcn_tcn(1, nb_hist=64)]: the number of classes is missing. *)
Lemma required_arguments_witness :
  exists msg,
    models.tcn_tcn spec_layers [VInt 1] {["nb_hist" := VInt 64]} = Raise (TypeError msg).
Proof.
  apply (required_arguments spec_layers "tcn_tcn"
           {| models.__name__ := "tcn_tcn"; models.__call__ := models.tcn_tcn spec_layers |}
           [VInt 1] {["nb_hist" := VInt 64]}).
  - reflexivity.
  - right. vm_compute. reflexivity.
Defined.

(** ** The layers of a built model *)

Definition is_lstm (l : layer) : bool :=
  match l with
  | Bidirectional_LSTM _ => true
  | _ => false
  end.

Definition is_tcn (l : layer) : bool :=
  match l with
  | TCN _ => true
  | _ => false
  end.

(** The layers of a model, in the order they were called. *)
Definition layer_list (m : Model) : list layer := map fst (model_layers m).

Definition dilations_used (a : models.builder_args) : list Z :=
  match models.dilations a with
  | None => [1; 2; 4; 8; 16]
  | Some d => d
  end.

Lemma call_layer_layers lib l t t' :
  call_layer lib l t = Ok t' ->
  map fst (t_history t') = (map fst (t_history t) ++ [l])%list.
Proof.
  intros H. apply call_layer_ok in H as (s & _ & ->). cbn [t_history].
  by rewrite map_app.
Qed.

Lemma optional_layer_layers lib (c : bool) l t t' :
  (if c then call_layer lib l t else Ok t) = Ok t' ->
  map fst (t_history t') = (map fst (t_history t) ++ (if c then [l] else []))%list.
Proof.
  destruct c; [apply call_layer_layers |]. intros [= <-]. by rewrite app_nil_r.
Qed.

Lemma has_layer_layers p m : has_layer p m = existsb p (layer_list m).
Proof.
  unfold has_layer, layer_list. induction (model_layers m) as [|ls l IH]; [done |].
  cbn. by rewrite IH.
Qed.

(** What [tcn_tcn] stacks up: the input, with [nb_pre_conv > 0] a TCN named
    'frontend' and a pooling, the TCN, the dense head with its softmax, and
    with [nb_pre_conv > 0] and [upsample] an upsampling. *)
Lemma tcn_tcn_body_layers lib a m :
  models.tcn_tcn_body lib a = Ok m ->
  layer_list m =
  (InputLayer [models.nb_hist a; models.nb_freq a]
   :: (if 0 <? models.nb_pre_conv a
       then [TCN (models.main_tcn a (dilations_used a) (models.nb_pre_conv a)
                    (Some "frontend"));
             MaxPooling1D (2 ^ models.nb_pre_conv a) (2 ^ models.nb_pre_conv a)]
       else [])
   ++ [TCN (models.main_tcn a (dilations_used a) (models.nb_conv a) None);
       Dense (models.nb_classes a); Activation "softmax"]
   ++ (if (0 <? models.nb_pre_conv a) && models.upsample a
       then [UpSampling1D (2 ^ models.nb_pre_conv a)]
       else []))%list.
Proof.
  unfold models.tcn_tcn_body. intros H. do 5 inv_ok H. injection H as <-.
  unfold layer_list, model_layers, models.compile, keras_Model. cbn [m_outputs].
  apply optional_layer_layers in Hv3. apply call_layer_layers in Hv2, Hv1, Hv0.
  rewrite Hv3, Hv2, Hv1, Hv0.
  assert (map fst (t_history v)
          = InputLayer [models.nb_hist a; models.nb_freq a]
            :: (if 0 <? models.nb_pre_conv a
                then [TCN (models.main_tcn a (dilations_used a) (models.nb_pre_conv a)
                             (Some "frontend"));
                      MaxPooling1D (2 ^ models.nb_pre_conv a) (2 ^ models.nb_pre_conv a)]
                else [])) as ->.
  { destruct (0 <? models.nb_pre_conv a).
    - inv_ok Hv. apply call_layer_layers in Hv, Hv4. by rewrite Hv, Hv4.
    - by injection Hv as <-. }
  rewrite <- !app_assoc. reflexivity.
Qed.

(** What [tcn_stft] stacks up: the input, with [nb_pre_conv > 0] the
    spectrogram and a reshape, the TCN, with [nb_lstm_units > 0] a
    bidirectional LSTM, the dense head with its softmax, and with
    [nb_pre_conv > 0] and [upsample] an upsampling. *)
Lemma tcn_stft_body_layers lib a m :
  models.tcn_stft_body lib a = Ok m ->
  exists frontend,
    layer_list m =
    (InputLayer [models.nb_hist a; models.nb_freq a]
     :: frontend
     ++ [TCN (models.main_tcn a (dilations_used a) (models.nb_conv a) None)]
     ++ (if 0 <? models.nb_lstm_units a
         then [Bidirectional_LSTM (models.nb_lstm_units a)]
         else [])
     ++ [Dense (models.nb_classes a); Activation "softmax"]
     ++ (if (0 <? models.nb_pre_conv a) && models.upsample a
         then [UpSampling1D (2 ^ models.nb_pre_conv a)]
         else []))%list /\
    if 0 <? models.nb_pre_conv a
    then exists d1 d23,
        frontend = [Spectrogram (models.pre_nb_dft a) (2 ^ models.nb_pre_conv a);
                    Reshape [d1; d23]]
    else frontend = [].
Proof.
  unfold models.tcn_stft_body. intros H. do 6 inv_ok H. injection H as <-.
  unfold layer_list, model_layers, models.compile, keras_Model. cbn [m_outputs].
  apply optional_layer_layers in Hv4, Hv1. apply call_layer_layers in Hv3, Hv2, Hv0.
  rewrite Hv4, Hv3, Hv2, Hv1, Hv0.
  assert (exists frontend,
             map fst (t_history v)
             = InputLayer [models.nb_hist a; models.nb_freq a] :: frontend /\
             if 0 <? models.nb_pre_conv a
             then exists d1 d23,
                 frontend = [Spectrogram (models.pre_nb_dft a) (2 ^ models.nb_pre_conv a);
                             Reshape [d1; d23]]
             else frontend = []) as (frontend & -> & Hfrontend).
  { destruct (0 <? models.nb_pre_conv a).
    - do 5 inv_ok Hv. apply call_layer_layers in Hv, Hv5. rewrite Hv, Hv5.
      eexists. split; [reflexivity |]. by eexists _, _.
    - injection Hv as <-. by exists []. }
  exists frontend. split; [|done]. rewrite <- !app_assoc. reflexivity.
Qed.

(** The typed arguments, parameter by parameter. *)
Lemma typed_args_inv b a :
  models.typed_args b = Ok a ->
  models.arg b "nb_hist" models.as_int 1 = Ok (models.nb_hist a) /\
  models.arg b "nb_filters" models.as_int 16 = Ok (models.nb_filters a) /\
  models.arg b "kernel_size" models.as_int 3 = Ok (models.kernel_size a) /\
  models.arg b "nb_conv" models.as_int 1 = Ok (models.nb_conv a) /\
  models.arg b "loss" models.as_str "categorical_crossentropy" = Ok (models.loss a) /\
  models.arg b "dilations" models.as_opt_int_list None = Ok (models.dilations a) /\
  models.arg b "activation" models.as_str "norm_relu" = Ok (models.activation a) /\
  models.arg b "use_skip_connections" models.as_bool true
  = Ok (models.use_skip_connections a) /\
  models.arg b "return_sequences" models.as_bool true = Ok (models.return_sequences a) /\
  models.arg b "dropout_rate" models.as_float 0%Q = Ok (models.dropout_rate a) /\
  models.arg b "padding" models.as_str "same" = Ok (models.padding a) /\
  models.arg b "sample_weight_mode" models.as_opt_str None
  = Ok (models.sample_weight_mode a) /\
  models.arg b "nb_pre_conv" models.as_int 0 = Ok (models.nb_pre_conv a) /\
  models.arg b "pre_nb_dft" models.as_int 64 = Ok (models.pre_nb_dft a) /\
  models.arg b "nb_lstm_units" models.as_int 0 = Ok (models.nb_lstm_units a) /\
  models.arg b "upsample" models.as_bool true = Ok (models.upsample a) /\
  models.arg b "use_separable" models.as_any (VBool false) = Ok (models.use_separable a).
Proof.
  unfold models.typed_args. intros H. do 20 inv_ok H. injection H as <-.
  cbn [models.nb_hist models.nb_filters models.kernel_size models.nb_conv models.loss
       models.dilations models.activation models.use_skip_connections
       models.return_sequences models.dropout_rate models.padding
       models.sample_weight_mode models.nb_pre_conv models.pre_nb_dft
       models.nb_lstm_units models.upsample models.use_separable].
  repeat (split; [assumption |]). assumption.
Qed.

Lemma arg_as_int b k d z :
  models.arg b k models.as_int d = Ok z ->
  match b !! k with
  | None => z = d
  | Some (VInt n) => z = n
  | Some _ => False
  end.
Proof.
  unfold models.arg. destruct (b !! k) as [[]|]; cbn; intros H; try discriminate H;
    by injection H as <-.
Qed.

(** X3.  Only [tcn_stft] knows the recurrent layer: the model it builds
    has a bidirectional LSTM exactly when [nb_lstm_units > 0], and a model
    built by [tcn_tcn] never has one, whatever [nb_lstm_units] the call
    carries. *)
Theorem lstm_only_in_tcn_stft (lib : Layers) :
  (forall a m, models.tcn_stft_body lib a = Ok m ->
               has_layer is_lstm m = (0 <? models.nb_lstm_units a)) /\
  (forall kwargs m,
      models.tcn_stft lib [] kwargs = Ok m ->
      has_layer is_lstm m = match kwargs !! "nb_lstm_units" with
                            | Some (VInt n) => 0 <? n
                            | _ => false
                            end) /\
  (forall a m, models.tcn_tcn_body lib a = Ok m -> has_layer is_lstm m = false) /\
  (forall args kwargs m, models.tcn_tcn lib args kwargs = Ok m ->
                         has_layer is_lstm m = false).
Proof.
  assert (forall a m, models.tcn_stft_body lib a = Ok m ->
                      has_layer is_lstm m = (0 <? models.nb_lstm_units a)) as Hstft.
  { intros a m H. apply tcn_stft_body_layers in H as (frontend & Hl & Hfrontend).
    rewrite has_layer_layers, Hl. cbn [existsb is_lstm orb]. rewrite !existsb_app.
    assert (existsb is_lstm frontend = false) as ->.
    { destruct (0 <? models.nb_pre_conv a); [|by subst frontend].
      by destruct Hfrontend as (d1 & d23 & ->). }
    destruct (0 <? models.nb_lstm_units a), ((0 <? models.nb_pre_conv a) && models.upsample a);
      reflexivity. }
  assert (forall a m, models.tcn_tcn_body lib a = Ok m -> has_layer is_lstm m = false)
    as Htcn.
  { intros a m H. apply tcn_tcn_body_layers in H.
    rewrite has_layer_layers, H. cbn [existsb is_lstm orb]. rewrite !existsb_app.
    destruct (0 <? models.nb_pre_conv a), (models.upsample a); reflexivity. }
  split; [exact Hstft |]. split; [|split; [exact Htcn |]].
  - intros kwargs m H. unfold models.tcn_stft in H. inv_ok H. inv_ok H.
    apply bind_signature_keywords in Hv as ->.
    rewrite (Hstft _ _ H).
    destruct (typed_args_inv _ _ Hv0) as (_ & _ & _ & _ & _ & _ & _ & _ & _ & _ & _ & _ & _
                                          & _ & Hunits & _).
    apply arg_as_int in Hunits.
    destruct (kwargs !! "nb_lstm_units") as [[]|]; try done; by rewrite Hunits.
  - intros args kwargs m H. unfold models.tcn_tcn in H. inv_ok H. inv_ok H.
    by eapply Htcn.
Qed.

Lemma lstm_only_in_tcn_stft_witness :
  (exists m, models.tcn_stft spec_layers [] demo_kwargs = Ok m /\
             has_layer is_lstm m = true) /\
  (exists m, models.tcn_tcn spec_layers [] demo_kwargs = Ok m /\
             has_layer is_lstm m = false).
Proof.
  destruct (lstm_only_in_tcn_stft spec_layers) as (_ & Hstft & _ & Htcn).
  split.
  - destruct (models.tcn_stft spec_layers [] demo_kwargs) as [m|e] eqn:E;
      [|vm_compute in E; discriminate E].
    exists m. split; [reflexivity |]. by rewrite (Hstft _ _ E).
  - destruct (models.tcn_tcn spec_layers [] demo_kwargs) as [m|e] eqn:E;
      [|vm_compute in E; discriminate E].
    exists m. split; [reflexivity |]. exact (Htcn _ _ _ E).
Defined.

(** ** The two builders without a frontend *)

Lemma obind_ext {A B} (o : outcome A) (f g : A -> outcome B) :
  (forall x, f x = g x) -> obind o f = obind o g.
Proof. intros H. destruct o; [apply H | done]. Qed.

Lemma obind_assoc {A B C} (o : outcome A) (f : A -> outcome B) (g : B -> outcome C) :
  obind (obind o f) g = obind o (fun x => obind (f x) g).
Proof. by destruct o. Qed.

Lemma obind_cong {A B C} (o : outcome A) (f f' : A -> outcome B)
    (h h' : B -> outcome C) :
  (forall x, obind (f x) h = obind (f' x) h') ->
  obind (obind o f) h = obind (obind o f') h'.
Proof. intros H. destruct o; [apply H | done]. Qed.

Lemma bind_signature_nil names kwargs :
  models.bind_signature names [] kwargs = Ok kwargs.
Proof.
  unfold models.bind_signature.
  assert (zip names ([] : list pyval) = []) as -> by (by destruct names).
  cbn [length Nat.ltb Nat.leb map existsb]. rewrite list_to_map_nil.
  by rewrite (left_id_L ∅ (∪)).
Qed.

Lemma arg_required_drop names b k :
  k ∈ names ->
  models.arg_required (models.drop_ignored names b) k = models.arg_required b k.
Proof. intros. unfold models.arg_required. by rewrite drop_ignored_param. Qed.

Lemma arg_drop_param {A} names b k (conv : string -> pyval -> outcome A) d :
  k ∈ names -> models.arg (models.drop_ignored names b) k conv d = models.arg b k conv d.
Proof. intros. unfold models.arg. by rewrite drop_ignored_param. Qed.

Lemma arg_drop_other {A} names b k (conv : string -> pyval -> outcome A) d :
  k ∉ names -> models.arg (models.drop_ignored names b) k conv d = Ok d.
Proof. intros. unfold models.arg. by rewrite drop_ignored_other. Qed.

Lemma bodies_agree lib a a' :
  models.nb_pre_conv a <= 0 ->
  models.nb_lstm_units a <= 0 ->
  a' = {| models.nb_freq := models.nb_freq a; models.nb_classes := models.nb_classes a;
          models.nb_hist := models.nb_hist a; models.nb_filters := models.nb_filters a;
          models.kernel_size := models.kernel_size a; models.nb_conv := models.nb_conv a;
          models.loss := models.loss a; models.dilations := models.dilations a;
          models.activation := models.activation a;
          models.use_skip_connections := models.use_skip_connections a;
          models.return_sequences := models.return_sequences a;
          models.dropout_rate := models.dropout_rate a; models.padding := models.padding a;
          models.sample_weight_mode := models.sample_weight_mode a;
          models.nb_pre_conv := models.nb_pre_conv a;
          models.pre_nb_dft := models.pre_nb_dft a';
          models.nb_lstm_units := models.nb_lstm_units a';
          models.learning_rate := models.learning_rate a;
          models.upsample := models.upsample a;
          models.use_separable := models.use_separable a |} ->
  models.tcn_tcn_body lib a' = models.tcn_stft_body lib a.
Proof.
  intros Hpre Hlstm ->. unfold models.tcn_tcn_body, models.tcn_stft_body.
  cbn [models.nb_freq models.nb_classes models.nb_hist models.nb_filters
       models.kernel_size models.nb_conv models.loss models.dilations models.activation
       models.use_skip_connections models.return_sequences models.dropout_rate
       models.padding models.sample_weight_mode models.nb_pre_conv models.learning_rate
       models.upsample models.use_separable].
  apply Z.ltb_ge in Hpre, Hlstm. rewrite Hpre, Hlstm. reflexivity.
Qed.

(** X4.  Without a frontend and without a recurrent layer the two
    architectures are one: a keyword call with [nb_pre_conv] absent or at
    most 0, [nb_lstm_units] absent or at most 0 and [pre_nb_dft] absent or
    an int gives the same model, or the same error, from [tcn_tcn] as from
    [tcn_stft] and [tcn]. *)
Theorem builders_agree_without_frontend (lib : Layers) kwargs :
  match kwargs !! "nb_pre_conv" with
  | None => True
  | Some (VInt n) => n <= 0
  | Some _ => False
  end ->
  match kwargs !! "nb_lstm_units" with
  | None => True
  | Some (VInt n) => n <= 0
  | Some _ => False
  end ->
  match kwargs !! "pre_nb_dft" with
  | None | Some (VInt _) => True
  | Some _ => False
  end ->
  models.tcn_tcn lib [] kwargs = models.tcn_stft lib [] kwargs /\
  models.tcn_tcn lib [] kwargs = models.tcn lib [] kwargs.
Proof.
  intros Hpre Hlstm Hdft.
  assert (models.tcn_tcn lib [] kwargs = models.tcn_stft lib [] kwargs) as Heq;
    [|split; [exact Heq | exact Heq]].
  assert (exists pre, models.arg kwargs "nb_pre_conv" models.as_int 0 = Ok pre /\ pre <= 0)
    as (pre & Epre & Hpre').
  { unfold models.arg. destruct (kwargs !! "nb_pre_conv") as [[| |n| | |]|];
      try contradiction; eexists; (split; [reflexivity | lia]). }
  assert (exists units,
             models.arg kwargs "nb_lstm_units" models.as_int 0 = Ok units /\ units <= 0)
    as (units & Eunits & Hunits').
  { unfold models.arg. destruct (kwargs !! "nb_lstm_units") as [[| |n| | |]|];
      try contradiction; eexists; (split; [reflexivity | lia]). }
  assert (exists dft, models.arg kwargs "pre_nb_dft" models.as_int 64 = Ok dft)
    as (dft & Edft).
  { unfold models.arg. destruct (kwargs !! "pre_nb_dft") as [[| |n| | |]|];
      try contradiction; eexists; reflexivity. }
  clear Hpre Hlstm Hdft.
  unfold models.tcn_tcn, models.tcn_stft.
  rewrite !bind_signature_nil. unfold mbind, outcome_bind. cbn [obind].
  unfold models.typed_args. unfold mbind, outcome_bind.
  rewrite !(arg_required_drop models.tcn_tcn_params) by string_in.
  repeat match goal with
         | |- context [models.arg (models.drop_ignored ?names ?b) ?k ?conv ?d] =>
             first [ rewrite (arg_drop_param names b k conv d) by string_in
                   | rewrite (arg_drop_other names b k conv d) by string_in ]
         end.
  rewrite Epre, Eunits, Edft.
  do 14 (apply obind_cong; intros ?). cbn [obind].
  do 3 (apply obind_cong; intros ?). cbn [obind].
  apply bodies_agree; [exact Hpre' | exact Hunits' | reflexivity].
Qed.

(** [f(nb_freq=1, nb_classes=2, nb_hist=64, nb_pre_conv=0)] *)
Definition plain_kwargs : gmap string pyval :=
  list_to_map [("nb_freq", VInt 1); ("nb_classes", VInt 2); ("nb_hist", VInt 64);
               ("nb_pre_conv", VInt 0)].

Lemma builders_agree_without_frontend_witness :
  models.tcn_tcn spec_layers [] plain_kwargs = models.tcn_stft spec_layers [] plain_kwargs.
Proof.
  apply (builders_agree_without_frontend spec_layers plain_kwargs).
  - vm_compute. discriminate.
  - vm_compute. exact I.
  - vm_compute. exact I.
Defined.

(** * Further properties of [train] *)

(** ** The windows of the data (lines 140-173) *)

Lemma py_round_half n :
  py_round (inject_Z n / 2) =
  if Z.even n then n / 2 else if Z.even (n / 2) then n / 2 else n / 2 + 1.
Proof.
  unfold py_round.
  assert (Qfloor (inject_Z n / 2) = n / 2) as ->.
  { unfold Qdiv, Qmult, Qinv, inject_Z. cbn.
    change (Z.pos (1 * 2)) with 2. by rewrite Z.mul_1_r. }
  unfold Qcompare, Qminus, Qplus, Qopp, Qdiv, Qmult, Qinv, inject_Z.
  cbn [Qnum Qden Z.opp]. cbn.
  change (Z.pos (1 * 2 * 1)) with 2. change (Z.pos (1 * 2)) with 2.
  pose proof (Z.div_mod n 2 ltac:(lia)) as Hdm.
  pose proof (Z.mod_pos_bound n 2 ltac:(lia)) as Hbound.
  rewrite (Zeven_mod n).
  match goal with
  | |- context [?x ?= ?y] => destruct (Z.compare_spec x y) as [Hc|Hc|Hc]
  end; destruct (Z.eqb_spec (n mod 2) 0) as [H0|H0]; try reflexivity; exfalso; lia.
Qed.

(** X5.  In classification mode the target is taken half a chunk into the
    window, [round(nb_hist / 2)] with Python's rounding of ties to the even
    integer: half of an even [nb_hist]; for an odd [nb_hist] the even one of
    its two neighbours (2 for 5 samples, 4 for 7).  In regression mode the
    offset is 0.  The windows never pad the data in classification mode. *)
Theorem y_offset_rounds_half_to_even a :
  (train_py.with_y_hist a = true -> train_py.y_offset (train_py.windowing a) = 0) /\
  (train_py.with_y_hist a = false ->
   train_py.data_padding (train_py.windowing a) = 0 /\
   (Z.even (train_py.nb_hist a) = true ->
    2 * train_py.y_offset (train_py.windowing a) = train_py.nb_hist a) /\
   (Z.even (train_py.nb_hist a) = false ->
    Z.even (train_py.y_offset (train_py.windowing a)) = true /\
    (2 * train_py.y_offset (train_py.windowing a) = train_py.nb_hist a - 1 \/
     2 * train_py.y_offset (train_py.windowing a) = train_py.nb_hist a + 1))).
Proof.
  split; intros Hy; unfold train_py.windowing; rewrite Hy.
  - by destruct (train_py.ignore_boundaries a).
  - cbn [train_py.data_padding train_py.y_offset]. split; [done |].
    rewrite py_round_half.
    pose proof (Z.div_mod (train_py.nb_hist a) 2 ltac:(lia)) as Hdm.
    pose proof (Z.mod_pos_bound (train_py.nb_hist a) 2 ltac:(lia)) as Hbound.
    split; intros He; rewrite He.
    + rewrite Zeven_mod in He. apply Z.eqb_eq in He. lia.
    + assert (train_py.nb_hist a mod 2 = 1) as Hodd.
      { rewrite Zeven_mod in He. apply Z.eqb_neq in He. lia. }
      destruct (Z.even (train_py.nb_hist a / 2)) eqn:Hh.
      * split; [done |]. left. lia.
      * split; [|right; lia].
        rewrite Z.even_add, Hh. reflexivity.
Qed.

Lemma y_offset_rounds_half_to_even_witness :
  train_py.y_offset (train_py.windowing (custom_args "tcn" 5 false None None None)) = 2 /\
  train_py.y_offset (train_py.windowing (custom_args "tcn" 7 false None None None)) = 4 /\
  train_py.y_offset (train_py.windowing (custom_args "tcn" 64 true None None None)) = 0.
Proof.
  destruct (y_offset_rounds_half_to_even (custom_args "tcn" 5 false None None None))
    as [_ H5].
  destruct (y_offset_rounds_half_to_even (custom_args "tcn" 7 false None None None))
    as [_ H7].
  destruct (y_offset_rounds_half_to_even (custom_args "tcn" 64 true None None None))
    as [H64 _].
  destruct (H5 eq_refl) as (_ & _ & H5').
  destruct (H7 eq_refl) as (_ & _ & H7').
  destruct (H5' eq_refl) as [He5 Hv5]. destruct (H7' eq_refl) as [He7 Hv7].
  change (train_py.nb_hist (custom_args "tcn" 5 false None None None)) with 5 in Hv5.
  change (train_py.nb_hist (custom_args "tcn" 7 false None None None)) with 7 in Hv7.
  split; [|split; [|exact (H64 eq_refl)]].
  - destruct Hv5 as [Hv5|Hv5]; [lia |].
    exfalso. rewrite (ltac:(lia) : train_py.y_offset
                        (train_py.windowing (custom_args "tcn" 5 false None None None)) = 3)
      in He5. discriminate He5.
  - destruct Hv7 as [Hv7|Hv7]; [|lia].
    exfalso. rewrite (ltac:(lia) : train_py.y_offset
                        (train_py.windowing (custom_args "tcn" 7 false None None None)) = 3)
      in He7. discriminate He7.
Defined.

(** ** Which calls are rejected *)

Section Rejected.
Context (env : Env) (a : train_py.train_args).

Lemma stride_value :
  train_py.stride (train_py.windowing a) =
  if train_py.with_y_hist a
  then train_py.nb_hist a - 2 * train_py.data_padding (train_py.windowing a)
  else 1.
Proof.
  unfold train_py.windowing.
  destruct (train_py.with_y_hist a); [|done].
  destruct (train_py.ignore_boundaries a); cbn [train_py.stride train_py.data_padding]; lia.
Qed.

Lemma data_padding_value :
  train_py.data_padding (train_py.windowing a) =
  if train_py.with_y_hist a && train_py.ignore_boundaries a
  then train_py.kernel_size a * train_py.nb_conv a
  else 0.
Proof.
  unfold train_py.windowing.
  destruct (train_py.with_y_hist a); [|done].
  destruct (train_py.ignore_boundaries a); cbn [train_py.data_padding andb]; [|done].
  apply np_ceil_int.
Qed.

(** X6.  [train] rejects a call, by the ValueError on the stride and
    before it touches the data, exactly in regression mode with a chunk no
    longer than the two margins it would discard: [nb_hist <=
    2*kernel_size*nb_conv] with [ignore_boundaries], [nb_hist <= 0]
    without.  Classification mode is never rejected.  In regression mode
    the stride and the two margins always add up to the chunk. *)
Theorem rejected_calls fs :
  (train_py.train env a fs = (Raise train_py.stride_error, fs, cfg_events a) <->
   train_py.with_y_hist a = true /\
   train_py.nb_hist a <= if train_py.ignore_boundaries a
                         then 2 * (train_py.kernel_size a * train_py.nb_conv a)
                         else 0) /\
  (train_py.with_y_hist a = true ->
   train_py.stride (train_py.windowing a)
   + 2 * train_py.data_padding (train_py.windowing a) = train_py.nb_hist a).
Proof.
  assert (train_py.stride (train_py.windowing a) <= 0 <->
          train_py.with_y_hist a = true /\
          train_py.nb_hist a <= if train_py.ignore_boundaries a
                                then 2 * (train_py.kernel_size a * train_py.nb_conv a)
                                else 0) as Hiff.
  { rewrite stride_value, data_padding_value.
    destruct (train_py.with_y_hist a), (train_py.ignore_boundaries a); cbn [andb];
      split; try (intros [? ?]); try split; try done; lia. }
  split.
  - rewrite <- Hiff. split.
    + intros H.
      destruct (Z_le_gt_dec (train_py.stride (train_py.windowing a)) 0) as [|Hs]; [done |].
      apply train_loads in H as (rest & H); [|lia].
      rewrite <- (app_nil_r (cfg_events a)) in H at 1.
      by apply app_inv_head in H.
    + apply train_rejected.
  - intros Hy. rewrite stride_value, Hy. lia.
Qed.

End Rejected.

(** ** The fraction of the data (lines 186-191) *)

Section Fraction.
Context (a : train_py.train_args) (d : Dataset).

(** X7.  A [fraction_data] of at most 1 is taken as it is, without a
    look at the dataset.  One above 1 is a duration in seconds: it is
    divided by the duration of the training data, which needs the
    attribute 'samplerate_x_Hz' (a KeyError without it), and capped at 1.
    So the fraction that selects the data never exceeds 1, and no file is
    touched. *)
Theorem fraction_is_capped fs r fs' evs :
  train_py.resolve_fraction a d fs = (r, fs', evs) ->
  fs' = fs /\
  (train_py.fraction_data a = None -> r = Ok None /\ evs = []) /\
  (forall f, train_py.fraction_data a = Some f ->
             (f <= 1)%Q -> r = Ok (Some f)) /\
  (forall f o,
      train_py.fraction_data a = Some f -> r = Ok o ->
      exists q, o = Some q /\ (q <= 1)%Q /\
                ((1 < f)%Q ->
                 exists n v sr,
                   shape_idx (sx (d_train d)) 0 = Ok n /\
                   d_attrs d !! "samplerate_x_Hz" = Some v /\
                   models.as_float "samplerate_x_Hz" v = Ok sr /\
                   q = if Qle_bool (f / (inject_Z n / sr)) 1
                       then (f / (inject_Z n / sr))%Q else 1%Q)) /\
  (forall f n,
      train_py.fraction_data a = Some f -> (1 < f)%Q ->
      shape_idx (sx (d_train d)) 0 = Ok n ->
      d_attrs d !! "samplerate_x_Hz" = None ->
      r = Raise (KeyError "samplerate_x_Hz")).
Proof.
  unfold train_py.resolve_fraction. intros H.
  destruct (train_py.fraction_data a) as [f|].
  2:{ apply ret_inv in H as (-> & -> & ->).
      split; [done |]. split; [done |]. split; [done |]. split; done. }
  destruct (Qltb 1 f) eqn:Hgt.
  - apply Qltb_true in Hgt.
    assert (forall f', Some f = Some f' -> (f' <= 1)%Q -> False) as Hno.
    { intros f' [= <-] Hle. by apply (Qlt_not_le _ _ Hgt). }
    rewrite bind_run in H. unfold lib_call at 1 in H.
    destruct (shape_idx (sx (d_train d)) 0) as [n|e] eqn:Hn.
    2:{ injection H as <- <- <-. split; [done |]. split; [done |].
        split; [intros; exfalso; eauto |]. split; [done |]. done. }
    cbn [app] in H. rewrite bind_run in H. unfold lib_call at 1 in H.
    unfold train_py.getitem in H.
    destruct (d_attrs d !! "samplerate_x_Hz") as [v|] eqn:Hv.
    2:{ cbn in H. injection H as <- <- <-. split; [done |]. split; [done |].
        split; [intros; exfalso; eauto |]. split; [done |].
        intros ? ? _ _ _ _. reflexivity. }
    cbn [mbind outcome_bind obind] in H.
    destruct (models.as_float "samplerate_x_Hz" v) as [sr|e] eqn:Hsr.
    2:{ injection H as <- <- <-. split; [done |]. split; [done |].
        split; [intros; exfalso; eauto |]. split; [done |]. done. }
    cbn [app] in H. rewrite bind_run in H. unfold lib_call at 1 in H.
    unfold py_div at 1 in H.
    destruct (Qeq_bool sr 0).
    { injection H as <- <- <-. split; [done |]. split; [done |].
      split; [intros; exfalso; eauto |]. split; [done |]. done. }
    cbn [app] in H. rewrite bind_run in H. unfold lib_call at 1 in H.
    unfold py_div at 1 in H.
    destruct (Qeq_bool (inject_Z n / sr) 0).
    { injection H as <- <- <-. split; [done |]. split; [done |].
      split; [intros; exfalso; eauto |]. split; [done |]. done. }
    cbn [app] in H. rewrite bind_run in H.
    unfold logging_info, emit at 1 in H. cbn [app mret M_ret] in H.
    injection H as <- <- <-.
    split; [done |]. split; [done |]. split; [intros; exfalso; eauto |]. split; [|done].
    intros f' o [= <-] [= <-]. eexists. split; [reflexivity |]. split.
    + destruct (Qle_bool _ 1) eqn:Hle; [by apply Qle_bool_iff | apply Qle_refl].
    + intros _. by exists n, v, sr.
  - apply Qltb_false in Hgt.
    assert (r = Ok (Some f) /\ fs' = fs) as [-> ->].
    { destruct (Qltb f 1).
      - rewrite bind_run in H. unfold logging_info, emit at 1 in H.
        cbn [app mret M_ret] in H. by injection H as <- <- <-.
      - by apply ret_inv in H as (-> & -> & ->). }
    split; [done |]. split; [done |]. split; [by intros ? [= <-] |]. split.
    + intros f' o [= <-] [= <-]. exists f. split; [done |]. split; [done |].
      intros Hlt. by destruct (Qlt_not_le _ _ Hlt).
    + intros f' n [= <-] Hlt. by destruct (Qlt_not_le _ _ Hlt).
Qed.

End Fraction.

(** Two seconds out of the half second of training data: all of it. *)
Lemma fraction_is_capped_witness :
  exists q,
    (train_py.resolve_fraction (tuned_args "tcn" 3 (Some 2%Q) false false)
       (demo_dataset 4096 ∅) ∅).1.1 = Ok (Some q) /\
    (q <= 1)%Q.
Proof.
  destruct (train_py.resolve_fraction (tuned_args "tcn" 3 (Some 2%Q) false false)
              (demo_dataset 4096 ∅) ∅) as [[r fs'] evs] eqn:E.
  destruct (fraction_is_capped _ _ _ _ _ _ E) as (_ & _ & _ & Hcap & _).
  assert (exists o, r = Ok o) as [o Ho].
  { vm_compute in E. injection E as <- _ _. by eexists. }
  destruct (Hcap 2%Q o eq_refl Ho) as (q & -> & Hq & _).
  exists q. split; [exact Ho | exact Hq].
Defined.

(** ** Every run, stage by stage *)

(** The names [locals()] holds at line 162. *)
Definition local_names : list string :=
  ["data_dir"; "y_suffix"; "save_dir"; "save_prefix"; "model_name"; "nb_filters";
   "kernel_size"; "nb_conv"; "use_separable"; "nb_hist"; "ignore_boundaries"; "batch_norm";
   "nb_pre_conv"; "pre_nb_dft"; "pre_kernel_size"; "pre_nb_filters"; "pre_nb_conv";
   "nb_lstm_units"; "verbose"; "batch_size"; "nb_epoch"; "learning_rate"; "reduce_lr";
   "reduce_lr_patience"; "fraction_data"; "seed"; "batch_level_subsampling"; "tensorboard";
   "neptune_api_token"; "neptune_project"; "log_messages"; "nb_stacks"; "with_y_hist";
   "x_suffix"; "balance"; "version_data"; "_qt_progress"; "sample_weight_mode";
   "data_padding"; "return_sequences"; "stride"; "y_offset"; "output_stride"].

Definition no_write (ev : event) : Prop :=
  match ev with
  | EvWrite _ => False
  | _ => True
  end.

Lemma sat_unchanged {A} (m : M A) (P : event -> Prop) (Q : A -> Prop) fs r fs' evs :
  sat m P Q -> (forall ev, P ev -> no_write ev) -> m fs = (r, fs', evs) -> fs' = fs.
Proof.
  intros Hm HP H. destruct (Hm _ _ _ _ H) as (Hev & Hfs & _).
  apply map_eq. intros p. apply Hfs. intros Hin.
  rewrite Forall_forall in Hev. by apply list_elem_of_In, Hev, HP in Hin.
Qed.

Section AnyRun.
Context (env : Env) (a : train_py.train_args).

Lemma cfg_params_lookup k :
  k <> "_qt_progress" -> k <> "learning_rate" -> k <> "unpack_channels" ->
  cfg_params a !! k = train_py.locals a (train_py.windowing a) 1 (cfg_prefix a) !! k.
Proof.
  intros H1 H2 H3. unfold cfg_params.
  destruct (is_substring _ _); [rewrite lookup_insert_ne by done |];
    destruct (delete "_qt_progress" _ !! "learning_rate") as [[]|];
    rewrite ?lookup_delete_ne by done; reflexivity.
Qed.

Lemma locals_other w o prefix k :
  k ∉ local_names -> train_py.locals a w o prefix !! k = None.
Proof.
  intros Hk. unfold train_py.locals. apply not_elem_of_list_to_map_1. exact Hk.
Qed.

Lemma cfg_params_other k :
  k ∉ local_names -> k <> "unpack_channels" -> cfg_params a !! k = None.
Proof.
  intros Hk Hu. rewrite cfg_params_lookup; [by apply locals_other | | | done].
  - intros ->. apply Hk. string_in.
  - intros ->. apply Hk. string_in.
Qed.

(** The stages a run went through, whatever its outcome. *)
Lemma train_inv fs r fs' evs :
  train_py.train env a fs = (r, fs', evs) ->
  (train_py.stride (train_py.windowing a) <= 0 /\
   r = Raise train_py.stride_error /\ fs' = fs /\ evs = cfg_events a) \/
  (0 < train_py.stride (train_py.windowing a) /\
   exists r1 fs1 ev1,
     train_py.prepare env a (cfg_params a) fs = (r1, fs1, ev1) /\
     match r1 with
     | Raise e => r = Raise e /\ fs' = fs1 /\ evs = (cfg_events a ++ ev1)%list
     | Ok p =>
         exists r2 fs2 ev2,
           train_py.build env a (cfg_prefix a) p fs1 = (r2, fs2, ev2) /\
           match r2 with
           | Raise e =>
               r = Raise e /\ fs' = fs2 /\ evs = (cfg_events a ++ ev1 ++ ev2)%list
           | Ok b =>
               exists r3 fs3 ev3,
                 train_py.train_network env a p b fs2 = (r3, fs3, ev3) /\
                 match r3 with
                 | Raise e =>
                     r = Raise e /\ fs' = fs3 /\
                     evs = (cfg_events a ++ ev1 ++ ev2 ++ ev3)%list
                 | Ok (hist, model) =>
                     exists ev4,
                       train_py.test env a p b hist model fs3 = (r, fs', ev4) /\
                       evs = (cfg_events a ++ ev1 ++ ev2 ++ ev3 ++ ev4)%list
                 end
           end
     end).
Proof.
  unfold train_py.train. intros H.
  apply bind_inv in H as [(e & H & ->)|([params prefix] & fs0 & ev0 & evA & Hc & H & ->)];
    rewrite configure_run in *.
  { left. destruct (_ <=? _) eqn:Hs; [|discriminate].
    apply Z.leb_le in Hs. by injection H as <- <- <-. }
  right. destruct (_ <=? _) eqn:Hs; [discriminate |]. apply Z.leb_gt in Hs.
  injection Hc as <- <- <- <-. split; [done |].
  apply bind_inv in H as [(e & H & ->)|(p & fs1 & ev1 & evB & Hp & H & ->)].
  { exists (Raise e), fs', evA. by split. }
  exists (Ok p), fs1, ev1. split; [done |].
  apply bind_inv in H as [(e & H & ->)|(b & fs2 & ev2 & evC & Hb & H & ->)].
  { exists (Raise e), fs', evB. by split. }
  exists (Ok b), fs2, ev2. split; [done |].
  apply bind_inv in H as [(e & H & ->)|([hist model] & fs3 & ev3 & ev4 & Hn & H & ->)].
  { exists (Raise e), fs', evC. by split. }
  exists (Ok (hist, model)), fs3, ev3. split; [done |].
  by exists ev4.
Qed.

(** The events of a run, stage by stage; the stages that were not reached
    have none. *)
Lemma train_stages fs r fs' evs :
  train_py.train env a fs = (r, fs', evs) ->
  exists ev1 ev2 ev3 ev4 pp,
    evs = (cfg_events a ++ ev1 ++ ev2 ++ ev3 ++ ev4)%list /\
    Forall data_event ev1 /\
    Forall (build_event env a pp) ev2 /\
    Forall (network_event env a) ev3 /\
    Forall (test_event env a) ev4 /\
    (ev1 = [] \/
     exists r1 fs1, train_py.prepare env a (cfg_params a) fs = (r1, fs1, ev1)) /\
    (ev3 = [] \/
     exists p b fs2 r3 fs3,
       train_py.train_network env a p b fs2 = (r3, fs3, ev3)).
Proof.
  intros H. apply train_inv in H as [(_ & _ & _ & ->)|(_ & r1 & fs1 & ev1 & Hp & H)].
  { exists [], [], [], [], ∅. rewrite !app_nil_r. repeat (split; [done |]).
    split; by left. }
  destruct (prepare_sat env a _ _ _ _ _ Hp) as (Hev1 & _ & _).
  assert (ev1 = [] \/
          exists r1 fs1, train_py.prepare env a (cfg_params a) fs = (r1, fs1, ev1))
    as Hprep by (right; by eexists _, _).
  destruct r1 as [p|e].
  2:{ destruct H as (_ & _ & ->). exists ev1, [], [], [], ∅. rewrite !app_nil_r.
      repeat (split; [done |]). by left. }
  destruct H as (r2 & fs2 & ev2 & Hb & H).
  destruct (build_sat env a p _ _ _ _ Hb) as (Hev2 & _ & Hq2).
  destruct r2 as [b|e].
  2:{ destruct H as (_ & _ & ->). exists ev1, ev2, [], [], (train_py.p_params p).
      rewrite !app_nil_r. repeat (split; [done |]). by left. }
  destruct (Hq2 b eq_refl) as (Hname & _ & _ & Hcbs & _).
  destruct H as (r3 & fs3 & ev3 & Hn & H).
  destruct (network_sat env a p b Hcbs _ _ _ _ Hn) as (Hev3 & _ & _).
  assert (ev3 = [] \/
          exists p b fs2 r3 fs3,
            train_py.train_network env a p b fs2 = (r3, fs3, ev3))
    as Hnet by (right; by eexists _, _, _, _, _).
  destruct r3 as [[hist model]|e].
  2:{ destruct H as (_ & _ & ->). exists ev1, ev2, ev3, [], (train_py.p_params p).
      rewrite !app_nil_r. by repeat (split; [done |]). }
  destruct H as (ev4 & Ht & ->).
  destruct (test_sat env a p b hist model Hname _ _ _ _ Ht) as (Hev4 & _ & _).
  exists ev1, ev2, ev3, ev4, (train_py.p_params p). by repeat (split; [done |]).
Qed.

(** A builder is called with the dictionary the data stage returned. *)
Lemma build_event_inv fs r fs' evs n kw :
  train_py.train env a fs = (r, fs', evs) ->
  In (EvBuild n kw) evs ->
  n = train_py.model_name a /\
  exists p fs1 ev1,
    train_py.prepare env a (cfg_params a) fs = (Ok p, fs1, ev1) /\
    kw = train_py.p_params p.
Proof.
  intros H Hin.
  apply train_inv in H as [(_ & _ & _ & ->)|(_ & r1 & fs1 & ev1 & Hp & H)].
  { unfold cfg_events in Hin. destruct (train_py.log_messages a); by in_cases Hin. }
  assert (~ In (EvBuild n kw) (cfg_events a)) as Hcfg.
  { unfold cfg_events. intros Hin'. destruct (train_py.log_messages a); by in_cases Hin'. }
  assert (~ In (EvBuild n kw) ev1) as Hev1.
  { destruct (prepare_sat env a _ _ _ _ _ Hp) as (Hev1 & _ & _).
    apply (not_in_quiet _ _ _ Hev1); cbn; tauto. }
  destruct r1 as [p|e].
  2:{ destruct H as (_ & _ & ->). rewrite in_app_iff in Hin. tauto. }
  destruct H as (r2 & fs2 & ev2 & Hb & H).
  destruct (build_sat env a p _ _ _ _ Hb) as (Hev2 & _ & Hq2).
  assert (In (EvBuild n kw) ev2 ->
          n = train_py.model_name a /\
          exists p fs1 ev1,
            train_py.prepare env a (cfg_params a) fs = (Ok p, fs1, ev1) /\
            kw = train_py.p_params p) as Hbuild.
  { intros Hin'. rewrite Forall_forall in Hev2. apply list_elem_of_In, Hev2 in Hin'.
    destruct Hin' as (-> & -> & _). split; [done |]. by exists p, fs1, ev1. }
  destruct r2 as [b|e].
  2:{ destruct H as (_ & _ & ->). rewrite !in_app_iff in Hin. tauto. }
  destruct (Hq2 b eq_refl) as (Hname & _ & _ & Hcbs & _).
  destruct H as (r3 & fs3 & ev3 & Hn & H).
  assert (~ In (EvBuild n kw) ev3) as Hev3.
  { destruct (network_sat env a p b Hcbs _ _ _ _ Hn) as (Hev3 & _ & _).
    apply (not_in_quiet _ _ _ Hev3); cbn; tauto. }
  destruct r3 as [[hist model]|e].
  2:{ destruct H as (_ & _ & ->). rewrite !in_app_iff in Hin. tauto. }
  destruct H as (ev4 & Ht & ->).
  assert (~ In (EvBuild n kw) ev4) as Hev4.
  { destruct (test_sat env a p b hist model Hname _ _ _ _ Ht) as (Hev4 & _ & _).
    apply (not_in_quiet _ _ _ Hev4); cbn; tauto. }
  rewrite !in_app_iff in Hin. tauto.
Qed.

(** The data stage changes no file. *)
Lemma prepare_files params fs r fs' evs :
  train_py.prepare env a params fs = (r, fs', evs) -> fs' = fs.
Proof.
  apply (sat_unchanged _ _ _ _ _ _ _ (prepare_sat env a params)). by intros [].
Qed.

(** X8.  The attributes of the dataset take precedence over the
    arguments of [train]: whatever key the loaded dataset brings among its
    attributes reaches the builder with the dataset's value, and only the
    other keys carry what the call said; excepted are the nine keys that
    are set after the merge. *)
Theorem dataset_attributes_win fs r fs' evs d name kw :
  io_load env (train_py.data_dir a) (train_py.x_suffix a) (train_py.y_suffix a) = Ok d ->
  train_py.train env a fs = (r, fs', evs) ->
  In (EvBuild name kw) evs ->
  forall k,
    k ∉ added_keys ->
    kw !! k = match d_attrs d !! k with
              | Some v => Some v
              | None => cfg_params a !! k
              end.
Proof.
  intros Hd H Hin k Hk.
  destruct (train_sat env a _ _ _ _ H) as (Hev & _).
  rewrite Forall_forall in Hev. apply list_elem_of_In, Hev in Hin.
  destruct Hin as (_ & _ & d' & Hd' & Hkw).
  rewrite Hd in Hd'. injection Hd' as <-.
  rewrite (Hkw k Hk), lookup_union. by destruct (d_attrs d !! k), (cfg_params a !! k).
Qed.

(** X9.  A run changes no file but its three outputs and the files the
    hooks of its library callbacks write (TensorBoard, when asked for,
    writes its logs below [save_dir]), whether it returns or raises: any
    other path holds after the run what it held before. *)
Theorem other_files_untouched fs r fs' evs p :
  train_py.train env a fs = (r, fs', evs) ->
  p <> params_name env a -> p <> checkpoint_name env a -> p <> results_name env a ->
  ~ callback_path env a p ->
  fs' !! p = fs !! p.
Proof.
  intros H Hp Hc Hr Hcb.
  destruct (train_sat env a _ _ _ _ H) as (Hev & Hfs & _).
  apply Hfs. intros Hin.
  rewrite Forall_forall in Hev. apply list_elem_of_In, Hev in Hin.
  cbn in Hin. tauto.
Qed.

(** A run on a model name without an entry. *)
Lemma unknown_model_run fs r fs' evs :
  models.model_dict (layers env) !! train_py.model_name a = None ->
  train_py.train env a fs = (r, fs', evs) ->
  (exists e, r = Raise e) /\ fs' = fs /\
  Forall (fun ev => is_log ev \/ data_event ev) evs.
Proof.
  intros Hnone H.
  assert (Forall (fun ev => is_log ev \/ data_event ev) (cfg_events a)) as Hcfg.
  { unfold cfg_events.
    destruct (train_py.log_messages a); [constructor; [by left | constructor] | constructor]. }
  apply train_inv in H as [(_ & -> & -> & ->)|(_ & r1 & fs1 & ev1 & Hp & H)].
  { split; [by eexists |]. by split. }
  pose proof (prepare_files _ _ _ _ _ Hp) as ->.
  destruct (prepare_sat env a _ _ _ _ _ Hp) as (Hev1 & _ & _).
  assert (Forall (fun ev => is_log ev \/ data_event ev) ev1) as Hev1'
      by (eapply Forall_impl; [exact Hev1 | by right]).
  destruct r1 as [p|e].
  2:{ destruct H as (-> & -> & ->). split; [by eexists |]. split; [done |].
      by apply Forall_app. }
  destruct H as (r2 & fs2 & ev2 & Hb & H).
  rewrite (build_unknown env a _ p fs Hnone) in Hb. injection Hb as <- <- <-.
  destruct H as (-> & -> & ->). split; [by eexists |]. split; [done |].
  apply Forall_app. split; [done |]. apply Forall_app. split; [done |].
  constructor; [by left | constructor].
Qed.

(** X10.  A run on a [model_name] that is not registered fails without
    a trace on disk: it raises, every file is as it was, nothing was
    written, the output directory was not asked for, no network was built
    and no epoch was run.  (The data was loaded first.) *)
Theorem unknown_model_leaves_no_trace fs r fs' evs :
  models.model_dict (layers env) !! train_py.model_name a = None ->
  train_py.train env a fs = (r, fs', evs) ->
  (exists e, r = Raise e) /\ fs' = fs /\
  (forall p, ~ In (EvWrite p) evs) /\
  (forall p, ~ In (EvMakedirs p) evs) /\
  (forall n kw, ~ In (EvBuild n kw) evs) /\
  epochs_of evs = [].
Proof.
  intros Hnone H. destruct (unknown_model_run _ _ _ _ Hnone H) as (Hr & Hfs & Hev).
  split; [done |]. split; [done |].
  split; [|split; [|split]].
  - intros p. apply (not_in_quiet _ _ _ Hev). cbn. tauto.
  - intros p. apply (not_in_quiet _ _ _ Hev). cbn. tauto.
  - intros n kw. apply (not_in_quiet _ _ _ Hev). cbn. tauto.
  - apply (epochs_of_none _ _ Hev). intros [] [H1|H1]; cbn in *; tauto.
Qed.



End AnyRun.

(** ** What the data stage hands on (lines 175-245) *)

Section DataStage.
Context (env : Env) (a : train_py.train_args).

Lemma resolve_fraction_none d fs o fs' evs :
  train_py.resolve_fraction a d fs = (Ok o, fs', evs) ->
  train_py.fraction_data a = None -> o = None.
Proof.
  unfold train_py.resolve_fraction. intros H Hnone. rewrite Hnone in H.
  apply ret_inv in H as (H & _). by injection H as <-.
Qed.

(** The dictionary of a data stage that returned: the attributes of the
    dataset over the parameters of the call, the hash of the data, the
    shape of the training data, the windows and the class weights. *)
Lemma prepare_ok params fs p fs' evs :
  train_py.prepare env a params fs = (Ok p, fs', evs) ->
  exists d nb_freq nb_channels class_names nb_classes cw,
    io_load env (train_py.data_dir a) (train_py.x_suffix a) (train_py.y_suffix a) = Ok d /\
    train_py.p_d p = d /\
    shape_idx (sx (d_train d)) 1 = Ok nb_freq /\
    shape_last (sx (d_train d)) = Ok nb_channels /\
    (d_attrs d ∪ params) !! "class_names" = Some class_names /\
    py_len "class_names" class_names = Ok nb_classes /\
    train_py.p_params p !! "nb_freq" = Some (VInt nb_freq) /\
    train_py.p_params p !! "nb_channels" = Some (VInt nb_channels) /\
    train_py.p_params p !! "nb_classes" = Some (VInt nb_classes) /\
    train_py.p_params p !! "class_weights" = Some cw /\
    (if train_py.balance a
     then compute_class_weight env (sy (d_train d)) = Ok cw
     else cw = VNone) /\
    (if train_py.version_data a
     then exists h, hash_data env (train_py.data_dir a) = Ok h /\
                    train_py.p_params p !! "data_hash" = Some (VStr h)
     else train_py.p_params p !! "data_hash" = (d_attrs d ∪ params) !! "data_hash") /\
    (train_py.fraction_data a = None \/ train_py.batch_level_subsampling a = true ->
     train_py.p_params p !! "first_sample_train" = Some (VInt 0) /\
     train_py.p_params p !! "last_sample_train" = Some VNone /\
     train_py.p_params p !! "first_sample_val" = Some (VInt 0) /\
     train_py.p_params p !! "last_sample_val" = Some VNone).
Proof.
  unfold train_py.prepare. intros H.
  ok_skip H. ok_skip H. ok_bind H d Hd.
  apply bind_ok_inv in H as (params1 & fsA & evA & evA' & Hhash & H & ->).
  assert ((forall k, k <> "data_hash" -> params1 !! k = (d_attrs d ∪ params) !! k) /\
          if train_py.version_data a
          then exists h, hash_data env (train_py.data_dir a) = Ok h /\
                         params1 !! "data_hash" = Some (VStr h)
          else params1 = d_attrs d ∪ params) as [Hp1 Hh1].
  { destruct (train_py.version_data a).
    - ok_bind Hhash h Hh. ok_skip Hhash. ok_skip Hhash. ok_skip Hhash.
      apply ret_inv in Hhash as (Hhash & _). injection Hhash as ->.
      split; [intros k Hk; by rewrite lookup_insert_ne |].
      exists h. split; [done | by rewrite lookup_insert_eq].
    - apply ret_inv in Hhash as (Hhash & _). by injection Hhash as ->. }
  clear Hhash.
  apply bind_ok_inv in H as (fraction & fsB & evB & evB' & Hfrac & H & ->).
  pose proof (resolve_fraction_none _ _ _ _ _ Hfrac) as Hfr. clear Hfrac.
  apply bind_ok_inv in H as ([[[ft lt] fv] lv] & fsC & evC & evC' & Hwin & H & ->).
  assert (train_py.fraction_data a = None \/ train_py.batch_level_subsampling a = true ->
          ft = 0 /\ lt = VNone /\ fv = 0 /\ lv = VNone) as Hw.
  { intros Hcase. destruct fraction as [f|].
    - destruct (train_py.batch_level_subsampling a).
      + apply ret_inv in Hwin as (Hwin & _). by injection Hwin as -> -> -> ->.
      + destruct Hcase as [Hcase|Hcase]; [by specialize (Hfr Hcase) | done].
    - apply ret_inv in Hwin as (Hwin & _). by injection Hwin as -> -> -> ->. }
  clear Hwin.
  ok_bind H nb_freq Hnf. ok_bind H nb_channels Hnc. ok_bind H nb_classes Hncl.
  ok_skip H. ok_skip H. ok_skip H.
  apply bind_ok_inv in H as (shuffle_subset & fsD & evD & evD' & _ & H & ->).
  ok_bind H data_gen Hdg. ok_bind H val_gen Hvg.
  ok_skip H. ok_skip H. ok_skip H. ok_skip H.
  apply bind_ok_inv in H as (params2 & fsE & evE & evE' & Hbal & H & ->).
  apply ret_inv in H as (H & _). injection H as ->.
  cbn [train_py.p_d train_py.p_params].
  set (base := list_to_map
                 [("nb_freq", VInt nb_freq); ("nb_channels", VInt nb_channels);
                  ("nb_classes", VInt nb_classes); ("first_sample_train", VInt ft);
                  ("last_sample_train", lt); ("first_sample_val", VInt fv);
                  ("last_sample_val", lv)] ∪ params1) in *.
  assert (exists cw,
             (if train_py.balance a
              then compute_class_weight env (sy (d_train d)) = Ok cw
              else cw = VNone) /\
             params2 !! "class_weights" = Some cw /\
             forall k, k <> "class_weights" -> params2 !! k = base !! k)
    as (cw & Hcw & Hcw' & Hp2).
  { destruct (train_py.balance a).
    - ok_bind Hbal cw Hcw. ok_skip Hbal.
      apply ret_inv in Hbal as (Hbal & _). injection Hbal as ->.
      exists cw. split; [done |]. split; [by rewrite lookup_insert_eq |].
      intros k Hk. by rewrite !lookup_insert_ne.
    - apply ret_inv in Hbal as (Hbal & _). injection Hbal as ->.
      exists VNone. split; [done |]. split; [by rewrite lookup_insert_eq |].
      intros k Hk. by rewrite lookup_insert_ne. }
  clear Hbal.
  symmetry in Hncl. apply obind_ok in Hncl as (class_names & Hcn & Hlen).
  unfold train_py.getitem in Hcn.
  destruct (params1 !! "class_names") as [cn|] eqn:Ecn; [|discriminate].
  injection Hcn as ->. rewrite Hp1 in Ecn by done.
  exists d, nb_freq, nb_channels, class_names, nb_classes, cw.
  split; [done |]. split; [done |]. split; [done |]. split; [done |].
  split; [done |]. split; [done |].
  split; [rewrite Hp2 by done; by apply lookup_union_Some_l |].
  split; [rewrite Hp2 by done; by apply lookup_union_Some_l |].
  split; [rewrite Hp2 by done; by apply lookup_union_Some_l |].
  split; [done |]. split; [done |]. split.
  - destruct (train_py.version_data a).
    + destruct Hh1 as (h & Hh & Hh'). exists h. split; [done |].
      rewrite Hp2 by done. unfold base. by rewrite lookup_union_r.
    + rewrite Hp2 by done. unfold base. rewrite lookup_union_r by done. by subst params1.
  - intros Hcase. destruct (Hw Hcase) as (-> & -> & -> & ->).
    split; [rewrite Hp2 by done; by apply lookup_union_Some_l |].
    split; [rewrite Hp2 by done; by apply lookup_union_Some_l |].
    split; [rewrite Hp2 by done; by apply lookup_union_Some_l |].
    rewrite Hp2 by done; by apply lookup_union_Some_l.
Qed.

Lemma cfg_params_class_names : cfg_params a !! "class_names" = None.
Proof. apply cfg_params_other; [string_in | done]. Qed.

(** X12.  The network is sized by the data: in every run the builder is
    handed, as [nb_freq] and [nb_channels], the second and the last axis of
    the training inputs, and as [nb_classes] the number of class names
    among the attributes of the dataset, whatever the dataset or the call
    say under these three keys. *)
Theorem builder_is_sized_by_the_data fs r fs' evs name kw :
  train_py.train env a fs = (r, fs', evs) ->
  In (EvBuild name kw) evs ->
  exists d nb_freq nb_channels class_names nb_classes,
    io_load env (train_py.data_dir a) (train_py.x_suffix a) (train_py.y_suffix a) = Ok d /\
    shape_idx (sx (d_train d)) 1 = Ok nb_freq /\
    shape_last (sx (d_train d)) = Ok nb_channels /\
    d_attrs d !! "class_names" = Some class_names /\
    py_len "class_names" class_names = Ok nb_classes /\
    kw !! "nb_freq" = Some (VInt nb_freq) /\
    kw !! "nb_channels" = Some (VInt nb_channels) /\
    kw !! "nb_classes" = Some (VInt nb_classes).
Proof.
  intros H Hin.
  destruct (build_event_inv env a _ _ _ _ _ _ H Hin) as (_ & p & fs1 & ev1 & Hp & ->).
  apply prepare_ok in Hp
      as (d & nb_freq & nb_channels & class_names & nb_classes & cw
          & Hd & _ & Hnf & Hnc & Hcn & Hlen & Hk1 & Hk2 & Hk3 & _).
  exists d, nb_freq, nb_channels, class_names, nb_classes.
  split; [done |]. split; [done |]. split; [done |]. split; [|done].
  rewrite lookup_union, cfg_params_class_names in Hcn.
  by destruct (d_attrs d !! "class_names").
Qed.

(** X13.  Without [fraction_data], and with batch-level subsampling,
    the generators are given the whole of the training and validation
    data: the dictionary that reaches the builder holds 0 and None as the
    first and last sample of both.  The class weights in it are None unless
    [balance] is set, and then they are what the library computed from the
    training targets; with [version_data] it holds the hash of
    [data_dir]. *)
Theorem whole_data_without_fraction fs r fs' evs name kw :
  train_py.train env a fs = (r, fs', evs) ->
  In (EvBuild name kw) evs ->
  (train_py.fraction_data a = None \/ train_py.batch_level_subsampling a = true ->
   kw !! "first_sample_train" = Some (VInt 0) /\
   kw !! "last_sample_train" = Some VNone /\
   kw !! "first_sample_val" = Some (VInt 0) /\
   kw !! "last_sample_val" = Some VNone) /\
  (train_py.balance a = false -> kw !! "class_weights" = Some VNone) /\
  (train_py.balance a = true ->
   exists d cw,
     io_load env (train_py.data_dir a) (train_py.x_suffix a) (train_py.y_suffix a) = Ok d /\
     compute_class_weight env (sy (d_train d)) = Ok cw /\
     kw !! "class_weights" = Some cw) /\
  (train_py.version_data a = true ->
   exists h, hash_data env (train_py.data_dir a) = Ok h /\
             kw !! "data_hash" = Some (VStr h)).
Proof.
  intros H Hin.
  destruct (build_event_inv env a _ _ _ _ _ _ H Hin) as (_ & p & fs1 & ev1 & Hp & ->).
  apply prepare_ok in Hp
      as (d & nb_freq & nb_channels & class_names & nb_classes & cw
          & Hd & _ & _ & _ & _ & _ & _ & _ & _ & Hcw & Hbal & Hhash & Hwin).
  split; [exact Hwin |]. split; [|split].
  - intros Hb. rewrite Hb in Hbal. by subst cw.
  - intros Hb. rewrite Hb in Hbal. by exists d, cw.
  - intros Hv. by rewrite Hv in Hhash.
Qed.

(** X14.  Without class names there is no network: on a dataset whose
    attributes have no 'class_names', every run raises before a builder is
    called, and leaves every file as it was; when nothing else fails on
    the way (the hash of the data is there if asked for, no fraction is
    taken, the training inputs have two axes) the error is the KeyError on
    'class_names'. *)
Theorem class_names_are_required fs r fs' evs d :
  io_load env (train_py.data_dir a) (train_py.x_suffix a) (train_py.y_suffix a) = Ok d ->
  d_attrs d !! "class_names" = None ->
  train_py.train env a fs = (r, fs', evs) ->
  (exists e, r = Raise e) /\ fs' = fs /\
  (forall n kw, ~ In (EvBuild n kw) evs) /\
  (forall p, ~ In (EvWrite p) evs) /\
  (0 < train_py.stride (train_py.windowing a) ->
   train_py.fraction_data a = None ->
   (train_py.version_data a = true ->
    exists h, hash_data env (train_py.data_dir a) = Ok h) ->
   (exists n c rest, arr_shape (sx (d_train d)) = n :: c :: rest) ->
   r = Raise (KeyError "class_names")).
Proof.
  intros Hd Hattr H.
  assert (forall p fs1 ev1, train_py.prepare env a (cfg_params a) fs <> (Ok p, fs1, ev1))
    as Hnot.
  { intros p fs1 ev1 Hp. apply prepare_ok in Hp
        as (d' & ? & ? & ? & ? & ? & Hd' & _ & _ & _ & Hcn & _).
    rewrite Hd in Hd'. injection Hd' as <-.
    rewrite lookup_union, cfg_params_class_names, Hattr in Hcn. discriminate Hcn. }
  assert (forall n kw, ~ In (EvBuild n kw) evs) as Hnobuild.
  { intros n kw Hin.
    destruct (build_event_inv env a _ _ _ _ _ _ H Hin) as (_ & p & fs1 & ev1 & Hp & _).
    by apply Hnot in Hp. }
  apply train_inv in H as [(Hs & -> & -> & ->)|(Hs & r1 & fs1 & ev1 & Hp & H)].
  { split; [by eexists |]. split; [done |]. split; [done |]. split; [|lia].
    intros p Hin. unfold cfg_events in Hin.
    destruct (train_py.log_messages a); by in_cases Hin. }
  destruct r1 as [p|e]; [by apply Hnot in Hp |].
  destruct H as (-> & -> & ->).
  pose proof (prepare_files env a _ _ _ _ _ Hp) as ->.
  destruct (prepare_sat env a _ _ _ _ _ Hp) as (Hev1 & _ & _).
  split; [by eexists |]. split; [done |]. split; [done |]. split.
  { intros p Hin. rewrite in_app_iff in Hin. destruct Hin as [Hin|Hin].
    - unfold cfg_events in Hin. destruct (train_py.log_messages a); by in_cases Hin.
    - revert Hin. apply (not_in_quiet _ _ _ Hev1); cbn; tauto. }
  intros _ Hfr Hhash (n & c & rest & Hshape). f_equal.
  clear Hnot Hnobuild Hev1. unfold train_py.prepare in Hp.
  apply bind_inv in Hp as [(e' & Hp & _)|([] & fsA & evA & evA' & Hstep & Hp & _)];
    [by apply emit_inv in Hp as (? & _) |].
  clear Hstep.
  apply bind_inv in Hp as [(e' & Hp & _)|([] & fsB & evB & evB' & Hstep & Hp & _)];
    [by apply emit_inv in Hp as (? & _) |].
  clear Hstep.
  apply bind_inv in Hp as [(e' & Hp & _)|(d' & fsC & evC & evC' & Hstep & Hp & _)];
    [apply lib_call_inv in Hp as (Hp & _); congruence |].
  apply lib_call_inv in Hstep as (Hstep & _). rewrite Hd in Hstep. injection Hstep as <-.
  apply bind_inv in Hp as [(e' & Hp & _)|(params1 & fsD & evD & evD' & Hstep & Hp & _)].
  { exfalso. destruct (train_py.version_data a); [|by apply ret_inv in Hp as (? & _)].
    destruct (Hhash eq_refl) as [h Hh].
    apply bind_inv in Hp as [(e2 & Hp & _)|(h' & fsD & evD & evD' & _ & Hp & _)];
      [apply lib_call_inv in Hp as (Hp & _); congruence |].
    apply bind_inv in Hp as [(e2 & Hp & _)|([] & fsE & evE & evE' & _ & Hp & _)];
      [by apply emit_inv in Hp as (? & _) |].
    apply bind_inv in Hp as [(e2 & Hp & _)|([] & fsF & evF & evF' & _ & Hp & _)];
      [by apply emit_inv in Hp as (? & _) |].
    apply bind_inv in Hp as [(e2 & Hp & _)|([] & fsG & evG & evG' & _ & Hp & _)];
      [by apply emit_inv in Hp as (? & _) |].
    by apply ret_inv in Hp as (? & _). }
  assert (params1 !! "class_names" = None) as Hcn.
  { destruct (train_py.version_data a).
    - ok_bind Hstep h Hh. ok_skip Hstep. ok_skip Hstep. ok_skip Hstep.
      apply ret_inv in Hstep as (Hstep & _). injection Hstep as ->.
      rewrite lookup_insert_ne by done.
      by rewrite lookup_union, cfg_params_class_names, Hattr.
    - apply ret_inv in Hstep as (Hstep & _). injection Hstep as ->.
      by rewrite lookup_union, cfg_params_class_names, Hattr. }
  clear Hstep.
  unfold train_py.resolve_fraction in Hp. rewrite Hfr in Hp.
  apply bind_inv in Hp as [(e' & Hp & _)|(fraction & fsE & evE & evE' & Hstep & Hp & _)];
    [by apply ret_inv in Hp as (? & _) |].
  apply ret_inv in Hstep as (Hstep & _). injection Hstep as ->.
  apply bind_inv in Hp as [(e' & Hp & _)|(win & fsF & evF & evF' & Hstep & Hp & _)];
    [by apply ret_inv in Hp as (? & _) |].
  apply ret_inv in Hstep as (Hstep & _). injection Hstep as ->.
  unfold shape_idx, shape_last in Hp. rewrite Hshape in Hp. cbn [nth_error] in Hp.
  apply bind_inv in Hp as [(e' & Hp & _)|(nb_freq & fsG & evG & evG' & Hstep & Hp & _)];
    [by apply lib_call_inv in Hp as (? & _) |].
  clear Hstep.
  apply bind_inv in Hp as [(e' & Hp & _)|(nb_channels & fsH & evH & evH' & Hstep & Hp & _)];
    [by apply lib_call_inv in Hp as (? & _) |].
  clear Hstep.
  unfold train_py.getitem in Hp. rewrite Hcn in Hp.
  apply bind_inv in Hp as [(e' & Hp & He)|(nb_classes & fsI & evI & evI' & Hstep & _)].
  - apply lib_call_inv in Hp as (Hp & _). cbn in Hp. congruence.
  - apply lib_call_inv in Hstep as (Hstep & _). cbn in Hstep. discriminate Hstep.
Qed.

End DataStage.

(** ** What a run returns *)

Lemma builder_last lib name f args kwargs m :
  models.model_dict lib !! name = Some f ->
  models.__call__ f args kwargs = Ok m ->
  exists n, passed "nb_classes" 1 args kwargs = Some (VInt n) /\
            List.last (output_shape m) None = Some n.
Proof.
  intros Hf Hcall.
  destruct (model_dict_inv _ _ _ Hf) as [_ [-> | [-> | ->]]]; cbn [models.__call__] in Hcall.
  - unfold models.tcn in Hcall. by apply tcn_stft_last in Hcall.
  - by apply tcn_stft_last in Hcall.
  - by apply tcn_tcn_last in Hcall.
Qed.

Lemma find_build_skip (P : event -> Prop) evs rest :
  Forall P evs -> (forall n kw, ~ P (EvBuild n kw)) ->
  build_kwargs (evs ++ rest) = build_kwargs rest.
Proof.
  intros Hev HP. unfold build_kwargs. rewrite find_app_none; [done |].
  apply find_all_false. eapply Forall_impl; [exact Hev |].
  intros [] Hp; try done. by destruct (HP _ _ Hp).
Qed.

Section Returned.
Context (env : Env) (a : train_py.train_args).

(** The stages of a run that returned, and what links them. *)
Lemma returned_run fs res fs' evs :
  train_py.train env a fs = (Ok res, fs', evs) ->
  exists p b hist model fs3 ev1 ev4 f,
    train_py.prepare env a (cfg_params a) fs = (Ok p, fs, ev1) /\
    build_kwargs evs = Some (train_py.p_params p) /\
    train_py.b_params b = delete "neptune_api_token" (train_py.p_params p) /\
    train_py.b_save_name b = stem env a /\
    models.model_dict (layers env) !! train_py.model_name a = Some f /\
    models.__call__ f [] (train_py.p_params p) = Ok (train_py.b_model b) /\
    model = set_weights (train_py.b_model b) (m_weights model) /\
    train_py.test env a p b hist model fs3 = (Ok res, fs', ev4).
Proof.
  intros H.
  apply train_ok in H
      as (p & b & hist & model & fs1 & fs2 & fs3 & ev1 & ev2 & ev3 & ev4
          & Hs & Hp & Hb & Hn & Ht & ->).
  pose proof (prepare_files env a _ _ _ _ _ Hp) as ->.
  destruct (prepare_sat env a _ _ _ _ _ Hp) as (Hev1 & _ & _).
  destruct (build_sat env a p _ _ _ _ Hb) as (_ & _ & Hq).
  destruct (Hq b eq_refl) as (Hname & _ & Hparams & _ & (f & Hf & Hcall) & _).
  exists p, b, hist, model, fs3, ev1, ev4, f.
  split; [done |]. split; [|split; [done |]; split; [done |]; split; [done |];
                            split; [done |]; split; [|done]].
  - rewrite (find_build_skip is_log); [|apply cfg_events_log | by intros ? ? []].
    rewrite (find_build_skip data_event); [|done | by intros ? ? []].
    apply build_ok_events in Hb as (f' & rest & _ & ->). reflexivity.
  - unfold train_py.train_network in Hn. ok_skip Hn. ok_skip Hn.
    by apply fit_model in Hn.
Qed.

Lemma cfg_params_token :
  cfg_params a !! "neptune_api_token" = Some (of_opt VStr (train_py.neptune_api_token a)).
Proof. by rewrite cfg_params_lookup. Qed.

(** X15.  The API token of the experiment tracker does not leave
    [train]: the dictionary a run returns, which is also the one in the
    results bundle, is the dictionary the builder was called with less its
    'neptune_api_token' entry.  The builder (and whatever was handed the
    dictionary before line 270) did receive that entry. *)
Theorem token_is_not_returned fs m params fs' evs :
  train_py.train env a fs = (Ok (Some (m, params)), fs', evs) ->
  exists kw r,
    build_kwargs evs = Some kw /\
    is_Some (kw !! "neptune_api_token") /\
    params = delete "neptune_api_token" kw /\
    params !! "neptune_api_token" = None /\
    fs' !! results_name env a = Some (ResultsFile r) /\
    r_params r = params.
Proof.
  intros H.
  apply returned_run in H
      as (p & b & hist & model & fs3 & ev1 & ev4 & f
          & Hp & Hkw & Hparams & Hname & _ & _ & _ & Ht).
  destruct (prepare_sat env a _ _ _ _ _ Hp) as (_ & _ & Hq).
  destruct (Hq p eq_refl) as [_ Hkeys].
  apply test_ok in Ht as (n & _ & [(_ & ? & _)|(_ & w & r & ? & ? & ? & _ & Hres & -> & _
                                                 & Hr & _)]); [discriminate |].
  injection Hres as _ ->.
  exists (train_py.p_params p), r.
  split; [done |]. split; [|split; [done |]; split; [|split]].
  - rewrite Hkeys by string_in. apply lookup_union_is_Some. right.
    rewrite cfg_params_token. by eexists.
  - rewrite Hparams. apply lookup_delete_eq.
  - unfold results_name. rewrite Hname. apply lookup_insert_eq.
  - done.
Qed.

(** X16.  The network a run returns has one output unit per class name
    of the dataset. *)
Theorem output_units_are_the_classes fs m params fs' evs d names :
  train_py.train env a fs = (Ok (Some (m, params)), fs', evs) ->
  io_load env (train_py.data_dir a) (train_py.x_suffix a) (train_py.y_suffix a) = Ok d ->
  d_attrs d !! "class_names" = Some (VList names) ->
  List.last (output_shape m) None = Some (Z.of_nat (length names)).
Proof.
  intros H Hd Hnames.
  apply returned_run in H
      as (p & b & hist & model & fs3 & ev1 & ev4 & f
          & Hp & _ & _ & _ & Hf & Hcall & Hmodel & Ht).
  apply prepare_ok in Hp
      as (d' & nb_freq & nb_channels & class_names & nb_classes & cw
          & Hd' & _ & _ & _ & Hcn & Hlen & _ & _ & Hk & _).
  rewrite Hd in Hd'. injection Hd' as <-.
  rewrite lookup_union, cfg_params_class_names, Hnames in Hcn.
  injection Hcn as <-. cbn in Hlen. injection Hlen as <-.
  destruct (builder_last _ _ _ _ _ _ Hf Hcall) as (n & Hn & Hlast).
  unfold passed in Hn. cbn [nth_error] in Hn. rewrite Hk in Hn. injection Hn as <-.
  apply test_ok in Ht as (n & _ & [(_ & ? & _)|(_ & w & r & ? & ? & ? & _ & Hres & _)]);
    [discriminate |].
  injection Hres as -> _. rewrite Hmodel. exact Hlast.
Qed.

End Returned.

(** ** The settings of the network *)

(** The parameters the two signatures share, as a call by keywords binds
    them. *)
Definition shared_args (kw : gmap string pyval) (a : models.builder_args) : Prop :=
  models.arg kw "nb_filters" models.as_int 16 = Ok (models.nb_filters a) /\
  models.arg kw "kernel_size" models.as_int 3 = Ok (models.kernel_size a) /\
  models.arg kw "nb_conv" models.as_int 1 = Ok (models.nb_conv a) /\
  models.arg kw "loss" models.as_str "categorical_crossentropy" = Ok (models.loss a) /\
  models.arg kw "dilations" models.as_opt_int_list None = Ok (models.dilations a) /\
  models.arg kw "activation" models.as_str "norm_relu" = Ok (models.activation a) /\
  models.arg kw "use_skip_connections" models.as_bool true
  = Ok (models.use_skip_connections a) /\
  models.arg kw "return_sequences" models.as_bool true = Ok (models.return_sequences a) /\
  models.arg kw "dropout_rate" models.as_float 0%Q = Ok (models.dropout_rate a) /\
  models.arg kw "padding" models.as_str "same" = Ok (models.padding a) /\
  models.arg kw "sample_weight_mode" models.as_opt_str None
  = Ok (models.sample_weight_mode a) /\
  models.arg kw "nb_pre_conv" models.as_int 0 = Ok (models.nb_pre_conv a) /\
  models.arg kw "use_separable" models.as_any (VBool false) = Ok (models.use_separable a).

Lemma typed_args_shared kw a : models.typed_args kw = Ok a -> shared_args kw a.
Proof.
  intros H. apply typed_args_inv in H
      as (_ & H2 & H3 & H4 & H5 & H6 & H7 & H8 & H9 & H10 & H11 & H12 & H13 & _ & _ & _ & H17).
  unfold shared_args. repeat (split; [assumption |]). assumption.
Qed.

Lemma typed_args_drop_shared kw a :
  models.typed_args (models.drop_ignored models.tcn_tcn_params kw) = Ok a ->
  shared_args kw a.
Proof.
  intros H. apply typed_args_shared in H. unfold shared_args in *.
  rewrite !arg_drop_param in H by string_in. exact H.
Qed.

(** A model from the registry, by keywords: the typed arguments its body
    ran on. *)
Lemma builder_typed lib name f kw m :
  models.model_dict lib !! name = Some f ->
  models.__call__ f [] kw = Ok m ->
  exists a, shared_args kw a /\
            (models.tcn_stft_body lib a = Ok m \/ models.tcn_tcn_body lib a = Ok m).
Proof.
  intros Hf Hcall.
  destruct (model_dict_inv _ _ _ Hf) as [_ [-> | [-> | ->]]]; cbn [models.__call__] in Hcall;
    unfold models.tcn, models.tcn_stft, models.tcn_tcn in Hcall;
    rewrite bind_signature_nil in Hcall; cbn [mbind outcome_bind obind] in Hcall;
    apply obind_ok in Hcall as (a & Ha & Hbody); exists a.
  - split; [by apply typed_args_shared | by left].
  - split; [by apply typed_args_shared | by left].
  - split; [by apply typed_args_drop_shared | by right].
Qed.

(** What the bodies compile, and the TCN layers they stack. *)
Lemma body_compiled lib a m :
  models.tcn_stft_body lib a = Ok m \/ models.tcn_tcn_body lib a = Ok m ->
  m_name m = "TCN" /\
  m_loss m = models.loss a /\
  m_sample_weight_mode m = models.sample_weight_mode a /\
  m_optimizer m = Adam (models.learning_rate a) true 1%Q /\
  forall cfg, In (TCN cfg) (layer_list m) ->
              cfg = models.main_tcn a (dilations_used a) (models.nb_conv a) None \/
              cfg = models.main_tcn a (dilations_used a) (models.nb_pre_conv a)
                      (Some "frontend").
Proof.
  intros H.
  assert (exists x y, m = models.compile x y a) as (x & y & Hm).
  { destruct H as [H|H].
    - unfold models.tcn_stft_body in H. do 6 inv_ok H. injection H as <-. by eexists _, _.
    - unfold models.tcn_tcn_body in H. do 5 inv_ok H. injection H as <-. by eexists _, _. }
  split; [by subst m |]. split; [by subst m |]. split; [by subst m |].
  split; [by subst m |]. clear x y Hm.
  intros cfg Hin. destruct H as [H|H].
  - apply tcn_stft_body_layers in H as (frontend & Hl & Hfrontend).
    rewrite Hl in Hin. cbn [In] in Hin. destruct Hin as [Hin|Hin]; [discriminate Hin |].
    rewrite !in_app_iff in Hin. destruct Hin as [Hin|[Hin|[Hin|[Hin|Hin]]]].
    + destruct (0 <? models.nb_pre_conv a).
      * destruct Hfrontend as (d1 & d23 & ->). by in_cases Hin.
      * subst frontend. by destruct Hin.
    + in_cases Hin. injection Hin as <-. by left.
    + destruct (0 <? models.nb_lstm_units a); by in_cases Hin.
    + by in_cases Hin.
    + destruct (_ && _); by in_cases Hin.
  - apply tcn_tcn_body_layers in H. rewrite H in Hin.
    cbn [In] in Hin. destruct Hin as [Hin|Hin]; [discriminate Hin |].
    rewrite !in_app_iff in Hin. destruct Hin as [Hin|[Hin|Hin]].
    + destruct (0 <? models.nb_pre_conv a); in_cases Hin.
      injection Hin as <-. by right.
    + in_cases Hin. injection Hin as <-. by left.
    + destruct (_ && _); by in_cases Hin.
Qed.

Lemma arg_absent {A} kw k (conv : string -> pyval -> outcome A) d x :
  kw !! k = None -> models.arg kw k conv d = Ok x -> x = d.
Proof. unfold models.arg. intros ->. by intros [= <-]. Qed.

Lemma arg_present {A} kw k (conv : string -> pyval -> outcome A) d x v :
  kw !! k = Some v -> models.arg kw k conv d = Ok x -> conv k v = Ok x.
Proof. unfold models.arg. by intros ->. Qed.

Section Settings.
Context (env : Env) (a : train_py.train_args).

(** X17.  On a dataset whose attributes name no parameter of the
    builders, the network of a run is built from the arguments of [train]
    and the defaults of the builder for all that [train] has no argument
    for: it is compiled with the loss 'categorical_crossentropy' and with
    sample weights per time step ('temporal') in regression mode, none in
    classification mode; and every TCN layer in it has [nb_filters]
    filters of [kernel_size] samples, the dilations 1, 2, 4, 8, 16, the
    activation 'norm_relu', skip connections, 'same' padding, no dropout,
    the [use_separable] of the call, returns sequences exactly in
    regression mode, and has [nb_conv] stacks, or [nb_pre_conv] if it is
    the frontend. *)
Theorem network_settings fs r fs' evs d name kw f m :
  io_load env (train_py.data_dir a) (train_py.x_suffix a) (train_py.y_suffix a) = Ok d ->
  (forall k, k ∈ models.tcn_stft_params -> d_attrs d !! k = None) ->
  train_py.train env a fs = (r, fs', evs) ->
  In (EvBuild name kw) evs ->
  models.model_dict (layers env) !! name = Some f ->
  models.__call__ f [] kw = Ok m ->
  m_loss m = "categorical_crossentropy" /\
  m_sample_weight_mode m = (if train_py.with_y_hist a then Some "temporal" else None) /\
  forall cfg,
    In (TCN cfg) (layer_list m) ->
    tc_nb_filters cfg = train_py.nb_filters a /\
    tc_kernel_size cfg = train_py.kernel_size a /\
    tc_dilations cfg = [1; 2; 4; 8; 16] /\
    tc_activation cfg = "norm_relu" /\
    tc_use_skip_connections cfg = true /\
    tc_padding cfg = "same" /\
    tc_dropout_rate cfg = 0%Q /\
    tc_use_separable cfg = train_py.use_separable a /\
    tc_return_sequences cfg = train_py.with_y_hist a /\
    (tc_nb_stacks cfg = train_py.nb_conv a \/
     tc_nb_stacks cfg = train_py.nb_pre_conv a /\ tc_name cfg = Some "frontend").
Proof.
  intros Hd Hattrs H Hin Hf Hcall.
  destruct (train_sat env a _ _ _ _ H) as (Hev & _).
  rewrite Forall_forall in Hev. apply list_elem_of_In, Hev in Hin.
  destruct Hin as (_ & _ & d' & Hd' & Hkw).
  rewrite Hd in Hd'. injection Hd' as <-.
  assert (forall k, k ∈ models.tcn_stft_params -> k ∉ added_keys ->
                    k <> "learning_rate" ->
                    kw !! k
                    = train_py.locals a (train_py.windowing a) 1 (cfg_prefix a) !! k)
    as Hlocal.
  { intros k Hk Hadded Hlr. rewrite (Hkw k Hadded), lookup_union_r by auto.
    apply cfg_params_lookup; [| done |]; intros ->; revert Hk;
      [change ("_qt_progress" ∉ models.tcn_stft_params)
      |change ("unpack_channels" ∉ models.tcn_stft_params)]; string_in. }
  destruct (builder_typed _ _ _ _ _ Hf Hcall) as (b & Hb & Hbody).
  destruct Hb as (B1 & B2 & B3 & B4 & B5 & B6 & B7 & B8 & B9 & B10 & B11 & B12 & B13).
  destruct (body_compiled _ _ _ Hbody) as (_ & Hloss & Hswm & _ & Htcn).
  assert (kw !! "nb_filters" = Some (VInt (train_py.nb_filters a))) as K1
      by (rewrite Hlocal by (done || string_in); reflexivity).
  assert (kw !! "kernel_size" = Some (VInt (train_py.kernel_size a))) as K2
      by (rewrite Hlocal by (done || string_in); reflexivity).
  assert (kw !! "nb_conv" = Some (VInt (train_py.nb_conv a))) as K3
      by (rewrite Hlocal by (done || string_in); reflexivity).
  assert (kw !! "loss" = None) as K4
      by (rewrite Hlocal by (done || string_in); reflexivity).
  assert (kw !! "dilations" = None) as K5
      by (rewrite Hlocal by (done || string_in); reflexivity).
  assert (kw !! "activation" = None) as K6
      by (rewrite Hlocal by (done || string_in); reflexivity).
  assert (kw !! "use_skip_connections" = None) as K7
      by (rewrite Hlocal by (done || string_in); reflexivity).
  assert (kw !! "return_sequences"
          = Some (VBool (train_py.return_sequences (train_py.windowing a)))) as K8
      by (rewrite Hlocal by (done || string_in); reflexivity).
  assert (kw !! "dropout_rate" = None) as K9
      by (rewrite Hlocal by (done || string_in); reflexivity).
  assert (kw !! "padding" = None) as K10
      by (rewrite Hlocal by (done || string_in); reflexivity).
  assert (kw !! "sample_weight_mode"
          = Some (of_opt VStr (train_py.sample_weight_mode (train_py.windowing a)))) as K11
      by (rewrite Hlocal by (done || string_in); reflexivity).
  assert (kw !! "nb_pre_conv" = Some (VInt (train_py.nb_pre_conv a))) as K12
      by (rewrite Hlocal by (done || string_in); reflexivity).
  assert (kw !! "use_separable" = Some (train_py.use_separable a)) as K13
      by (rewrite Hlocal by (done || string_in); reflexivity).
  apply (arg_present _ _ _ _ _ _ K1) in B1. injection B1 as B1.
  apply (arg_present _ _ _ _ _ _ K2) in B2. injection B2 as B2.
  apply (arg_present _ _ _ _ _ _ K3) in B3. injection B3 as B3.
  apply (arg_absent _ _ _ _ _ K4) in B4.
  apply (arg_absent _ _ _ _ _ K5) in B5.
  apply (arg_absent _ _ _ _ _ K6) in B6.
  apply (arg_absent _ _ _ _ _ K7) in B7.
  apply (arg_present _ _ _ _ _ _ K8) in B8. injection B8 as B8.
  apply (arg_absent _ _ _ _ _ K9) in B9.
  apply (arg_absent _ _ _ _ _ K10) in B10.
  apply (arg_present _ _ _ _ _ _ K11) in B11.
  apply (arg_present _ _ _ _ _ _ K12) in B12. injection B12 as B12.
  apply (arg_present _ _ _ _ _ _ K13) in B13. injection B13 as B13.
  assert (train_py.return_sequences (train_py.windowing a) = train_py.with_y_hist a)
    as Hrs.
  { unfold train_py.windowing.
    destruct (train_py.with_y_hist a); [destruct (train_py.ignore_boundaries a) |]; done. }
  assert (models.sample_weight_mode b
          = if train_py.with_y_hist a then Some "temporal" else None) as Hmode.
  { revert B11. unfold train_py.windowing.
    destruct (train_py.with_y_hist a); [destruct (train_py.ignore_boundaries a) |];
      cbn; by intros [= <-]. }
  split; [by rewrite Hloss, B4 |]. split; [by rewrite Hswm |].
  intros cfg Hin.
  assert (dilations_used b = [1; 2; 4; 8; 16]) as Hdil
      by (unfold dilations_used; by rewrite B5).
  destruct (Htcn cfg Hin) as [-> | ->]; cbn; rewrite Hdil, <- B1, <- B2, B6, B7, B9, B10,
    <- B13, <- B8, Hrs.
  - do 9 (split; [done |]). left. by rewrite <- B3.
  - do 9 (split; [done |]). right. by rewrite <- B12.
Qed.

End Settings.

(** ** The output directory comes first *)

Lemma before_in {A} (xs : list A) x rest pre y post :
  (xs ++ x :: rest = pre ++ y :: post)%list ->
  (forall z, In z xs -> z <> y) -> x <> y -> In x pre.
Proof.
  revert pre. induction xs as [|x0 xs IH]; intros [|p0 pre] H Hxs Hx; cbn in H.
  - injection H as H _. contradiction.
  - injection H as <- _. by left.
  - injection H as H _. destruct (Hxs x0 (or_introl eq_refl) H).
  - injection H as _ H. right. apply (IH pre H); [|done].
    intros z Hz. apply Hxs. by right.
Qed.

Section Directory.
Context (env : Env) (a : train_py.train_args).

(** The build stage either fails before anything is written, or gets to
    create the output directory, before anything is written. *)
Lemma build_makedirs prefix p fs r fs' evs :
  train_py.build env a prefix p fs = (r, fs', evs) ->
  (Forall no_write evs /\ exists e, r = Raise e) \/
  (exists pre post,
      evs = (pre ++ EvMakedirs (train_py.save_dir a) :: post)%list /\
      Forall no_write pre).
Proof.
  unfold train_py.build. intros H.
  apply bind_inv in H as [(e & H & _)|([] & fs1 & ev1 & evA & H1 & H & ->)];
    [by apply emit_inv in H as (? & _) |].
  apply emit_inv in H1 as (_ & -> & ->).
  apply bind_inv in H as [(e & H & ->)|(f & fs2 & ev2 & evB & H2 & H & ->)].
  { left. split; [|by eexists].
    destruct (models.model_dict _ !! _); [by apply ret_inv in H as (? & _) |].
    injection H as _ _ <-. by repeat constructor. }
  assert (ev2 = []) as ->.
  { destruct (models.model_dict _ !! _); [by apply ret_inv in H2 as (_ & _ & ->) |].
    discriminate H2. }
  clear H2.
  apply bind_inv in H as [(e & H & _)|([] & fs3 & ev3 & evC & H3 & H & ->)];
    [by apply emit_inv in H as (? & _) |].
  apply emit_inv in H3 as (_ & -> & ->).
  apply bind_inv in H as [(e & H & ->)|(model & fs4 & ev4 & evD & H4 & H & ->)].
  { left. split; [|by eexists].
    apply lib_call_inv in H as (_ & _ & ->). by repeat constructor. }
  apply lib_call_inv in H4 as (_ & -> & ->).
  apply bind_inv in H as [(e & H & _)|([] & fs5 & ev5 & evE & H5 & H & ->)];
    [by apply emit_inv in H as (? & _) |].
  apply emit_inv in H5 as (_ & -> & ->).
  apply bind_inv in H as [(e & H & _)|([] & fs6 & ev6 & evF & H6 & H & ->)];
    [by apply emit_inv in H as (? & _) |].
  apply emit_inv in H6 as (_ & -> & ->).
  right.
  exists [EvLog "INFO" (LFmt "building network" []);
          EvBuild (models.__name__ f) (train_py.p_params p);
          EvLog "INFO" (LFmt "{}" [VNone])], evF.
  split; [reflexivity | by repeat constructor].
Qed.

(** X18.  Nothing is written before the output directory was asked for:
    in every run, whether it returns or raises, each write to a file comes
    after the call that creates [save_dir]. *)
Theorem directory_before_files fs r fs' evs pre p post :
  train_py.train env a fs = (r, fs', evs) ->
  evs = (pre ++ EvWrite p :: post)%list ->
  In (EvMakedirs (train_py.save_dir a)) pre.
Proof.
  intros H Hsplit.
  assert (forall l, Forall no_write l -> forall z, In z l -> z <> EvWrite p) as Hquiet.
  { intros l Hl z Hz ->. rewrite Forall_forall in Hl.
    by apply list_elem_of_In, Hl in Hz. }
  assert (Forall no_write (cfg_events a)) as Hcfg.
  { unfold cfg_events. destruct (train_py.log_messages a); by repeat constructor. }
  assert (forall l, Forall no_write l -> l <> (pre ++ EvWrite p :: post)%list) as Hnone.
  { intros l Hl ->. apply Forall_app in Hl as [_ Hl]. by inversion Hl. }
  apply train_inv in H as [(_ & _ & _ & ->)|(_ & r1 & fs1 & ev1 & Hp & H)];
    [by destruct (Hnone _ Hcfg) |].
  destruct (prepare_sat env a _ _ _ _ _ Hp) as (Hev1 & _ & _).
  assert (Forall no_write ev1) as Hev1'
      by (eapply Forall_impl; [exact Hev1 | by intros []]).
  destruct r1 as [p1|e].
  2:{ destruct H as (_ & _ & ->). destruct (Hnone (cfg_events a ++ ev1)%list); [|done].
      by apply Forall_app. }
  destruct H as (r2 & fs2 & ev2 & Hb & H).
  assert (exists tail, evs = (cfg_events a ++ ev1 ++ ev2 ++ tail)%list /\
                       (tail = [] \/ exists b, r2 = Ok b)) as (tail & -> & Htail).
  { destruct r2 as [b|e].
    - destruct H as (r3 & fs3 & ev3 & _ & H). destruct r3 as [[hist model]|e].
      + destruct H as (ev4 & _ & ->). exists (ev3 ++ ev4)%list. split; [done |].
        right. by eexists.
      + destruct H as (_ & _ & ->). exists ev3. split; [done |]. right. by eexists.
    - destruct H as (_ & _ & ->). exists []. rewrite app_nil_r. split; [done | by left]. }
  apply build_makedirs in Hb as [(Hev2 & e & ->)|(pre2 & post2 & -> & Hpre2)].
  - destruct Htail as [-> | [b Hb]]; [|discriminate Hb].
    rewrite app_nil_r in Hsplit.
    destruct (Hnone (cfg_events a ++ ev1 ++ ev2)%list); [|done].
    apply Forall_app. split; [done |]. by apply Forall_app.
  - apply (before_in (cfg_events a ++ ev1 ++ pre2) _ (post2 ++ tail) pre (EvWrite p) post).
    + rewrite <- Hsplit, <- !app_assoc. cbn [app]. reflexivity.
    + apply Hquiet. apply Forall_app. split; [done |]. by apply Forall_app.
    + discriminate.
Qed.

End Directory.

(** ** The epochs of a run *)

(** What the callbacks of an epoch may emit. *)
Definition checkpoint_event (ev : event) : Prop :=
  match ev with
  | EvWrite _ | EvCheckpoint _ _ _ _ => True
  | _ => False
  end.

Definition epoch_numbers (evs : list event) : list nat :=
  map (fun x => x.1.1) (epochs_of evs).

Lemma epochs_of_absent (P : event -> Prop) evs :
  Forall P evs -> (forall e w l, ~ P (EvEpoch e w l)) -> epochs_of evs = [].
Proof.
  intros H HP. induction H as [|ev evs Hev _ IH]; [done |].
  rewrite epochs_of_cons, IH. destruct ev; try done. by destruct (HP _ _ _ Hev).
Qed.

Section Epochs.
Context (env : Env).

Lemma save_checkpoint_event_sat model e logs path swo :
  sat (save_checkpoint model e logs path swo) checkpoint_event (fun _ => True).
Proof.
  unfold save_checkpoint.
  eapply sat_bind; [by apply sat_write_any |]. cbn beta. intros _ _.
  by apply sat_emit_any.
Qed.

Lemma hook_event_sat {A} (h : hook A) :
  sat (run_hook h) checkpoint_event (fun _ => True).
Proof. eapply sat_weaken; [apply run_hook_sat | done | done]. by intros. Qed.

Lemma on_epoch_end_event_sat model e logs c :
  sat (on_epoch_end env model e logs c) checkpoint_event (fun _ => True).
Proof.
  unfold on_epoch_end. destruct (cb c).
  - destruct save_best_only.
    + destruct (get_monitor _ _); [|by apply sat_ret].
      destruct (monitor_op _ _ _); [|by apply sat_ret].
      eapply sat_bind; [apply save_checkpoint_event_sat |]. cbn beta. intros _ _.
      by apply sat_ret.
    + eapply sat_bind; [apply save_checkpoint_event_sat |]. cbn beta. intros _ _.
      by apply sat_ret.
  - destruct (get_monitor _ _); [|by apply sat_ret].
    destruct (monitor_op _ _ _); by apply sat_ret.
  - eapply sat_bind; [apply hook_event_sat |]. cbn beta. intros stop _. by apply sat_ret.
  - eapply sat_bind; [apply hook_event_sat |]. cbn beta. intros stop _. by apply sat_ret.
  - eapply sat_bind; [apply hook_event_sat |]. cbn beta. intros stop _. by apply sat_ret.
  - eapply sat_bind; [apply hook_event_sat |]. cbn beta. intros stop _. by apply sat_ret.
Qed.

Lemma callbacks_event_sat model e logs cbs :
  sat (callbacks_epoch_end env model e logs cbs) checkpoint_event (fun _ => True).
Proof.
  induction cbs as [|c rest IH]; cbn [callbacks_epoch_end].
  - by apply sat_ret.
  - eapply sat_bind; [apply on_epoch_end_event_sat |]. cbn beta. intros [c' stop] _.
    eapply sat_bind; [exact IH |]. cbn beta. intros [rest' stop'] _.
    by apply sat_ret.
Qed.

Lemma callbacks_no_epochs model e logs cbs fs r fs' evs :
  callbacks_epoch_end env model e logs cbs fs = (r, fs', evs) -> epochs_of evs = [].
Proof.
  intros H. destruct (callbacks_event_sat _ _ _ _ _ _ _ _ H) as (Hev & _).
  apply (epochs_of_absent _ _ Hev). by intros ? ? ? [].
Qed.

(** The hooks of the callbacks run no epoch. *)
Definition hooks (f : callback -> M unit) : Prop :=
  f = on_train_begin env \/ (exists e, f = on_epoch_begin env e) \/ f = on_train_end env.

Lemma hooks_no_epochs f cbs fs r fs' evs :
  hooks f -> for_each f cbs fs = (r, fs', evs) -> epochs_of evs = [].
Proof.
  intros Hf.
  assert (sat (for_each f cbs) checkpoint_event (fun _ => True)) as Hsat.
  { induction cbs as [|c rest IH]; cbn [for_each]; [by apply sat_ret |].
    eapply sat_bind with (Q1 := fun _ => True); [|intros _ _; exact IH].
    destruct Hf as [->|[[e ->]| ->]];
      destruct c; first [by apply sat_ret | apply hook_event_sat]. }
  intros H. destruct (Hsat _ _ _ _ H) as (Hev & _).
  apply (epochs_of_absent _ _ Hev). by intros ? ? ? [].
Qed.

(** The loop numbers its epochs from [e] on, and runs at most [n] of
    them. *)
Lemma fit_loop_epochs req n :
  forall e model cbs hist fs r fs' evs,
    fit_loop env req n e model cbs hist fs = (r, fs', evs) ->
    exists k, (k <= n)%nat /\ epoch_numbers evs = seq e k.
Proof.
  unfold epoch_numbers.
  induction n as [|n IH]; intros e model cbs hist fs r fs' evs H; cbn [fit_loop] in H.
  { apply ret_inv in H as (_ & _ & ->). exists 0%nat. by split. }
  assert (hooks (on_epoch_begin env e)) as Hhook by (right; left; by eexists).
  apply bind_inv in H as [(err & H & _)|([] & fs0 & ev0 & ev0' & H0 & H & ->)].
  { rewrite (hooks_no_epochs _ _ _ _ _ _ Hhook H). exists 0%nat. split; [lia | done]. }
  rewrite epochs_of_app, (hooks_no_epochs _ _ _ _ _ _ Hhook H0). cbn [app].
  apply bind_inv in H as [(err & H & _)|(logs & fs1 & ev1 & evA & H1 & H & ->)].
  { apply lib_call_inv in H as (_ & _ & ->). exists 0%nat. split; [lia | done]. }
  apply lib_call_inv in H1 as (_ & -> & ->).
  apply bind_inv in H as [(err & H & _)|([] & fs2 & ev2 & evB & H2 & H & ->)];
    [by apply emit_inv in H as (? & _) |].
  apply emit_inv in H2 as (_ & -> & ->).
  cbn [app]. rewrite epochs_of_cons. cbn [map fst].
  apply bind_inv in H as [(err & H & _)|([cbs' stop] & fs3 & ev3 & evC & H3 & H & ->)].
  { apply callbacks_no_epochs in H. rewrite H. exists 1%nat. split; [lia | done]. }
  apply callbacks_no_epochs in H3. rewrite epochs_of_app, H3. cbn [app].
  destruct stop.
  - apply ret_inv in H as (_ & _ & ->). exists 1%nat. split; [lia | done].
  - apply IH in H as (k & Hk & ->). exists (S k). split; [lia | done].
Qed.

(** The hooks at the begin and at the end of training run no epoch. *)
Lemma fit_epochs req model fs r fs' evs :
  fit env model req fs = (r, fs', evs) ->
  exists k, (k <= Z.to_nat (fr_epochs req))%nat /\ epoch_numbers evs = seq 0 k.
Proof.
  unfold fit, epoch_numbers. intros H.
  assert (hooks (on_train_begin env)) as Hbegin by by left.
  assert (hooks (on_train_end env)) as Hend by (by right; right).
  apply bind_inv in H as [(err & H & _)|([] & fs1 & ev1 & evA & H1 & H & ->)].
  { rewrite (hooks_no_epochs _ _ _ _ _ _ Hbegin H).
    exists 0%nat. split; [lia | done]. }
  rewrite epochs_of_app, (hooks_no_epochs _ _ _ _ _ _ Hbegin H1). cbn [app].
  apply bind_inv in H as [(err & H & _)|(res & fs2 & ev2 & evB & H2 & H & ->)].
  { by apply fit_loop_epochs in H. }
  apply fit_loop_epochs in H2 as (k & Hk & Hseq). exists k. split; [done |].
  rewrite epochs_of_app.
  assert (epochs_of evB = []) as ->; [|by rewrite app_nil_r].
  apply bind_inv in H as [(err & H & _)|([] & fs3 & ev3 & evC & H3 & H & ->)].
  { by rewrite (hooks_no_epochs _ _ _ _ _ _ Hend H). }
  apply ret_inv in H as (_ & _ & ->).
  by rewrite epochs_of_app, (hooks_no_epochs _ _ _ _ _ _ Hend H3).
Qed.

Context (a : train_py.train_args).

Lemma network_epochs p b fs r fs' evs :
  train_py.train_network env a p b fs = (r, fs', evs) ->
  exists k, (k <= Z.to_nat (train_py.nb_epoch a))%nat /\ epoch_numbers evs = seq 0 k.
Proof.
  unfold train_py.train_network. intros H.
  apply bind_inv in H as [(err & H & _)|([] & fs1 & ev1 & evA & H1 & H & ->)];
    [by apply emit_inv in H as (? & _) |].
  apply emit_inv in H1 as (_ & -> & ->).
  apply bind_inv in H as [(err & H & _)|(cw & fs2 & ev2 & evB & H2 & H & ->)].
  { apply lib_call_inv in H as (_ & _ & ->). exists 0%nat. split; [lia | done]. }
  apply lib_call_inv in H2 as (_ & -> & ->).
  apply fit_epochs in H as (k & Hk & Hseq). by exists k.
Qed.

Lemma run_epoch_numbers fs r fs' evs :
  train_py.train env a fs = (r, fs', evs) ->
  exists ev3,
    epochs_of evs = epochs_of ev3 /\
    (ev3 = [] \/
     exists p b fs2 r3 fs3, train_py.train_network env a p b fs2 = (r3, fs3, ev3)).
Proof.
  intros H.
  apply train_stages in H
      as (ev1 & ev2 & ev3 & ev4 & pp & -> & Hev1 & Hev2 & _ & Hev4 & _ & Hnet).
  exists ev3. split; [|exact Hnet].
  rewrite !epochs_of_app.
  assert (epochs_of (cfg_events a) = []) as ->
      by (apply (epochs_of_absent _ _ (cfg_events_log a)); by intros ? ? ? []).
  assert (epochs_of ev1 = []) as ->
      by (apply (epochs_of_absent _ _ Hev1); by intros ? ? ? []).
  assert (epochs_of ev2 = []) as ->
      by (apply (epochs_of_absent _ _ Hev2); by intros ? ? ? []).
  assert (epochs_of ev4 = []) as ->
      by (apply (epochs_of_absent _ _ Hev4); by intros ? ? ? []).
  cbn [app]. by rewrite app_nil_r.
Qed.

(** X20.  The epochs of a run are numbered 0, 1, 2, ... without a gap,
    and there are at most [nb_epoch] of them (none for [nb_epoch <= 0]),
    whether training ran to the end, was stopped by a callback or
    failed. *)
Theorem epochs_are_counted fs r fs' evs :
  train_py.train env a fs = (r, fs', evs) ->
  exists k, (k <= Z.to_nat (train_py.nb_epoch a))%nat /\ epoch_numbers evs = seq 0 k.
Proof.
  intros H. unfold epoch_numbers.
  apply run_epoch_numbers in H as (ev3 & -> & [-> | (p & b & fs2 & r3 & fs3 & Hn)]).
  - exists 0%nat. split; [lia | done].
  - by apply network_epochs in Hn.
Qed.

End Epochs.

(** ** No epoch, no model *)

Section NoEpochs.
Context (env : Env) (a : train_py.train_args).

(** What the training stage emits when no epoch runs: its log line and
    the writes of the hooks of the library callbacks. *)
Definition idle_event (ev : event) : Prop :=
  match ev with
  | EvLog _ _ => True
  | EvWrite q => callback_path env a q
  | _ => False
  end.

Lemma network_without_epochs p b :
  train_py.nb_epoch a <= 0 ->
  train_callbacks env a (train_py.b_callbacks b) ->
  sat (train_py.train_network env a p b) idle_event (fun _ => True).
Proof.
  intros Hn (rest & Hcbs & Hrest). unfold train_py.train_network. sat_skip. sat_next.
  unfold fit. cbn [fr_epochs fr_callbacks]. rewrite Hcbs.
  replace (Z.to_nat (train_py.nb_epoch a)) with 0%nat by lia.
  cbn [for_each on_train_begin on_train_end fit_loop].
  assert (Forall (bystander (configured env a)) rest) as Hrest'.
  { eapply Forall_impl; [exact Hrest |]. apply configured_bystander. }
  assert (forall ev, hook_event (callback_path env a) ev -> idle_event ev) as Hidle
      by (by intros []).
  eapply sat_bind with (Q1 := fun _ => True).
  { do 2 (eapply sat_bind with (Q1 := fun _ => True); [by apply sat_ret |];
        cbn beta; intros _ _).
    eapply sat_weaken; [by apply train_begin_sat | exact Hidle | done]. }
  cbn beta. intros _ _.
  eapply sat_bind with (Q1 := fun _ => True); [by apply sat_ret |].
  cbn beta. intros r _.
  eapply sat_bind with (Q1 := fun _ => True); [|intros _ _; by apply sat_ret].
  do 2 (eapply sat_bind with (Q1 := fun _ => True); [by apply sat_ret |];
        cbn beta; intros _ _).
  eapply sat_weaken; [by apply train_end_sat | exact Hidle | done].
Qed.

Lemma load_weights_missing model path fs :
  fs !! path = None ->
  load_weights model path fs
  = (Raise (LibraryError "load_weights"), fs, [EvLoadWeights path]).
Proof.
  intros Hnone. unfold load_weights. rewrite bind_run. cbn [emit].
  rewrite bind_run. unfold read_file. by rewrite Hnone.
Qed.

(** The last stage when there is no checkpoint to load. *)
Lemma test_without_checkpoint p b hist model fs r fs' evs :
  fs !! train_py.b_checkpoint_save_name b = None ->
  train_py.test env a p b hist model fs = (r, fs', evs) ->
  fs' = fs /\ returned_model r = None /\
  (forall w, ~ In (EvEvaluate w) evs) /\
  (forall q, ~ In (EvWrite q) evs) /\
  (forall q, In (EvLoadWeights q) evs -> r = Raise (LibraryError "load_weights")) /\
  epochs_of evs = [].
Proof.
  intros Hnone. unfold train_py.test. intros H.
  apply bind_inv in H as [(err & H & ->)|(n & fs1 & ev1 & evA & H1 & H & ->)].
  { apply lib_call_inv in H as (_ & -> & ->).
    split; [done |]. split; [done |]. split; [by intros ? [] |].
    split; [by intros ? [] |]. split; [by intros ? [] | done]. }
  apply lib_call_inv in H1 as (_ & -> & ->). cbn [app].
  destruct (n <? train_py.nb_hist a).
  - apply bind_inv in H as [(err & H & _)|([] & fs2 & ev2 & evB & H2 & H & ->)];
      [by apply emit_inv in H as (? & _) |].
    apply emit_inv in H2 as (_ & -> & ->).
    apply ret_inv in H as (-> & -> & ->). cbn [app].
    split; [done |]. split; [done |].
    split; [intros w Hin; by in_cases Hin |].
    split; [intros q Hin; by in_cases Hin |].
    split; [intros q Hin; by in_cases Hin | done].
  - apply bind_inv in H as [(err & H & _)|([] & fs2 & ev2 & evB & H2 & H & ->)];
      [by apply emit_inv in H as (? & _) |].
    apply emit_inv in H2 as (_ & -> & ->).
    apply bind_inv in H as [(err & H & ->)|(model' & fs3 & ev3 & evC & H3 & _)];
      rewrite (load_weights_missing _ _ _ Hnone) in *; [|discriminate H3].
    injection H as <- <- <-. cbn [app].
    split; [done |]. split; [done |].
    split; [intros w Hin; by in_cases Hin |].
    split; [intros q Hin; by in_cases Hin |]. split; done.
Qed.

(** The events of a run that trains for no epoch, up to its last
    stage. *)
Definition calm_event (ev : event) : Prop :=
  match ev with
  | EvEvaluate _ | EvEpoch _ _ _ | EvCheckpoint _ _ _ _ | EvLoadWeights _ => False
  | EvWrite q => q = params_name env a \/ callback_path env a q
  | _ => True
  end.

(** X21.  Training for no epoch leaves no checkpoint, and then there
    is nothing to evaluate: with [nb_epoch <= 0] (no file already at the
    path of the checkpoint, and no library callback that writes to it) no
    run returns a model.  No epoch runs, nothing is evaluated, nothing is
    written but the parameters file and what the hooks of the library
    callbacks write when training begins and ends, and a run that gets as
    far as re-loading the best model fails there. *)
Theorem no_epochs_no_model fs r fs' evs :
  train_py.nb_epoch a <= 0 ->
  params_suffix env <> "_model.h5" ->
  fs !! checkpoint_name env a = None ->
  ~ callback_path env a (checkpoint_name env a) ->
  train_py.train env a fs = (r, fs', evs) ->
  returned_model r = None /\
  epochs_of evs = [] /\
  (forall w, ~ In (EvEvaluate w) evs) /\
  (forall q, In (EvWrite q) evs -> q = params_name env a \/ callback_path env a q) /\
  (forall q, In (EvLoadWeights q) evs -> r = Raise (LibraryError "load_weights")).
Proof.
  intros Hn Hsuffix Hnone Hfree H.
  assert (checkpoint_name env a <> params_name env a) as Hdiff.
  { unfold checkpoint_name, params_name. intros Heq.
    apply append_inv_head in Heq. by symmetry in Heq. }
  assert (exists calm ev4,
             evs = (calm ++ ev4)%list /\ Forall calm_event calm /\
             returned_model r = None /\
             (forall w, ~ In (EvEvaluate w) ev4) /\
             (forall q, ~ In (EvWrite q) ev4) /\
             (forall q, In (EvLoadWeights q) ev4 ->
                        r = Raise (LibraryError "load_weights")) /\
             epochs_of ev4 = [])
    as (calm & ev4 & -> & Hcalm & Hr & T1 & T2 & T3 & T4).
  { assert (forall r0 l,
               Forall calm_event l -> returned_model r0 = None ->
               exists calm ev4,
                 l = (calm ++ ev4)%list /\ Forall calm_event calm /\
                 returned_model r0 = None /\
                 (forall w, ~ In (EvEvaluate w) ev4) /\
                 (forall q, ~ In (EvWrite q) ev4) /\
                 (forall q, In (EvLoadWeights q) ev4 ->
                            r0 = Raise (LibraryError "load_weights")) /\
                 epochs_of ev4 = []) as Hall.
    { intros r0 l Hl Hr0. exists l, []. rewrite app_nil_r.
      split; [done |]. split; [done |]. split; [done |]. split; [by intros ? [] |].
      split; [by intros ? [] |]. split; [by intros ? [] | done]. }
    assert (Forall calm_event (cfg_events a)) as Hcfg.
    { unfold cfg_events. destruct (train_py.log_messages a); by repeat constructor. }
    apply train_inv in H as [(_ & -> & -> & ->)|(_ & r1 & fs1 & ev1 & Hp & H)];
      [by apply Hall |].
    pose proof (prepare_files env a _ _ _ _ _ Hp) as ->.
    destruct (prepare_sat env a _ _ _ _ _ Hp) as (Hev1 & _ & _).
    assert (Forall calm_event ev1) as Hev1'
        by (eapply Forall_impl; [exact Hev1 | by intros []]).
    destruct r1 as [p|e].
    2:{ destruct H as (-> & _ & ->). apply Hall; [by apply Forall_app | done]. }
    destruct H as (r2 & fs2 & ev2 & Hb & H).
    destruct (build_sat env a p _ _ _ _ Hb) as (Hev2 & Hfs2 & Hq2).
    assert (Forall calm_event ev2) as Hev2'
        by (eapply Forall_impl; [exact Hev2 | intros [] Hev; cbn in *; tauto]).
    assert (fs2 !! checkpoint_name env a = None) as Hnone2.
    { rewrite Hfs2; [done |]. intros Hin.
      rewrite Forall_forall in Hev2. apply list_elem_of_In, Hev2 in Hin.
      by apply Hdiff. }
    destruct r2 as [b|e].
    2:{ destruct H as (-> & _ & ->).
        apply Hall; [|done]. apply Forall_app. split; [done |]. by apply Forall_app. }
    destruct (Hq2 b eq_refl) as (_ & Hckpt & _ & Hcbs & _).
    destruct H as (r3 & fs3 & ev3 & Hnet & H).
    destruct (network_without_epochs p b Hn Hcbs _ _ _ _ Hnet) as (Hev3 & Hfs3 & _).
    assert (Forall calm_event ev3) as Hev3'
        by (eapply Forall_impl; [exact Hev3 | intros [] Hev; cbn in *; tauto]).
    assert (fs3 !! checkpoint_name env a = None) as Hnone3.
    { rewrite Hfs3; [done |]. intros Hin.
      rewrite Forall_forall in Hev3. by apply list_elem_of_In, Hev3 in Hin. }
    assert (Forall calm_event (cfg_events a ++ ev1 ++ ev2 ++ ev3)%list) as Hpre.
    { apply Forall_app. split; [done |]. apply Forall_app. split; [done |].
      by apply Forall_app. }
    destruct r3 as [[hist model]|e].
    2:{ destruct H as (-> & _ & ->). by apply Hall. }
    destruct H as (ev4 & Ht & ->).
    apply test_without_checkpoint in Ht as (_ & T0 & T1 & T2 & T3 & T4);
      [|by rewrite Hckpt].
    exists (cfg_events a ++ ev1 ++ ev2 ++ ev3)%list, ev4.
    split; [by rewrite <- !app_assoc |]. by repeat (split; [done |]). }
  rewrite Forall_forall in Hcalm.
  split; [done |]. split; [|split; [|split]].
  - rewrite epochs_of_app, T4, app_nil_r. apply (epochs_of_absent calm_event).
    + by apply Forall_forall.
    + by intros ? ? ? [].
  - intros w Hin. apply in_app_iff in Hin as [Hin|Hin]; [|by apply T1 in Hin].
    by apply list_elem_of_In, Hcalm in Hin.
  - intros q Hin. apply in_app_iff in Hin as [Hin|Hin]; [|by apply T2 in Hin].
    apply list_elem_of_In, Hcalm in Hin. exact Hin.
  - intros q Hin. apply in_app_iff in Hin as [Hin|Hin]; [|by apply T3 in Hin].
    by apply list_elem_of_In, Hcalm in Hin.
Qed.

End NoEpochs.

(** * The properties above on concrete runs *)

Lemma wrote_in path evs : wrote path evs = true -> In (EvWrite path) evs.
Proof.
  unfold wrote. intros H. apply existsb_exists in H as (ev & Hin & Hev).
  destruct ev; try discriminate Hev. apply String.eqb_eq in Hev as ->. exact Hin.
Qed.

Lemma full_run_builds : is_some (build_kwargs full_run.2) = true.
Proof. vm_compute. reflexivity. Qed.

Lemma full_run_writes_params :
  wrote "res/20200101_120000_params.yaml" full_run.2 = true.
Proof. vm_compute. reflexivity. Qed.

(** The dataset brings its own 'nb_filters'. *)
Definition attrs_run :=
  train_py.train (demo_env false 4096 {["nb_filters" := VInt 4]})
    (demo_args None None None) ∅.

Lemma attrs_run_builds : is_some (build_kwargs attrs_run.2) = true.
Proof. vm_compute. reflexivity. Qed.

Lemma dataset_attributes_win_witness :
  exists kw,
    build_kwargs attrs_run.2 = Some kw /\
    kw !! "nb_filters" = Some (VInt 4) /\
    kw !! "kernel_size" = Some (VInt 16).
Proof.
  destruct (is_some_inv _ attrs_run_builds) as [kw Hkw].
  unfold attrs_run in *.
  destruct (train_py.train (demo_env false 4096 {["nb_filters" := VInt 4]})
              (demo_args None None None) ∅) as [[r fs'] evs] eqn:Erun.
  cbn [fst snd] in *.
  destruct (build_kwargs_in _ _ Hkw) as [name Hin].
  pose proof (dataset_attributes_win (demo_env false 4096 {["nb_filters" := VInt 4]})
                (demo_args None None None) ∅ r fs' evs
                (demo_dataset 4096 {["nb_filters" := VInt 4]}) name kw eq_refl Erun Hin)
    as Hwin.
  exists kw. split; [exact Hkw |]. split.
  - rewrite (Hwin "nb_filters") by string_in. vm_compute. reflexivity.
  - rewrite (Hwin "kernel_size") by string_in. vm_compute. reflexivity.
Defined.

(** A run with TensorBoard in a directory that holds a file of someone
    else: the file is untouched, the log of TensorBoard is written. *)
Definition kept_files : gmap string file := {["res/notes.txt" := WeightsFile 7]}.

Definition crowded_run :=
  train_py.train (demo_env false 4096 ∅) (with_tensorboard (demo_args None None None))
    kept_files.

Lemma crowded_run_ok : is_ok crowded_run.1.1 = true.
Proof. vm_compute. reflexivity. Qed.

Lemma crowded_run_logs :
  crowded_run.1.2 !! "res/train/events.out.tfevents" = Some (LogFile 3).
Proof. vm_compute. reflexivity. Qed.

Lemma other_files_untouched_witness :
  is_ok crowded_run.1.1 = true /\
  crowded_run.1.2 !! "res/train/events.out.tfevents" = Some (LogFile 3) /\
  crowded_run.1.2 !! "res/notes.txt" = Some (WeightsFile 7).
Proof.
  split; [exact crowded_run_ok |]. split; [exact crowded_run_logs |].
  unfold crowded_run.
  destruct (train_py.train (demo_env false 4096 ∅)
              (with_tensorboard (demo_args None None None)) kept_files)
    as [[r fs'] evs] eqn:Erun.
  cbn [fst snd].
  rewrite (other_files_untouched (demo_env false 4096 ∅)
             (with_tensorboard (demo_args None None None))
             kept_files r fs' evs "res/notes.txt" Erun).
  - vm_compute. reflexivity.
  - string_in.
  - string_in.
  - string_in.
  - intros Hp. apply board_callback_path in Hp; [discriminate Hp | reflexivity].
Defined.

Lemma unknown_model_leaves_no_trace_witness :
  (exists e, unregistered_run.1.1 = Raise e) /\
  unregistered_run.1.2 = ∅ /\
  epochs_of unregistered_run.2 = [].
Proof.
  unfold unregistered_run.
  destruct (train_py.train (demo_env false 4096 ∅)
              (custom_args "resnet" 1024 true None None None) ∅)
    as [[r fs'] evs] eqn:Erun.
  cbn [fst snd].
  destruct (unknown_model_leaves_no_trace (demo_env false 4096 ∅)
              (custom_args "resnet" 1024 true None None None) ∅ r fs' evs
              ltac:(vm_compute; reflexivity) Erun)
    as (Hr & Hfs & _ & _ & _ & Hep).
  split; [exact Hr |]. split; [exact Hfs | exact Hep].
Defined.




Lemma builder_is_sized_by_the_data_witness :
  exists kw,
    build_kwargs full_run.2 = Some kw /\
    kw !! "nb_freq" = Some (VInt 1) /\
    kw !! "nb_channels" = Some (VInt 1) /\
    kw !! "nb_classes" = Some (VInt 2).
Proof.
  destruct (is_some_inv _ full_run_builds) as [kw Hkw].
  unfold full_run in *.
  destruct (train_py.train (demo_env false 4096 ∅) (demo_args None None None) ∅)
    as [[r fs'] evs] eqn:Erun.
  cbn [fst snd] in *.
  destruct (build_kwargs_in _ _ Hkw) as [name Hin].
  destruct (builder_is_sized_by_the_data (demo_env false 4096 ∅) (demo_args None None None)
              ∅ r fs' evs name kw Erun Hin)
    as (d & nb_freq & nb_channels & class_names & nb_classes
        & Hd & Hnf & Hnc & Hcn & Hlen & K1 & K2 & K3).
  injection Hd as <-.
  vm_compute in Hnf. injection Hnf as <-.
  vm_compute in Hnc. injection Hnc as <-.
  vm_compute in Hcn. injection Hcn as <-.
  vm_compute in Hlen. injection Hlen as <-.
  exists kw. split; [exact Hkw |]. split; [exact K1 |]. split; [exact K2 | exact K3].
Defined.

(** A run with [balance]. *)
Definition balanced_run :=
  train_py.train (demo_env false 4096 ∅) (tuned_args "tcn" 3 None false true) ∅.

Lemma balanced_run_builds : is_some (build_kwargs balanced_run.2) = true.
Proof. vm_compute. reflexivity. Qed.

Lemma whole_data_without_fraction_witness :
  exists kw,
    build_kwargs balanced_run.2 = Some kw /\
    kw !! "first_sample_train" = Some (VInt 0) /\
    kw !! "last_sample_train" = Some VNone /\
    kw !! "class_weights" = Some (VList [VFloat 1; VFloat 1]) /\
    kw !! "data_hash" = Some (VStr "9e107d9d372bb6826bd81d3542a419d6").
Proof.
  destruct (is_some_inv _ balanced_run_builds) as [kw Hkw].
  unfold balanced_run in *.
  destruct (train_py.train (demo_env false 4096 ∅) (tuned_args "tcn" 3 None false true) ∅)
    as [[r fs'] evs] eqn:Erun.
  cbn [fst snd] in *.
  destruct (build_kwargs_in _ _ Hkw) as [name Hin].
  destruct (whole_data_without_fraction (demo_env false 4096 ∅)
              (tuned_args "tcn" 3 None false true) ∅ r fs' evs name kw Erun Hin)
    as (Hwin & _ & Hbal & Hhash).
  destruct (Hwin (or_introl eq_refl)) as (W1 & W2 & _).
  destruct (Hbal eq_refl) as (d & cw & _ & Hcw & K).
  destruct (Hhash eq_refl) as (h & Hh & K').
  injection Hcw as <-. injection Hh as <-.
  exists kw. split; [exact Hkw |]. split; [exact W1 |]. split; [exact W2 |].
  split; [exact K | exact K'].
Defined.

(** A run on the dataset without attributes. *)
Definition bare_run :=
  train_py.train (env_of bare_dataset) (demo_args None None None) ∅.

Lemma class_names_are_required_witness :
  bare_run.1.1 = Raise (KeyError "class_names") /\ bare_run.1.2 = ∅.
Proof.
  unfold bare_run.
  destruct (train_py.train (env_of bare_dataset) (demo_args None None None) ∅)
    as [[r fs'] evs] eqn:Erun.
  cbn [fst snd].
  destruct (class_names_are_required (env_of bare_dataset) (demo_args None None None)
              ∅ r fs' evs bare_dataset eq_refl ltac:(vm_compute; reflexivity) Erun)
    as (_ & Hfs & _ & _ & Herr).
  split; [|exact Hfs]. apply Herr.
  - vm_compute. reflexivity.
  - reflexivity.
  - intros _. eexists. reflexivity.
  - exists 5000, 1, []. reflexivity.
Defined.

Lemma token_is_not_returned_witness :
  exists m params r,
    full_run.1.1 = Ok (Some (m, params)) /\
    params !! "neptune_api_token" = None /\
    full_run.1.2 !! "res/20200101_120000_results.h5" = Some (ResultsFile r) /\
    r_params r = params.
Proof.
  destruct (is_some_inv _ full_run_returns_model) as [m Hm].
  unfold full_run in *.
  destruct (train_py.train (demo_env false 4096 ∅) (demo_args None None None) ∅)
    as [[r fs'] evs] eqn:Erun.
  cbn [fst snd] in *.
  destruct r as [[[m' params]|]|]; [|discriminate Hm | discriminate Hm].
  injection Hm as ->.
  destruct (token_is_not_returned (demo_env false 4096 ∅) (demo_args None None None)
              ∅ m params fs' evs Erun)
    as (kw & res & _ & _ & _ & Hnone & Hfile & Hres).
  exists m, params, res. split; [reflexivity |]. split; [exact Hnone |].
  split; [exact Hfile | exact Hres].
Defined.

Lemma output_units_are_the_classes_witness :
  exists m, returned_model full_run.1.1 = Some m /\
            List.last (output_shape m) None = Some 2.
Proof.
  destruct (is_some_inv _ full_run_returns_model) as [m Hm].
  unfold full_run in *.
  destruct (train_py.train (demo_env false 4096 ∅) (demo_args None None None) ∅)
    as [[r fs'] evs] eqn:Erun.
  cbn [fst snd] in *.
  destruct r as [[[m' params]|]|]; [|discriminate Hm | discriminate Hm].
  injection Hm as ->.
  exists m. split; [reflexivity |].
  exact (output_units_are_the_classes (demo_env false 4096 ∅) (demo_args None None None)
           ∅ m params fs' evs (demo_dataset 4096 ∅) [VStr "noise"; VStr "pulse"]
           Erun eq_refl ltac:(vm_compute; reflexivity)).
Defined.

Lemma demo_attributes_plain :
  forall k, k ∈ models.tcn_stft_params -> d_attrs (demo_dataset 4096 ∅) !! k = None.
Proof.
  apply Forall_forall. unfold models.tcn_stft_params.
  repeat (constructor; [vm_compute; reflexivity |]). constructor.
Qed.

Lemma network_settings_witness :
  exists kw f m,
    build_kwargs full_run.2 = Some kw /\
    models.model_dict spec_layers !! "tcn" = Some f /\
    models.__call__ f [] kw = Ok m /\
    m_loss m = "categorical_crossentropy" /\
    m_sample_weight_mode m = Some "temporal" /\
    forall cfg,
      In (TCN cfg) (layer_list m) ->
      tc_nb_filters cfg = 16 /\ tc_kernel_size cfg = 16 /\
      tc_dilations cfg = [1; 2; 4; 8; 16] /\ tc_return_sequences cfg = true.
Proof.
  destruct (is_ok_inv _ full_run_ok) as [res Hres].
  unfold full_run in *.
  destruct (train_py.train (demo_env false 4096 ∅) (demo_args None None None) ∅)
    as [[r fs'] evs] eqn:Erun.
  cbn [fst snd] in *. subst r.
  destruct (returned_run _ _ _ _ _ _ Erun)
    as (p & b & hist & model & fs3 & ev1 & ev4 & f & _ & Hkw & _ & _ & Hf & Hcall & _).
  destruct (build_kwargs_in _ _ Hkw) as [name Hin].
  destruct (build_event_inv _ _ _ _ _ _ _ _ Erun Hin) as (Hname & _).
  destruct (network_settings (demo_env false 4096 ∅) (demo_args None None None)
              ∅ (Ok res) fs' evs (demo_dataset 4096 ∅) name (train_py.p_params p) f
              (train_py.b_model b) eq_refl demo_attributes_plain Erun Hin
              ltac:(rewrite Hname; exact Hf) Hcall)
    as (Hloss & Hmode & Htcn).
  exists (train_py.p_params p), f, (train_py.b_model b).
  split; [exact Hkw |]. split; [exact Hf |]. split; [exact Hcall |].
  split; [exact Hloss |]. split; [exact Hmode |].
  intros cfg Hcfg.
  destruct (Htcn cfg Hcfg) as (T1 & T2 & T3 & _ & _ & _ & _ & _ & T9 & _).
  split; [exact T1 |]. split; [exact T2 |]. split; [exact T3 | exact T9].
Defined.

Lemma directory_before_files_witness :
  exists pre post,
    full_run.2 = (pre ++ EvWrite "res/20200101_120000_params.yaml" :: post)%list /\
    In (EvMakedirs "res") pre.
Proof.
  pose proof (wrote_in _ _ full_run_writes_params) as Hin.
  unfold full_run in *.
  destruct (train_py.train (demo_env false 4096 ∅) (demo_args None None None) ∅)
    as [[r fs'] evs] eqn:Erun.
  cbn [fst snd] in *.
  apply in_split in Hin as (pre & post & Hsplit).
  exists pre, post. split; [exact Hsplit |].
  exact (directory_before_files (demo_env false 4096 ∅) (demo_args None None None)
           ∅ r fs' evs pre _ post Erun Hsplit).
Defined.

Lemma epochs_are_counted_witness :
  exists k, (k <= 3)%nat /\ epoch_numbers full_run.2 = seq 0 k.
Proof.
  unfold full_run.
  destruct (train_py.train (demo_env false 4096 ∅) (demo_args None None None) ∅)
    as [[r fs'] evs] eqn:Erun.
  cbn [fst snd].
  exact (epochs_are_counted (demo_env false 4096 ∅) (demo_args None None None)
           ∅ r fs' evs Erun).
Defined.

(** A run with TensorBoard asked to train for no epoch. *)
Definition idle_run :=
  train_py.train (demo_env false 4096 ∅)
    (with_tensorboard (tuned_args "tcn" 0 None false false)) ∅.

Lemma idle_run_logs : wrote "res/train/events.out.tfevents" idle_run.2 = true.
Proof. vm_compute. reflexivity. Qed.

Lemma no_epochs_no_model_witness :
  returned_model idle_run.1.1 = None /\ epochs_of idle_run.2 = [] /\
  In (EvWrite "res/train/events.out.tfevents") idle_run.2.
Proof.
  pose proof (wrote_in _ _ idle_run_logs) as Hlog.
  unfold idle_run in *.
  destruct (train_py.train (demo_env false 4096 ∅)
              (with_tensorboard (tuned_args "tcn" 0 None false false)) ∅)
    as [[r fs'] evs] eqn:Erun.
  cbn [fst snd] in *.
  assert (~ callback_path (demo_env false 4096 ∅)
            (with_tensorboard (tuned_args "tcn" 0 None false false))
            (checkpoint_name (demo_env false 4096 ∅)
               (with_tensorboard (tuned_args "tcn" 0 None false false)))) as Hfree.
  { intros Hp. apply board_callback_path in Hp; [discriminate Hp | reflexivity]. }
  destruct (no_epochs_no_model (demo_env false 4096 ∅)
              (with_tensorboard (tuned_args "tcn" 0 None false false))
              ∅ r fs' evs ltac:(cbn; lia) ltac:(discriminate)
              ltac:(vm_compute; reflexivity) Hfree Erun)
    as (Hr & Hep & _).
  split; [exact Hr |]. split; [exact Hep | exact Hlog].
Defined.

(** In that run the parameters file and the log of TensorBoard are written,
    and the re-loading of the best model fails for want of a checkpoint. *)
Example idle_run_fails :
  idle_run.1.1 = Raise (LibraryError "load_weights") /\
  wrote "res/20200101_120000_params.yaml" idle_run.2 = true /\
  wrote "res/train/events.out.tfevents" idle_run.2 = true /\
  wrote "res/20200101_120000_model.h5" idle_run.2 = false.
Proof.
  split; [vm_compute; reflexivity |]. split; [vm_compute; reflexivity |].
  split; vm_compute; reflexivity.
Qed.
